(** * Test_Permiso: the exam-practice application [app.py]

    A shallow embedding of the Streamlit script: the question-bank loader
    [load_questions], the stratified exam generator [generate_exam], the
    session state kept in [st.session_state] and one execution of the
    script body, followed by the properties of the specification. *)

From Stdlib Require Import ZArith Ascii DecimalString Sorted.
From stdpp Require Import gmap strings list.

Local Open Scope Z_scope.
Local Open Scope string_scope.
Local Open Scope list_scope.

(** ** Python values and exceptions *)

(** The exceptions the script can raise.  [ReadError] stands for whatever
    [pd.read_csv] raises on a file it cannot parse. *)
Inductive Exn :=
  | FileNotFoundError (msg : string)
  | ValueError (msg : string)
  | ReadError (msg : string)
  | IndexError (msg : string).

(** [str(e)], as used by the f-strings [f"...{e}"]. *)
Definition exn_str (e : Exn) : string :=
  match e with
  | FileNotFoundError m | ValueError m | ReadError m | IndexError m => m
  end.

Inductive Result (T : Type) :=
  | Ok (v : T)
  | Raise (e : Exn).
Arguments Ok {T} v.
Arguments Raise {T} e.

#[global] Instance Result_ret : MRet Result := fun _ v => Ok v.
#[global] Instance Result_bind : MBind Result := fun _ _ f m =>
  match m with
  | Ok v => f v
  | Raise e => Raise e
  end.
#[global] Instance Result_fmap : FMap Result := fun _ _ f m =>
  match m with
  | Ok v => Ok (f v)
  | Raise e => Raise e
  end.

Definition is_ok {T} (r : Result T) : bool :=
  match r with Ok _ => true | Raise _ => false end.

(** ** Strings

    Text is modelled by Rocq strings, the bytes of its UTF-8 encoding, as
    [pd.read_csv] decodes it.  [strip] is Python's [str.strip] without
    argument: it removes, at both ends, the characters for which
    [str.isspace] holds, those outside ASCII included.  [upper] is
    [str.upper] on the ASCII letters, the only characters whose upper case
    is one of the letters A, B, C that the script compares it with. *)

Module Py.

Definition bytes (l : list N) : string :=
  String.string_of_list_ascii (map ascii_of_N l).

(** The number of bytes of the character that starts with byte [c]. *)
Definition width (c : ascii) : nat :=
  let n := N_of_ascii c in
  if (n <? 192)%N then 1%nat
  else if (n <? 224)%N then 2%nat
  else if (n <? 240)%N then 3%nat
  else 4%nat.

(** The characters of a text, each as the bytes that encode it. *)
Fixpoint chars (s : string) : list string :=
  match s with
  | EmptyString => []
  | String c1 s1 =>
      match width c1, s1 with
      | 2%nat, String c2 s2 =>
          String c1 (String c2 EmptyString) :: chars s2
      | 3%nat, String c2 (String c3 s3) =>
          String c1 (String c2 (String c3 EmptyString)) :: chars s3
      | 4%nat, String c2 (String c3 (String c4 s4)) =>
          String c1 (String c2 (String c3 (String c4 EmptyString)))
          :: chars s4
      | _, _ => String c1 EmptyString :: chars s1
      end
  end.

(** The characters [c] with [c.isspace()]: U+0009..U+000D, U+001C..U+001F,
    U+0020, U+0085, U+00A0, U+1680, U+2000..U+200A, U+2028, U+2029, U+202F,
    U+205F and U+3000. *)
Definition whitespace : list string :=
  map bytes
    [ [9]; [10]; [11]; [12]; [13]; [28]; [29]; [30]; [31]; [32];
      [194; 133]; [194; 160];
      [225; 154; 128];
      [226; 128; 128]; [226; 128; 129]; [226; 128; 130]; [226; 128; 131];
      [226; 128; 132]; [226; 128; 133]; [226; 128; 134]; [226; 128; 135];
      [226; 128; 136]; [226; 128; 137]; [226; 128; 138];
      [226; 128; 168]; [226; 128; 169]; [226; 128; 175];
      [226; 129; 159];
      [227; 128; 128] ]%N.

Definition isspace (c : string) : bool := existsb (String.eqb c) whitespace.

(** The characters left once the white space in front is dropped. *)
Fixpoint lstrip (l : list string) : list string :=
  match l with
  | [] => []
  | c :: l' => if isspace c then lstrip l' else l
  end.

Definition rstrip (l : list string) : list string := rev (lstrip (rev l)).

Definition strip (s : string) : string :=
  String.concat EmptyString (rstrip (lstrip (chars s))).

Definition upper_char (c : ascii) : ascii :=
  let n := N_of_ascii c in
  if ((97 <=? n) && (n <=? 122))%N then ascii_of_N (n - 32) else c.

Fixpoint upper (s : string) : string :=
  match s with
  | EmptyString => EmptyString
  | String c s' => String (upper_char c) (upper s')
  end.

(** [str(i)] for an integer. *)
Definition str (i : Z) : string := NilZero.string_of_int (Z.to_int i).

Definition isdigit (c : ascii) : bool :=
  let n := N_of_ascii c in ((48 <=? n) && (n <=? 57))%N.

(** The digits of an integer literal: at least one digit, single
    underscores allowed between digits only. *)
Fixpoint digits (acc : Z) (after_digit : bool) (s : string) : option Z :=
  match s with
  | EmptyString => if after_digit then Some acc else None
  | String c s' =>
      if isdigit c then
        digits (10 * acc + Z.of_N (N_of_ascii c - 48)) true s'
      else if Ascii.eqb c "_" then
        (if after_digit then digits acc false s' else None)
      else None
  end.

(** [int(s)] in base ten: surrounding whitespace and one sign are accepted;
    [None] stands for the [ValueError] of a malformed literal. *)
Definition int (s : string) : option Z :=
  match strip s with
  | String "+" r => digits 0 false r
  | String "-" r => Z.opp <$> digits 0 false r
  | r => digits 0 false r
  end.

(** [repr] of a string without quotes, backslashes or control characters
    (the column names are such strings), and of a list of them. *)
Definition repr_str (s : string) : string := "'" +:+ s +:+ "'".

Fixpoint join (sep : string) (l : list string) : string :=
  match l with
  | [] => EmptyString
  | [s] => s
  | s :: l' => s +:+ sep +:+ join sep l'
  end.

Definition repr_list (l : list string) : string :=
  "[" +:+ join ", " (map repr_str l) +:+ "]".

(** [range(a, b)]. *)
Definition range (a b : Z) : list Z := seqZ a (b - a).

(** [len(x)]. *)
Definition len {T} (x : list T) : Z := Z.of_nat (length x).

End Py.

(** ** Constants of the script *)

Definition PASS_SCORE : Z := 16.
Definition EXAM_SIZE : Z := 20.

(** A dict literal iterates in the order it is written. *)
Definition TOPIC_DISTRIBUTION : list (Z * Z) :=
  [(1, 3); (2, 3); (3, 2); (4, 3); (5, 3); (6, 3); (7, 3)].

Definition CSV_FILENAME : string := "preguntas.csv".

(** ** The question bank *)

(** One row of the bank: the six columns the script reads. *)
Module Row.
Record t := mk {
  tema : string;
  enunciado : string;
  A : string;
  B : string;
  C : string;
  correcta : string
}.
End Row.

(** The frame that [load_questions] returns and [generate_exam] reads: the
    rows in file order; the index label of a row is its position, as
    [pd.read_csv] numbers them.  Columns beyond the six required ones are
    never read by the script and are left out. *)
Abbreviation DataFrame := (list Row.t).

(** What [pd.read_csv(path, sep=";", dtype=str)] parsed: the header and, for
    each line, its cells by position, [None] being a missing value (NaN). *)
Record Table := {
  columns : list string;
  lines : list (list (option string))
}.

(** What is stored under a path. *)
Inductive File :=
  | NoFile
  | Unparsable (msg : string)
  | Csv (t : Table).

(** [.fillna] with the empty string, on one cell; a line shorter than the header is padded with
    missing values by the parser. *)
Definition fillna (c : option string) : string := default EmptyString c.

(** The parsed cell of a line under a column, before [fillna]. *)
Definition raw_cell (cols : list string) (line : list (option string))
    (name : string) : option string :=
  match list_find (fun c => c = name) cols with
  | Some (j, _) => mjoin (line !! j)
  | None => None
  end.

Definition cell (cols : list string) (line : list (option string))
    (name : string) : string :=
  fillna (raw_cell cols line name).

Definition row_of (cols : list string) (line : list (option string)) : Row.t :=
  {| Row.tema := cell cols line "tema";
     Row.enunciado := cell cols line "enunciado";
     Row.A := cell cols line "A";
     Row.B := cell cols line "B";
     Row.C := cell cols line "C";
     Row.correcta := cell cols line "correcta" |}.

Definition required : list string :=
  ["tema"; "enunciado"; "A"; "B"; "C"; "correcta"].

(** [df["tema"] = df["tema"].str.strip()] and
    [df["correcta"] = df["correcta"].str.strip().str.upper()]. *)
Definition normalize (r : Row.t) : Row.t :=
  {| Row.tema := Py.strip (Row.tema r);
     Row.enunciado := Row.enunciado r;
     Row.A := Row.A r;
     Row.B := Row.B r;
     Row.C := Row.C r;
     Row.correcta := Py.upper (Py.strip (Row.correcta r)) |}.

Definition valid_temas : list string := map Py.str (Py.range 1 8).
Definition valid_keys : list string := ["A"; "B"; "C"].

Definition tema_ok (r : Row.t) : bool := bool_decide (Row.tema r ∈ valid_temas).
Definition correcta_ok (r : Row.t) : bool :=
  bool_decide (Row.correcta r ∈ valid_keys).

(** The mask of line 36: a row with an empty statement or option. *)
Definition is_bad (r : Row.t) : bool :=
  String.eqb (Py.strip (Row.enunciado r)) EmptyString
  || String.eqb (Py.strip (Row.A r)) EmptyString
  || String.eqb (Py.strip (Row.B r)) EmptyString
  || String.eqb (Py.strip (Row.C r)) EmptyString.

Definition msg_missing (missing : list string) : string :=
  "Faltan columnas: " +:+ Py.repr_list missing
  +:+ ". Debe haber: " +:+ Py.repr_list required.
Definition msg_temas : string := "Hay temas inválidos. Deben ser 1..7.".
Definition msg_correcta : string :=
  "La columna 'correcta' debe ser A/B/C (sin espacios).".
Definition msg_vacias : string :=
  "Hay filas con enunciado u opciones vacías. Revisa tu Excel/CSV.".

Definition load_questions (fs : string -> File) (path : string)
    : Result DataFrame :=
  match fs path with
  | NoFile =>
      Raise (FileNotFoundError
        ("No existe " +:+ path
         +:+ ". Pon preguntas.csv en la misma carpeta que app.py."))
  | Unparsable m => Raise (ReadError m)
  | Csv t =>
      let missing := filter (fun c => c ∉ columns t) required in
      if negb (bool_decide (missing = [])) then
        Raise (ValueError (msg_missing missing))
      else
        let df := map (fun l => normalize (row_of (columns t) l)) (lines t) in
        if negb (forallb tema_ok df) then Raise (ValueError msg_temas)
        else if negb (forallb correcta_ok df) then
          Raise (ValueError msg_correcta)
        else
          let bad := filter (fun r => is_bad r = true) df in
          if bool_decide (Py.len bad > 0) then Raise (ValueError msg_vacias)
          else Ok df
  end.

(** ** Randomness

    The state of a generator is the stream of the values it will return; a
    bounded draw consumes one of them.  Python's global generator and the
    NumPy generator that [sample] seeds are both inputs of the model. *)

Definition Stream := nat -> Z.

Record Random := {
  py_random : Stream;
  numpy_random : Z -> Stream
}.

Definition randbelow (n : Z) (g : Stream) : Z * Stream :=
  (g 0%nat `mod` n, fun i => g (S i)).

(** [random.randint(a, b)]. *)
Definition randint (a b : Z) (g : Stream) : Z * Stream :=
  let '(r, g') := randbelow (b - a + 1) g in (a + r, g').

(** [x[i], x[j] = x[j], x[i]]. *)
Definition swap {T} (x : list T) (i j : nat) : list T :=
  match x !! i, x !! j with
  | Some a, Some b => <[j:=a]> (<[i:=b]> x)
  | _, _ => x
  end.

(** The loop of [random.shuffle], which NumPy's [shuffle] shares:
    [for i in reversed(range(1, len(x))): j = randbelow(i + 1); swap]. *)
Fixpoint shuffle_loop {T} (i : nat) (x : list T) (g : Stream)
    : list T * Stream :=
  match i with
  | O => (x, g)
  | S i' =>
      let '(j, g') := randbelow (Z.of_nat i + 1) g in
      shuffle_loop i' (swap x i (Z.to_nat j)) g'
  end.

Definition shuffle {T} (x : list T) (g : Stream) : list T * Stream :=
  shuffle_loop (length x - 1) x g.

(** [RandomState(seed).permutation(m)]: a shuffled [arange(m)]. *)
Definition permutation (m : nat) (g : Stream) : list nat :=
  (shuffle (seq 0 m) g).1.

Definition take_row {T} (pool : list T) (p : nat) : Result T :=
  match pool !! p with
  | Some r => Ok r
  | None => Raise (IndexError "indices are out-of-bounds")
  end.

(** [pool.sample(n=n, replace=False, random_state=seed)]: the rows at the
    first [n] positions of a permutation of [range(len(pool))]. *)
Definition pd_sample {T} (np : Z -> Stream) (pool : list T) (n seed : Z)
    : Result (list T) :=
  if bool_decide (n < 0) then
    Raise (ValueError
      "A negative number of rows requested. Please provide `n` >= 0.")
  else if bool_decide (Py.len pool < n) then
    Raise (ValueError
      "Cannot take a larger sample than population when 'replace=False'")
  else
    mapM (take_row pool)
      (take (Z.to_nat n) (permutation (length pool) (np seed))).

(** ** The exam generator *)

Record Opciones := {
  opcion_A : string;
  opcion_B : string;
  opcion_C : string
}.

(** One question of an exam, the dict built at line 54. *)
Module Question.
Record t := mk {
  tema : Z;
  enunciado : string;
  opciones : Opciones;
  correcta : string
}.
End Question.

Abbreviation Exam := (list Question.t).

Definition question_of (r : Row.t) : Result Question.t :=
  match Py.int (Row.tema r) with
  | None =>
      Raise (ValueError
        ("invalid literal for int() with base 10: "
         +:+ Py.repr_str (Row.tema r)))
  | Some t =>
      Ok {| Question.tema := t;
            Question.enunciado := Row.enunciado r;
            Question.opciones :=
              {| opcion_A := Row.A r; opcion_B := Row.B r;
                 opcion_C := Row.C r |};
            Question.correcta := Row.correcta r |}
  end.

Definition msg_pool (topic n available : Z) : string :=
  "En el tema " +:+ Py.str topic +:+ " necesitas " +:+ Py.str n
  +:+ " preguntas y solo tienes " +:+ Py.str available +:+ ".".

(** The rows of a frame with their index labels. *)
Definition indexed (df : DataFrame) : list (nat * Row.t) :=
  imap (fun i r => (i, r)) df.

Definition in_topic (topic : Z) (ir : nat * Row.t) : Prop :=
  Row.tema ir.2 = Py.str topic.

#[global] Instance in_topic_dec topic ir : Decision (in_topic topic ir).
Proof. unfold in_topic. apply _. Defined.

Section generate.
(** What is appended to the exam for a sampled row [(label, r)].  The
    script appends the question alone; keeping the label with it records
    which row of the bank each question was drawn from. *)
Context {T : Type} (emit : nat * Row.t -> Result T).

(** The [for topic, n in TOPIC_DISTRIBUTION.items()] loop. *)
Fixpoint topics_loop (np : Z -> Stream) (dist : list (Z * Z))
    (df : list (nat * Row.t)) (g : Stream) (exam : list T)
    : Result (list T * Stream) :=
  match dist with
  | [] => Ok (exam, g)
  | (topic, n) :: dist' =>
      let pool := filter (in_topic topic) df in
      if bool_decide (Py.len pool < n) then
        Raise (ValueError (msg_pool topic n (Py.len pool)))
      else
        let '(seed, g') := randint 0 (10 ^ 9) g in
        sample ← pd_sample np pool n seed;
        rows ← mapM emit sample;
        topics_loop np dist' df g' (exam ++ rows)
  end.

Definition generate (df : DataFrame) (rnd : Random) : Result (list T) :=
  '(exam, g) ← topics_loop (numpy_random rnd) TOPIC_DISTRIBUTION
                 (indexed df) (py_random rnd) [];
  Ok (shuffle exam g).1.
End generate.

Definition generate_exam (df : DataFrame) (rnd : Random) : Result Exam :=
  generate (fun ir => question_of ir.2) df rnd.

(** The same run, each question paired with the label of its source row. *)
Definition labelled (ir : nat * Row.t) : Result (nat * Question.t) :=
  q ← question_of ir.2; Ok (ir.1, q).

Definition generate_exam_traced (df : DataFrame) (rnd : Random)
    : Result (list (nat * Question.t)) :=
  generate labelled df rnd.

(** The number of rows of the bank in a topic, and a topic that has fewer
    rows than its quota. *)
Definition available (df : DataFrame) (topic : Z) : Z :=
  Py.len (filter (fun r => Row.tema r = Py.str topic) df).

Definition short (df : DataFrame) (tn : Z * Z) : Prop :=
  available df tn.1 < tn.2.

#[global] Instance short_dec df tn : Decision (short df tn).
Proof. unfold short. apply _. Defined.

(** ** The session and the script

    [st.session_state] holds three attributes.  Streamlit executes the
    script from top to bottom once per user interaction; the widget that
    was used is an input of that execution, and so are the values that
    Streamlit holds for the radios it has shown. *)

Record SessionState := {
  exam : option Exam;
  idx : Z;
  answers : gmap Z string
}.

Definition set_exam (e : option Exam) (s : SessionState) : SessionState :=
  {| exam := e; idx := idx s; answers := answers s |}.
Definition set_idx (i : Z) (s : SessionState) : SessionState :=
  {| exam := exam s; idx := i; answers := answers s |}.
Definition set_answers (a : gmap Z string) (s : SessionState) : SessionState :=
  {| exam := exam s; idx := idx s; answers := a |}.

(** [ensure_state]: a session that stores nothing yet gets the defaults. *)
Definition ensure_state (stored : option SessionState) : SessionState :=
  default {| exam := None; idx := 0; answers := ∅ |} stored.

(** [reset]. *)
Definition reset (s : SessionState) : SessionState :=
  set_answers ∅ (set_idx 0 (set_exam None s)).

(** The keys of the radio widget. *)
Inductive Key := Key_A | Key_B | Key_C.

#[global] Instance Key_eq_dec : EqDecision Key.
Proof. solve_decision. Defined.

Definition key_str (k : Key) : string :=
  match k with Key_A => "A" | Key_B => "B" | Key_C => "C" end.

Definition keys : list string := ["A"; "B"; "C"].

(** The interaction that triggered an execution of the script; [NoClick] is
    the first page load or the execution started by [st.rerun()], and
    [Select k] is a pick of option [k] on the radio of the page. *)
Inductive Event :=
  | NoClick
  | ClickGenerate
  | ClickReset
  | Select (k : Key)
  | ClickPrev
  | ClickNext
  | ClickFinish.

#[global] Instance Event_eq_dec : EqDecision Event.
Proof. solve_decision. Defined.

(** What the script puts on the page. *)
Inductive Display :=
  | Title (body : string)
  | ErrorBox (body : string)
  | SuccessBox (body : string)
  | InfoBox (body : string)
  | Write (body : string)
  | Divider
  | Subheader (body : string)
  | Radio (label : string) (options : list string) (index : nat)
  | Button (label : string) (disabled : bool)
  | Expander (label : string) (body : list string).

(** How an execution ends before the last line: [st.stop()], [st.rerun()]
    (both raise outside [Exception], so no [except Exception] sees them) or
    an uncaught exception. *)
Inductive Ctl :=
  | Stop
  | Rerun
  | Crash (e : Exn).

Inductive Outcome (T : Type) :=
  | Continue (v : T)
  | Halt (c : Ctl).
Arguments Continue {T} v.
Arguments Halt {T} c.

(** A piece of the script: it reads and updates the session, writes to the
    page and either goes on with a value or halts. *)
Definition Script (T : Type) : Type :=
  SessionState -> SessionState * list Display * Outcome T.

#[global] Instance Script_ret : MRet Script := fun _ v s => (s, [], Continue v).

#[global] Instance Script_bind : MBind Script := fun _ _ f m s =>
  let '(s1, o1, r) := m s in
  match r with
  | Continue v => let '(s2, o2, r2) := f v s1 in (s2, o1 ++ o2, r2)
  | Halt c => (s1, o1, Halt c)
  end.

Definition get : Script SessionState := fun s => (s, [], Continue s).
Definition modify (f : SessionState -> SessionState) : Script unit :=
  fun s => (f s, [], Continue tt).
Definition show (d : Display) : Script unit := fun s => (s, [d], Continue tt).
Definition halt {T} (c : Ctl) : Script T := fun s => (s, [], Halt c).

Definition st_stop {T} : Script T := halt Stop.
Definition st_rerun {T} : Script T := halt Rerun.

(** A statement that may raise, outside any [try]. *)
Definition lift {T} (r : Result T) : Script T :=
  match r with
  | Ok v => mret v
  | Raise e => halt (Crash e)
  end.

(** [st.button(label, disabled=d)]: true in the execution its click
    triggered; a disabled button cannot be clicked. *)
Definition st_button (label : string) (disabled : bool) (click ev : Event)
    : Script bool :=
  show (Button label disabled);;
  mret (bool_decide (ev = click) && negb disabled).

(** The identity of a radio created without [key=]: Streamlit derives it
    from the arguments of the call, which for the radio of the script are
    its label, its options as [format_func] shows them and its default
    index.  Two calls with the same three are the same widget, whatever
    question they are drawn for. *)
Abbreviation Widget := (string * list string * nat)%type.

(** The values Streamlit holds for the radios: the option the user picked
    on a radio stays with the identity of that radio. *)
Abbreviation Widgets := (gmap Widget Key).

(** [st.radio(label, options, index=i)]: the value held for this radio,
    and the option at the default [index] when none is held, which is what
    a radio that the user has not touched returns. *)
Definition st_radio (label : string) (options shown : list string) (i : nat)
    (w : Widgets) : Script string :=
  preset ← lift (match options !! i with
                 | Some o => Ok o
                 | None => Raise (IndexError "Radio index out of range")
                 end);
  show (Radio label shown i);;
  mret (match w !! (label, shown, i) with
        | Some k => key_str k
        | None => preset
        end).

(** [l[i]] for a Python list: a negative index counts from the end. *)
Definition py_index {T} (l : list T) (i : Z) : Result T :=
  let j := if bool_decide (i < 0) then i + Py.len l else i in
  if bool_decide (0 <= j < Py.len l) then
    match l !! Z.to_nat j with
    | Some v => Ok v
    | None => Raise (IndexError "list index out of range")
    end
  else Raise (IndexError "list index out of range").

(** Lines 85-91: every execution loads the bank again. *)
Definition load_bank (fs : string -> File) : Script DataFrame :=
  match load_questions fs CSV_FILENAME with
  | Raise e =>
      show (ErrorBox ("Error cargando preguntas.csv: " +:+ exn_str e));;
      st_stop
  | Ok df =>
      show (SuccessBox
        ("Banco cargado: " +:+ Py.str (Py.len df) +:+ " preguntas ✅"));;
      mret df
  end.

(** Lines 95-102.  The assignment to [exam] happens only once
    [generate_exam] has returned. *)
Definition generate_button (df : DataFrame) (rnd : Random) (ev : Event)
    : Script unit :=
  clicked ← st_button "🎲 Generar examen" false ClickGenerate ev;
  if clicked : bool then
    match generate_exam df rnd with
    | Ok e =>
        modify (set_exam (Some e));;
        modify (set_idx 0);;
        modify (set_answers ∅);;
        st_rerun
    | Raise e =>
        show (ErrorBox ("No se pudo generar el examen: " +:+ exn_str e))
    end
  else mret tt.

(** Lines 105-107. *)
Definition reset_button (ev : Event) : Script unit :=
  clicked ← st_button "🔄 Reiniciar" false ClickReset ev;
  if clicked : bool then modify reset;; st_rerun else mret tt.

(** [keys.index(current) if current in keys else 0]. *)
Definition default_index (current : option string) : nat :=
  match current with
  | Some c =>
      match list_find (fun k => k = c) keys with
      | Some (i, _) => i
      | None => 0%nat
      end
  | None => 0%nat
  end.

(** [{k: f"{k}) {q['opciones'][k]}" for k in keys}], in the order of
    [keys]. *)
Definition labels (q : Question.t) : list string :=
  [ "A) " +:+ opcion_A (Question.opciones q);
    "B) " +:+ opcion_B (Question.opciones q);
    "C) " +:+ opcion_C (Question.opciones q) ].

(** Lines 113-127: the current question and its radio; whatever the radio
    returns is stored as the answer of the question. *)
Definition question_page (w : Widgets) (exam : Exam) (i : Z) : Script unit :=
  q ← lift (py_index exam i);
  show (Write ("**" +:+ Question.enunciado q +:+ "**"));;
  s ← get;
  let current := answers s !! i in
  choice ← st_radio "Respuesta:" keys (labels q) (default_index current) w;
  modify (fun s => set_answers (<[i := choice]> (answers s)) s).

(** Lines 131-134. *)
Definition prev_button (ev : Event) (i : Z) : Script unit :=
  clicked ← st_button "⬅️ Anterior" (bool_decide (i = 0)) ClickPrev ev;
  if clicked : bool then
    modify (fun s => set_idx (idx s - 1) s);; st_rerun
  else mret tt.

(** Lines 136-139. *)
Definition next_button (ev : Event) (i : Z) : Script unit :=
  clicked ← st_button "Siguiente ➡️" (bool_decide (i = EXAM_SIZE - 1))
              ClickNext ev;
  if clicked : bool then
    modify (fun s => set_idx (idx s + 1) s);; st_rerun
  else mret tt.

(** ** Grading *)

(** Lines 144-150, from question [i] on with the counters so far. *)
Fixpoint grade_loop (ans : gmap Z string) (i : Z) (exam : Exam)
    (correct wrong : Z) : Z * Z :=
  match exam with
  | [] => (correct, wrong)
  | qq :: rest =>
      if bool_decide (ans !! i = Some (Question.correcta qq)) then
        grade_loop ans (i + 1) rest (correct + 1) wrong
      else grade_loop ans (i + 1) rest correct (wrong + 1)
  end.

Definition grade (exam : Exam) (ans : gmap Z string) : Z * Z :=
  grade_loop ans 0 exam 0 0.

(** Lines 162-164: the questions whose recorded answer differs from the
    key, with their position and that answer. *)
Fixpoint missed_from (ans : gmap Z string) (i : Z) (exam : Exam)
    : list (Z * Question.t * option string) :=
  match exam with
  | [] => []
  | qq :: rest =>
      let a := ans !! i in
      if bool_decide (a ≠ Some (Question.correcta qq)) then
        (i, qq, a) :: missed_from ans (i + 1) rest
      else missed_from ans (i + 1) rest
  end.

Definition missed (exam : Exam) (ans : gmap Z string)
    : list (Z * Question.t * option string) :=
  missed_from ans 0 exam.

(** [f"{a}"] for the value of [answers.get(i)]. *)
Definition str_answer (a : option string) : string := default "None" a.

(** Lines 165-171. *)
Definition review_entry (m : Z * Question.t * option string) : Display :=
  let '(i, qq, a) := m in
  Expander
    ("Pregunta " +:+ Py.str (i + 1) +:+ " (Tema "
     +:+ Py.str (Question.tema qq) +:+ ")")
    [ "**" +:+ Question.enunciado qq +:+ "**";
      "A) " +:+ opcion_A (Question.opciones qq);
      "B) " +:+ opcion_B (Question.opciones qq);
      "C) " +:+ opcion_C (Question.opciones qq);
      "Tu respuesta: **" +:+ str_answer a +:+ "**";
      "Correcta: **" +:+ Question.correcta qq +:+ "**" ].

Fixpoint show_all (ds : list Display) : Script unit :=
  match ds with
  | [] => mret tt
  | d :: ds' => show d;; show_all ds'
  end.

(** Lines 156-159. *)
Definition verdict (correct : Z) : Display :=
  if bool_decide (correct >= PASS_SCORE) then SuccessBox "APROBADO ✅"
  else ErrorBox "SUSPENSO ❌".

(** Lines 142-171. *)
Definition finish_button (ev : Event) (exam : Exam) : Script unit :=
  clicked ← st_button "✅ Finalizar y corregir" false ClickFinish ev;
  if clicked : bool then
    s ← get;
    let '(correct, wrong) := grade exam (answers s) in
    show Divider;;
    show (Subheader "📊 Resultado");;
    show (Write ("✅ Correctas: **" +:+ Py.str correct +:+ "**"));;
    show (Write ("❌ Fallos: **" +:+ Py.str wrong +:+ "**"));;
    show (verdict correct);;
    show (Subheader "🔎 Revisión (falladas)");;
    show_all (map review_entry (missed exam (answers s)))
  else mret tt.

(** ** One execution of the script *)

(** Lines 109-171: the page below the two buttons at the top. *)
Definition page (w : Widgets) (ev : Event) : Script unit :=
  s ← get;
  match exam s with
  | None =>
      show (InfoBox "Pulsa **Generar examen** para empezar.");;
      st_stop
  | Some exam =>
      let idx := idx s in
      question_page w exam idx;;
      prev_button ev idx;;
      next_button ev idx;;
      finish_button ev exam
  end.

(** One execution, with the values [w] that Streamlit holds for the radios
    when it starts. *)
Definition script (fs : string -> File) (rnd : Random) (w : Widgets)
    (ev : Event) : Script unit :=
  show (Title "📝 Test permiso (20 preguntas)");;
  df ← load_bank fs;
  generate_button df rnd ev;;
  reset_button ev;;
  page w ev.

(** ** The browser

    Between two executions the browser keeps the page, and with it the
    radio that the last execution drew, and Streamlit keeps the values of
    the radios, also of a radio that an execution stops short of drawing.
    A pick of the user goes to the radio on the page.  The properties
    below hold for whatever values are held when an interaction starts. *)
Record Browser := {
  held : Widgets;
  shown : option Widget
}.

Definition fresh_browser : Browser := {| held := ∅; shown := None |}.

(** The values held once the user has acted: [Select k] puts option [k]
    on the radio of the page; a button changes none of them. *)
Definition pick (ev : Event) (b : Browser) : Widgets :=
  match ev, shown b with
  | Select k, Some r => <[r := k]> (held b)
  | _, _ => held b
  end.

(** The radio of a page. *)
Fixpoint radio_of (page : list Display) : option Widget :=
  match page with
  | [] => None
  | Radio label options i :: _ => Some (label, options, i)
  | _ :: page' => radio_of page'
  end.

(** One user interaction: the execution it triggers and, when that one ends
    in [st.rerun()], the execution that follows at once with no widget
    used and the same values held; the page shows what the last execution
    wrote. *)
Definition interact (fs : string -> File) (rnd : Random) (ev : Event)
    (b : Browser) : Script unit :=
  fun s =>
    let '(s1, o1, r1) := script fs rnd (pick ev b) ev s in
    match r1 with
    | Halt Rerun => script fs rnd (pick ev b) NoClick s1
    | _ => (s1, o1, r1)
    end.

(** The browser after the interaction. *)
Definition browse (fs : string -> File) (rnd : Random) (ev : Event)
    (b : Browser) (s : SessionState) : Browser :=
  {| held := pick ev b; shown := radio_of (interact fs rnd ev b s).1.2 |}.

(** ** A concrete bank

    Four questions per topic, with keys A, B, C, A, and a source of random
    numbers; the examples below run the script on them. *)

Definition sample_row (t : Z) (c : string) : Row.t :=
  Row.mk (Py.str t) ("Pregunta del tema " +:+ Py.str t) "uno" "dos" "tres" c.

Definition sample_bank : DataFrame :=
  flat_map (fun t => [sample_row t "A"; sample_row t "B"; sample_row t "C";
                      sample_row t "A"])
    (Py.range 1 8).

Definition sample_line (r : Row.t) : list (option string) :=
  [Some (Row.tema r); Some (Row.enunciado r); Some (Row.A r); Some (Row.B r);
   Some (Row.C r); Some (Row.correcta r)].

Definition sample_table : Table :=
  {| columns := required; lines := map sample_line sample_bank |}.

Definition file_system (t : Table) : string -> File :=
  fun path => if String.eqb path CSV_FILENAME then Csv t else NoFile.

Definition sample_random : Random :=
  {| py_random := fun i => Z.of_nat i * 7 + 3;
     numpy_random := fun seed i => seed + Z.of_nat i * 5 |}.

(** A file whose statement and options carry surrounding blanks, and whose
    key is written in lower case. *)
Definition spaced_table : Table :=
  {| columns := required;
     lines := [[Some " 3 "; Some "  Velocidad maxima  "; Some " 90 ";
                Some " 100 "; Some " 120 "; Some " b "]] |}.

Definition spaced_bank : DataFrame :=
  [Row.mk "3" "  Velocidad maxima  " " 90 " " 100 " " 120 " "B"].

(** The rejected files of the specification's examples: no [correcta]
    column, a topic 8, a key D. *)
Definition no_key_table : Table :=
  {| columns := ["tema"; "enunciado"; "A"; "B"; "C"];
     lines := [[Some "1"; Some "Ceda el paso"; Some "si"; Some "no";
                Some "depende"]] |}.

Definition topic_8_table : Table :=
  {| columns := required;
     lines := [[Some "8"; Some "Ceda el paso"; Some "si"; Some "no";
                Some "depende"; Some "A"]] |}.

Definition key_D_table : Table :=
  {| columns := required;
     lines := [[Some "1"; Some "Ceda el paso"; Some "si"; Some "no";
                Some "depende"; Some "D"]] |}.

(** The no-break space U+00A0, which [str.isspace] counts as white space;
    a file whose topic and key are padded with it, and a file whose
    statement consists of it. *)
Definition nbsp : string := Py.bytes [194; 160]%N.

Definition nbsp_table : Table :=
  {| columns := required;
     lines := [[Some (nbsp +:+ "3" +:+ nbsp); Some "Ceda el paso";
                Some "si"; Some "no"; Some "depende";
                Some (nbsp +:+ "c")]] |}.

Definition nbsp_statement_table : Table :=
  {| columns := required;
     lines := [[Some "3"; Some nbsp; Some "si"; Some "no"; Some "depende";
                Some "A"]] |}.

(** A file with the six columns and one line whose statement is missing. *)
Definition holed_table : Table :=
  {| columns := required;
     lines := [[Some "2"; None; Some "si"; Some "no"; Some "depende";
                Some "A"]] |}.

(** A string that [strip] leaves as it is. *)
Definition trimmed (s : string) : Prop := Py.strip s = s.

Definition all_fields_trimmed (r : Row.t) : Prop :=
  trimmed (Row.tema r) /\ trimmed (Row.enunciado r) /\ trimmed (Row.A r)
  /\ trimmed (Row.B r) /\ trimmed (Row.C r) /\ trimmed (Row.correcta r).

(** What one topic contributes to the labelled exam: as many questions as
    its quota, built from distinct rows of the bank that carry the topic. *)
Definition block_ok (df : DataFrame) (tn : Z * Z)
    (block : list (nat * Question.t)) : Prop :=
  length block = Z.to_nat tn.2
  /\ NoDup block.*1
  /\ forall i q, (i, q) ∈ block ->
       exists r, df !! i = Some r /\ Row.tema r = Py.str tn.1
                 /\ question_of r = Ok q /\ Question.tema q = tn.1.

(** Topics that [int] reads back from what [str] prints. *)
Definition printable (dist : list (Z * Z)) : Prop :=
  forall t n, (t, n) ∈ dist -> Py.int (Py.str t) = Some t.

(** The option the radio shows selected when the user has not touched it. *)
Definition preset (current : option string) : string :=
  default "A" (keys !! default_index current).

(** What the radio of question [q] returns when it is drawn for the recorded
    answer [current]: the value held for the radio of that identity, and
    the preselected option when none is held. *)
Definition choice_of (w : Widgets) (q : Question.t)
    (current : option string) : string :=
  match w !! ("Respuesta:", labels q, default_index current) with
  | Some k => key_str k
  | None => preset current
  end.

(** What drawing position [i] of the exam records for it. *)
Definition drawn (w : Widgets) (e : Exam) (ans : gmap Z string) (i : Z)
    : string :=
  match py_index e i with
  | Ok q => choice_of w q (ans !! i)
  | Raise _ => preset (ans !! i)
  end.

(** The radio that shows question [q] with key [k] recorded returns [k]:
    no other value is held for it. *)
Definition kept (w : Widgets) (q : Question.t) (k : Key) : Prop :=
  choice_of w q (Some (key_str k)) = key_str k.

(** What the Finish handler writes below its button. *)
Definition finish_page (exam : Exam) (ans : gmap Z string) : list Display :=
  [ Divider; Subheader "📊 Resultado";
    Write ("✅ Correctas: **" +:+ Py.str (grade exam ans).1 +:+ "**");
    Write ("❌ Fallos: **" +:+ Py.str (grade exam ans).2 +:+ "**");
    verdict (grade exam ans).1;
    Subheader "🔎 Revisión (falladas)" ]
  ++ map review_entry (missed exam ans).

(** A page at rest: when an exam is in progress, the question under the
    cursor has one of the three keys recorded and the radio that shows it
    returns that key, as it does when no other value is held for that
    radio. *)
Definition settled (w : Widgets) (s : SessionState) : Prop :=
  exam s <> None ->
  exists k, answers s !! idx s = Some (key_str k)
    /\ forall e q, exam s = Some e -> py_index e (idx s) = Ok q ->
         kept w q k.

(** The cursor is a position of the exam, which has [EXAM_SIZE]
    questions. *)
Definition cursor_ok (s : SessionState) : Prop :=
  forall e, exam s = Some e ->
    Py.len e = EXAM_SIZE /\ 0 <= idx s < Py.len e.

(** The sessions that executions of the script can produce, starting from
    a session that stores nothing, whatever values are held for the radios
    at each execution. *)
Inductive reachable : SessionState -> Prop :=
  | reachable_fresh : reachable (ensure_state None)
  | reachable_script s fs rnd w ev :
      reachable s -> reachable (script fs rnd w ev s).1.1.

(** The session and the browser after the first Generate on the concrete
    bank: only the first question has been drawn on the page. *)
Definition sample_session : SessionState :=
  (interact (file_system sample_table) sample_random ClickGenerate
     fresh_browser (ensure_state None)).1.1.

Definition sample_browser : Browser :=
  browse (file_system sample_table) sample_random ClickGenerate
    fresh_browser (ensure_state None).

Definition sample_exam : Exam := default [] (exam sample_session).

(** The session as the Generate handler leaves it, before the page of the
    first question has been drawn. *)
Definition undrawn_session : SessionState :=
  {| exam := Some sample_exam; idx := 0; answers := ∅ |}.

(** A bank in which topic 3 has a single row. *)
Definition short_table : Table :=
  {| columns := required; lines := map sample_line (take 9 sample_bank) |}.

(** The interactions that neither generate, reset nor select: a redraw,
    the two navigation buttons and Finish. *)
Definition navigation (ev : Event) : Prop :=
  ev = NoClick \/ ev = ClickPrev \/ ev = ClickNext \/ ev = ClickFinish.

(** The cursor after a navigation: the enabled buttons move it. *)
Definition target (ev : Event) (s : SessionState) : Z :=
  if bool_decide (ev = ClickPrev) && negb (bool_decide (idx s = 0)) then
    idx s - 1
  else if bool_decide (ev = ClickNext)
          && negb (bool_decide (idx s = EXAM_SIZE - 1)) then
    idx s + 1
  else idx s.

(** Question [i] has one of the three keys recorded. *)
Definition answered (s : SessionState) (i : Z) : Prop :=
  exists k, answers s !! i = Some (key_str k).

(** The browser and the session after a sequence of interactions. *)
Fixpoint interacts (fs : string -> File) (rnd : Random) (evs : list Event)
    (b : Browser) (s : SessionState) : Browser * SessionState :=
  match evs with
  | [] => (b, s)
  | ev :: evs' =>
      interacts fs rnd evs' (browse fs rnd ev b s)
        (interact fs rnd ev b s).1.1
  end.

(** The claim that a question with no recorded answer is graded as if its
    answer were A. *)
Definition graded_as_A (exam : Exam) (ans : gmap Z string) (i : Z) : Prop :=
  grade exam ans = grade exam (<[i := "A"]> ans).

(** ** Further notions used by the properties

    The position of a key in [keys], the invariant of a session, the table
    that writes a bank back to a file, and the store of
    [st.session_state] attribute by attribute. *)

Definition key_pos (k : Key) : nat :=
  match k with Key_A => 0 | Key_B => 1 | Key_C => 2 end%nat.

(** Without an exam the cursor is 0 and nothing is recorded; every recorded
    answer is one of the three keys, at a position of the exam. *)
Definition session_ok (s : SessionState) : Prop :=
  (exam s = None -> idx s = 0 /\ answers s = ∅)
  /\ forall i v, answers s !! i = Some v ->
       0 <= i < EXAM_SIZE /\ v ∈ keys.

(** A bank written back as a file with the six columns. *)
Definition table_of (df : DataFrame) : Table :=
  {| columns := required; lines := map sample_line df |}.

(** [st.session_state] with each attribute present or not; [ensure_state]
    (lines 64-70) tests the three attributes one by one. *)
Record Stored := {
  stored_exam : option (option Exam);
  stored_idx : option Z;
  stored_answers : option (gmap Z string)
}.

Definition ensure_attrs (st : Stored) : Stored :=
  {| stored_exam :=
       match stored_exam st with None => Some None | v => v end;
     stored_idx := match stored_idx st with None => Some 0 | v => v end;
     stored_answers :=
       match stored_answers st with None => Some ∅ | v => v end |}.

(** The session a store holds once its three attributes are present. *)
Definition session_of (st : Stored) : option SessionState :=
  e ← stored_exam st; i ← stored_idx st; a ← stored_answers st;
  Some {| exam := e; idx := i; answers := a |}.

(** What an answer adds to the count of wrong answers of a question. *)
Definition miss (a : option string) (q : Question.t) : Z :=
  if bool_decide (a = Some (Question.correcta q)) then 0 else 1.

(** The positions of an exam that have some answer recorded. *)
Definition recorded (e : Exam) (ans : gmap Z string) : list nat :=
  filter (fun j => is_Some (ans !! Z.of_nat j)) (seq 0 (length e)).

(** A bank with exactly the quota of each topic: 20 rows. *)
Definition minimal_bank : DataFrame :=
  flat_map (fun tn : Z * Z =>
              map (fun c => sample_row tn.1 c)
                (take (Z.to_nat tn.2) ["A"; "B"; "C"]))
    TOPIC_DISTRIBUTION.

(** A file that has only its header. *)
Definition header_only_table : Table :=
  {| columns := required ++ ["notas"]; lines := [] |}.

(** * Properties *)

(** ** Grading *)

Section grading.
Implicit Types (exam : Exam) (ans : gmap Z string).

Lemma grade_loop_counts ans exam : forall i correct wrong,
  let r := grade_loop ans i exam correct wrong in
  r.1 + r.2 = correct + wrong + Py.len exam
  /\ correct <= r.1 /\ wrong <= r.2.
Proof.
  unfold Py.len.
  induction exam as [|qq rest IH]; intros i correct wrong; simpl.
  - lia.
  - case_bool_decide.
    + specialize (IH (i + 1) (correct + 1) wrong). simpl in IH. lia.
    + specialize (IH (i + 1) correct (wrong + 1)). simpl in IH. lia.
Qed.

Lemma verdict_pass correct :
  verdict correct = SuccessBox "APROBADO ✅" <-> correct >= 16.
Proof.
  unfold verdict, PASS_SCORE. case_bool_decide; split; (done || lia).
Qed.

Lemma verdict_fail correct :
  verdict correct = ErrorBox "SUSPENSO ❌" <-> correct < 16.
Proof.
  unfold verdict, PASS_SCORE. case_bool_decide; split; (done || lia).
Qed.
End grading.

(** C2.  The two counters of the Finish handler add up to the length of the
    exam (so to 20 for an exam of 20 questions), whatever the answers are,
    and the verdict shown is the pass message exactly when the number of
    correct answers is at least 16. *)
Theorem grade_counts_and_verdict (exam : Exam) (ans : gmap Z string) :
  exists correct wrong : Z,
    grade exam ans = (correct, wrong)
    /\ 0 <= correct /\ 0 <= wrong
    /\ correct + wrong = Py.len exam
    /\ (verdict correct = SuccessBox "APROBADO ✅" <-> correct >= PASS_SCORE)
    /\ (verdict correct = ErrorBox "SUSPENSO ❌" <-> ~ correct >= PASS_SCORE).
Proof.
  destruct (grade exam ans) as [correct wrong] eqn:Hg.
  exists correct, wrong.
  pose proof (grade_loop_counts ans exam 0 0 0) as H.
  fold (grade exam ans) in H. rewrite Hg in H. simpl in H.
  destruct H as (Hsum & Hc & Hw).
  repeat split; try lia.
  - apply verdict_pass.
  - apply verdict_pass.
  - intros Hv. apply verdict_fail in Hv. unfold PASS_SCORE. lia.
  - intros Hv. apply verdict_fail. unfold PASS_SCORE in Hv. lia.
Qed.

(** ** The loader *)

Section loader.
Variables (fs : string -> File) (path : string) (t : Table).
Hypothesis Hfile : fs path = Csv t.

Let missing := filter (fun c => c ∉ columns t) required.
Let df := map (fun l => normalize (row_of (columns t) l)) (lines t).

Lemma load_questions_unfold :
  load_questions fs path =
    if negb (bool_decide (missing = [])) then
      Raise (ValueError (msg_missing missing))
    else if negb (forallb tema_ok df) then Raise (ValueError msg_temas)
    else if negb (forallb correcta_ok df) then
      Raise (ValueError msg_correcta)
    else if bool_decide (Py.len (filter (fun r => is_bad r = true) df) > 0)
    then Raise (ValueError msg_vacias)
    else Ok df.
Proof. unfold load_questions. rewrite Hfile. reflexivity. Qed.

Lemma forallb_tema_ok (l : DataFrame) :
  forallb tema_ok l = true <-> forall r, r ∈ l -> Row.tema r ∈ valid_temas.
Proof.
  rewrite forallb_forall. unfold tema_ok. split; intros H r Hr.
  - apply list_elem_of_In, H in Hr. by apply bool_decide_eq_true in Hr.
  - apply bool_decide_eq_true, H, list_elem_of_In, Hr.
Qed.

Lemma forallb_correcta_ok (l : DataFrame) :
  forallb correcta_ok l = true
  <-> forall r, r ∈ l -> Row.correcta r ∈ valid_keys.
Proof.
  rewrite forallb_forall. unfold correcta_ok. split; intros H r Hr.
  - apply list_elem_of_In, H in Hr. by apply bool_decide_eq_true in Hr.
  - apply bool_decide_eq_true, H, list_elem_of_In, Hr.
Qed.

Lemma no_bad_rows (l : DataFrame) :
  ~ Py.len (filter (fun r => is_bad r = true) l) > 0
  <-> forall r, r ∈ l -> is_bad r = false.
Proof.
  unfold Py.len. split.
  - intros H r Hr. destruct (is_bad r) eqn:Hb; [|done].
    assert (r ∈ filter (fun r => is_bad r = true) l) as Hin
      by (apply list_elem_of_filter; done).
    destruct (filter _ l); [by apply elem_of_nil in Hin|]. simpl in H. lia.
  - intros H. destruct (filter _ l) as [|r l'] eqn:Hf; simpl; [lia|].
    assert (r ∈ filter (fun r => is_bad r = true) l) as Hin
      by (rewrite Hf; left).
    apply list_elem_of_filter in Hin as [Hb Hin].
    apply H in Hin. congruence.
Qed.
End loader.

(** A load succeeds exactly on a file without violation, and it returns
    the complete bank. *)
Lemma load_questions_ok_iff
    (fs : string -> File) (path : string) (t : Table) (bank : DataFrame) :
  fs path = Csv t ->
  let missing := filter (fun c => c ∉ columns t) required in
  let df := map (fun l => normalize (row_of (columns t) l)) (lines t) in
  load_questions fs path = Ok bank <->
    bank = df /\ missing = []
    /\ forall r, r ∈ df ->
         Row.tema r ∈ valid_temas /\ Row.correcta r ∈ valid_keys
         /\ is_bad r = false.
Proof.
  intros Hfile missing df.
  rewrite (load_questions_unfold fs path t Hfile).
  fold missing df. split.
  - intros H. case_bool_decide as Hm; simpl in H; [|done].
    destruct (forallb tema_ok df) eqn:Ht; simpl in H; [|done].
    destruct (forallb correcta_ok df) eqn:Hc; simpl in H; [|done].
    case_bool_decide as Hb; [done|].
    injection H as <-. split; [done|]. split; [done|].
    intros r Hr. split; [|split].
    + by apply (proj1 (forallb_tema_ok df) Ht).
    + by apply (proj1 (forallb_correcta_ok df) Hc).
    + by apply (proj1 (no_bad_rows df) Hb).
  - intros (-> & Hm & Hall).
    rewrite bool_decide_eq_true_2 by done. simpl.
    rewrite (proj2 (forallb_tema_ok df)) by (intros r Hr; by apply Hall).
    rewrite (proj2 (forallb_correcta_ok df)) by (intros r Hr; by apply Hall).
    simpl. rewrite bool_decide_eq_false_2; [done|].
    apply no_bad_rows. intros r Hr. by apply Hall.
Qed.

(** An invalid topic is the first row check to fail. *)
Lemma load_questions_bad_topic
    (fs : string -> File) (path : string) (t : Table) :
  fs path = Csv t ->
  let missing := filter (fun c => c ∉ columns t) required in
  let df := map (fun l => normalize (row_of (columns t) l)) (lines t) in
  missing = [] ->
  (exists r, r ∈ df /\ Row.tema r ∉ valid_temas) ->
  load_questions fs path = Raise (ValueError msg_temas).
Proof.
  intros Hfile missing df Hm (r & Hr & Hbad).
  rewrite (load_questions_unfold fs path t Hfile). fold missing df.
  rewrite bool_decide_eq_true_2 by done. simpl.
  destruct (forallb tema_ok df) eqn:Ht; [|done].
  exfalso. apply Hbad. by apply (proj1 (forallb_tema_ok df) Ht).
Qed.

(** The mask of line 36 on the cells of a row. *)
Lemma is_bad_false (r : Row.t) :
  is_bad r = false <->
  Py.strip (Row.enunciado r) <> EmptyString
  /\ Py.strip (Row.A r) <> EmptyString
  /\ Py.strip (Row.B r) <> EmptyString
  /\ Py.strip (Row.C r) <> EmptyString.
Proof.
  unfold is_bad. rewrite !orb_false_iff, !String.eqb_neq. tauto.
Qed.

Lemma join_concat (sep : string) (l : list string) :
  Py.join sep l = String.concat sep l.
Proof.
  induction l as [|x l IH]; [done|].
  cbn [Py.join String.concat]. destruct l; [done|]. by rewrite IH.
Qed.

Lemma append_assoc (a b c : string) : (a +:+ b) +:+ c = a +:+ b +:+ c.
Proof.
  induction a as [|x a IH]; [done|].
  change (String x ((a +:+ b) +:+ c) = String x (a +:+ b +:+ c)).
  by rewrite IH.
Qed.

(** The message of line 23 spelled out: the missing columns between
    brackets, each between quotes, separated by a comma and a space. *)
Lemma msg_missing_spelled (missing : list string) :
  msg_missing missing
  = "Faltan columnas: ["
    +:+ String.concat ", " (map (fun c => "'" +:+ c +:+ "'") missing)
    +:+ "]. Debe haber: ['tema', 'enunciado', 'A', 'B', 'C', 'correcta']".
Proof.
  unfold msg_missing, Py.repr_list. rewrite join_concat.
  change (Py.join ", " (map Py.repr_str required))
    with "'tema', 'enunciado', 'A', 'B', 'C', 'correcta'".
  rewrite !append_assoc. reflexivity.
Qed.

(** C9.  Every line of the file is checked and the load fails as a whole on
    any violation: a bank is returned only when no column is missing and
    every line has, once normalised, a topic among 1..7 and a key among A,
    B, C, and a statement and three options that are not empty once
    trimmed; the bank is then complete, one row per line.  Otherwise the
    error is a [ValueError] whose message tells the kind of violation: the
    missing columns, which are the required columns the file does not
    have, are listed between brackets, each between quotes; invalid
    topics, invalid keys and empty fields each have their own message,
    and they are tested in this order. *)
Theorem load_questions_all_or_nothing
    (fs : string -> File) (path : string) (t : Table) :
  fs path = Csv t ->
  let missing := filter (fun c => c ∉ columns t) required in
  let row l :=
    {| Row.tema := Py.strip (cell (columns t) l "tema");
       Row.enunciado := cell (columns t) l "enunciado";
       Row.A := cell (columns t) l "A";
       Row.B := cell (columns t) l "B";
       Row.C := cell (columns t) l "C";
       Row.correcta :=
         Py.upper (Py.strip (cell (columns t) l "correcta")) |} in
  let topic_ok l := Row.tema (row l) ∈ ["1"; "2"; "3"; "4"; "5"; "6"; "7"] in
  let key_ok l := Row.correcta (row l) ∈ ["A"; "B"; "C"] in
  let filled l :=
    Py.strip (cell (columns t) l "enunciado") <> EmptyString
    /\ Py.strip (cell (columns t) l "A") <> EmptyString
    /\ Py.strip (cell (columns t) l "B") <> EmptyString
    /\ Py.strip (cell (columns t) l "C") <> EmptyString in
  (forall bank, load_questions fs path = Ok bank <->
     bank = map row (lines t) /\ missing = []
     /\ forall l, l ∈ lines t -> topic_ok l /\ key_ok l /\ filled l)
  /\ (forall c, c ∈ missing <-> c ∈ required /\ c ∉ columns t)
  /\ (missing <> [] ->
      load_questions fs path =
        Raise (ValueError
          ("Faltan columnas: ["
           +:+ String.concat ", " (map (fun c => "'" +:+ c +:+ "'") missing)
           +:+ "]. Debe haber: ['tema', 'enunciado', 'A', 'B', 'C', 'correcta']")))
  /\ (missing = [] ->
      (exists l, l ∈ lines t /\ ~ topic_ok l) ->
      load_questions fs path =
        Raise (ValueError "Hay temas inválidos. Deben ser 1..7."))
  /\ (missing = [] ->
      (forall l, l ∈ lines t -> topic_ok l) ->
      (exists l, l ∈ lines t /\ ~ key_ok l) ->
      load_questions fs path =
        Raise (ValueError
          "La columna 'correcta' debe ser A/B/C (sin espacios)."))
  /\ (missing = [] ->
      (forall l, l ∈ lines t -> topic_ok l) ->
      (forall l, l ∈ lines t -> key_ok l) ->
      (exists l, l ∈ lines t /\ ~ filled l) ->
      load_questions fs path =
        Raise (ValueError
          "Hay filas con enunciado u opciones vacías. Revisa tu Excel/CSV.")).
Proof.
  intros Hfile missing row topic_ok key_ok filled.
  set (df := map (fun l => normalize (row_of (columns t) l)) (lines t)).
  assert (df = map row (lines t)) as Hdf by done.
  assert (forall P : Row.t -> Prop,
            (forall r, r ∈ df -> P r) <-> forall l, l ∈ lines t -> P (row l))
    as Hall.
  { intros P. split.
    - intros H l Hl. apply H. rewrite Hdf. apply list_elem_of_fmap.
      by exists l.
    - intros H r Hr. rewrite Hdf in Hr.
      apply list_elem_of_fmap in Hr as (l & -> & Hl). by apply H. }
  assert (forall l, is_bad (row l) = false <-> filled l) as Hfilled.
  { intros l. apply is_bad_false. }
  split; [|split; [|split; [|split; [|split]]]].
  - intros bank.
    rewrite (load_questions_ok_iff fs path t bank Hfile). cbv zeta.
    fold missing df. rewrite Hall. rewrite <- Hdf.
    split; intros (Hb & Hm & Hl); (split; [done|]); (split; [done|]);
      intros l Hin; destruct (Hl l Hin) as (H1 & H2 & H3);
      (split; [exact H1|]); (split; [exact H2|]); by apply Hfilled.
  - intros c. unfold missing. rewrite list_elem_of_filter. tauto.
  - intros Hm. rewrite (load_questions_unfold fs path t Hfile).
    fold missing. rewrite bool_decide_eq_false_2 by done.
    cbn [negb]. by rewrite msg_missing_spelled.
  - intros Hm (l & Hl & Hbad).
    apply (load_questions_bad_topic fs path t Hfile Hm).
    exists (row l). split; [|exact Hbad].
    fold df. rewrite Hdf. apply list_elem_of_fmap. by exists l.
  - intros Hm Ht (l & Hl & Hbad).
    rewrite (load_questions_unfold fs path t Hfile). fold missing df.
    rewrite bool_decide_eq_true_2 by done. cbn [negb].
    rewrite (proj2 (forallb_tema_ok df)) by (by apply Hall). cbn [negb].
    destruct (forallb correcta_ok df) eqn:Hc; [|done].
    exfalso. apply Hbad.
    apply (proj1 (Hall (fun r => Row.correcta r ∈ valid_keys))); [|done].
    by apply forallb_correcta_ok.
  - intros Hm Ht Hk (l & Hl & Hbad).
    rewrite (load_questions_unfold fs path t Hfile). fold missing df.
    rewrite bool_decide_eq_true_2 by done. cbn [negb].
    rewrite (proj2 (forallb_tema_ok df)) by (by apply Hall).
    rewrite (proj2 (forallb_correcta_ok df)) by (by apply Hall).
    cbn [negb]. case_bool_decide as Hb; [done|].
    exfalso. apply Hbad, Hfilled.
    apply (proj1 (Hall (fun r => is_bad r = false))); [|done].
    by apply no_bad_rows.
Qed.

Lemma load_questions_all_or_nothing_witness :
  file_system sample_table CSV_FILENAME = Csv sample_table
  /\ forall l, l ∈ lines sample_table ->
       Py.strip (cell (columns sample_table) l "tema")
       ∈ ["1"; "2"; "3"; "4"; "5"; "6"; "7"].
Proof.
  split; [reflexivity|].
  destruct (load_questions_all_or_nothing (file_system sample_table)
              CSV_FILENAME sample_table eq_refl) as [Hok _].
  destruct (proj1 (Hok sample_bank)) as (_ & _ & Hall);
    [vm_compute; reflexivity|].
  intros l Hl. by destruct (Hall l Hl) as [H _].
Defined.

Example load_questions_no_key_column :
  load_questions (file_system no_key_table) CSV_FILENAME
  = Raise (ValueError
      "Faltan columnas: ['correcta']. Debe haber: ['tema', 'enunciado', 'A', 'B', 'C', 'correcta']").
Proof. vm_compute. reflexivity. Qed.

Example load_questions_topic_8 :
  load_questions (file_system topic_8_table) CSV_FILENAME
  = Raise (ValueError "Hay temas inválidos. Deben ser 1..7.").
Proof. vm_compute. reflexivity. Qed.

Example load_questions_key_D :
  load_questions (file_system key_D_table) CSV_FILENAME
  = Raise (ValueError "La columna 'correcta' debe ser A/B/C (sin espacios).").
Proof. vm_compute. reflexivity. Qed.

Example load_questions_missing_statement :
  load_questions (file_system holed_table) CSV_FILENAME
  = Raise (ValueError
      "Hay filas con enunciado u opciones vacías. Revisa tu Excel/CSV.").
Proof. vm_compute. reflexivity. Qed.

Example load_questions_no_file :
  load_questions (fun _ => NoFile) CSV_FILENAME
  = Raise (FileNotFoundError
      "No existe preguntas.csv. Pon preguntas.csv en la misma carpeta que app.py.").
Proof. vm_compute. reflexivity. Qed.

Lemma valid_temas_list :
  valid_temas = ["1"; "2"; "3"; "4"; "5"; "6"; "7"].
Proof. reflexivity. Qed.

Lemma valid_tema_inv (s : string) :
  s ∈ valid_temas ->
  s = "1" \/ s = "2" \/ s = "3" \/ s = "4" \/ s = "5" \/ s = "6" \/ s = "7".
Proof.
  rewrite valid_temas_list, list_elem_of_In. simpl. intuition auto.
Qed.

Lemma valid_key_inv (s : string) :
  s ∈ valid_keys -> s = "A" \/ s = "B" \/ s = "C".
Proof. unfold valid_keys. rewrite list_elem_of_In. simpl. intuition auto. Qed.

Lemma required_inv (c : string) :
  c ∈ required ->
  c = "tema" \/ c = "enunciado" \/ c = "A" \/ c = "B" \/ c = "C"
  \/ c = "correcta".
Proof. unfold required. rewrite list_elem_of_In. simpl. intuition auto. Qed.

Lemma no_missing_columns (cols : list string) :
  (forall c, c ∈ required -> c ∈ cols) ->
  filter (fun c => c ∉ cols) required = [].
Proof.
  intros H. destruct (filter _ required) as [|c l] eqn:Hf; [done|].
  assert (c ∈ filter (fun c => c ∉ cols) required) as Hin by (rewrite Hf; left).
  apply list_elem_of_filter in Hin as [Hn Hin]. by apply H in Hin.
Qed.

(** A row built from a line with a missing value in a required column
    fails one of the three row checks. *)
Lemma missing_value_row (cols : list string) (l : list (option string))
    (c : string) :
  c ∈ required -> raw_cell cols l c = None ->
  let r := normalize (row_of cols l) in
  Row.tema r ∉ valid_temas \/ Row.correcta r ∉ valid_keys \/ is_bad r = true.
Proof.
  intros Hc Hraw r.
  apply required_inv in Hc as [->|[->|[->|[->|[->| ->]]]]].
  - left. subst r. simpl. unfold cell. rewrite Hraw. simpl.
    intros H. apply valid_tema_inv in H. intuition discriminate.
  - right; right. subst r. unfold is_bad. simpl. unfold cell at 1.
    rewrite Hraw. reflexivity.
  - right; right. subst r. unfold is_bad. simpl. unfold cell at 2.
    rewrite Hraw. simpl. by rewrite orb_true_r.
  - right; right. subst r. unfold is_bad. simpl. unfold cell at 3.
    rewrite Hraw. simpl. by rewrite orb_true_r.
  - right; right. subst r. unfold is_bad. simpl. unfold cell at 4.
    rewrite Hraw. simpl. by rewrite orb_true_r.
  - right; left. subst r. simpl. unfold cell. rewrite Hraw. simpl.
    intros H. apply valid_key_inv in H. intuition discriminate.
Qed.

(** C10.  Missing values become empty strings before the checks run, so in
    a file that has the six columns a line with a missing value in one of
    them makes the load fail with one of the three validation errors (with
    the topic error when the topic is the missing value); every failure of
    such a file is one of these three errors, and a bank that is returned
    was built from lines without missing values. *)
Theorem load_questions_missing_value
    (fs : string -> File) (path : string) (t : Table) :
  fs path = Csv t ->
  (forall c, c ∈ required -> c ∈ columns t) ->
  ((exists l c, l ∈ lines t /\ c ∈ required
                /\ raw_cell (columns t) l c = None) ->
   load_questions fs path ∈
     [Raise (ValueError msg_temas); Raise (ValueError msg_correcta);
      Raise (ValueError msg_vacias)])
  /\ ((exists l, l ∈ lines t /\ raw_cell (columns t) l "tema" = None) ->
      load_questions fs path = Raise (ValueError msg_temas))
  /\ (forall e, load_questions fs path = Raise e ->
      e ∈ [ValueError msg_temas; ValueError msg_correcta;
           ValueError msg_vacias])
  /\ (forall bank, load_questions fs path = Ok bank ->
      forall l c, l ∈ lines t -> c ∈ required ->
        is_Some (raw_cell (columns t) l c)).
Proof.
  intros Hfile Hcols.
  pose proof (fun bank => load_questions_ok_iff fs path t bank Hfile) as Hok.
  pose proof (load_questions_bad_topic fs path t Hfile) as Htema.
  cbv zeta in Hok, Htema.
  pose proof (no_missing_columns (columns t) Hcols) as Hm.
  set (df := map (fun l => normalize (row_of (columns t) l)) (lines t)) in *.
  assert (forall e, load_questions fs path = Raise e ->
            e ∈ [ValueError msg_temas; ValueError msg_correcta;
                 ValueError msg_vacias]) as Herr.
  { intros e. rewrite (load_questions_unfold fs path t Hfile). fold df.
    rewrite Hm. rewrite bool_decide_eq_true_2 by done. simpl.
    destruct (forallb tema_ok df); simpl;
      [|intros [= <-]; apply list_elem_of_In; simpl; auto].
    destruct (forallb correcta_ok df); simpl;
      [|intros [= <-]; apply list_elem_of_In; simpl; auto].
    case_bool_decide; [|done].
    intros [= <-]; apply list_elem_of_In; simpl; auto. }
  assert (forall l c, l ∈ lines t -> c ∈ required ->
            raw_cell (columns t) l c = None ->
            forall bank, load_questions fs path <> Ok bank) as Hno.
  { intros l c Hl Hc Hraw bank Hload.
    apply Hok in Hload as (_ & _ & Hall).
    assert (normalize (row_of (columns t) l) ∈ df) as Hr.
    { apply list_elem_of_fmap. by exists l. }
    destruct (Hall _ Hr) as (H1 & H2 & H3).
    destruct (missing_value_row (columns t) l c Hc Hraw) as [H|[H|H]];
      simpl in H; [done|done|congruence]. }
  split; [|split; [|split]].
  - intros (l & c & Hl & Hc & Hraw).
    specialize (Hno l c Hl Hc Hraw).
    destruct (load_questions fs path) as [bank|e].
    + by destruct (Hno bank).
    + specialize (Herr e eq_refl).
      change (Raise (T := DataFrame) e ∈
                Raise <$> [ValueError msg_temas; ValueError msg_correcta;
                           ValueError msg_vacias]).
      apply list_elem_of_fmap. by exists e.
  - intros (l & Hl & Hraw). apply (Htema Hm).
    exists (normalize (row_of (columns t) l)). split.
    + apply list_elem_of_fmap. by exists l.
    + simpl. unfold cell. rewrite Hraw. simpl.
      intros H. apply valid_tema_inv in H. intuition discriminate.
  - exact Herr.
  - intros bank Hload l c Hl Hc.
    destruct (raw_cell (columns t) l c) eqn:Hraw; [by eexists|].
    exfalso. by eapply (Hno l c).
Qed.

Lemma load_questions_missing_value_witness :
  file_system holed_table CSV_FILENAME = Csv holed_table
  /\ (forall c, c ∈ required -> c ∈ columns holed_table)
  /\ load_questions (file_system holed_table) CSV_FILENAME ∈
       [Raise (ValueError msg_temas); Raise (ValueError msg_correcta);
        Raise (ValueError msg_vacias)].
Proof.
  split; [reflexivity|]. split; [intros c Hc; exact Hc|].
  apply (load_questions_missing_value (file_system holed_table) CSV_FILENAME
           holed_table eq_refl (fun c Hc => Hc)).
  exists [Some "2"; None; Some "si"; Some "no"; Some "depende"; Some "A"],
    "enunciado".
  split; [left|]. split; [right; left|reflexivity].
Defined.

(** The statement and the options of the returned bank keep the blanks they
    have in the file: not every field is trimmed. *)
Lemma load_questions_keeps_blanks :
  load_questions (file_system spaced_table) CSV_FILENAME = Ok spaced_bank
  /\ ~ Forall all_fields_trimmed spaced_bank.
Proof.
  split; [reflexivity|].
  intros H. apply Forall_cons in H as [(_ & H & _) _]. discriminate H.
Qed.

(** What [strip] and [upper] do to the padded cells of the examples. *)
Lemma strip_upper_examples :
  Py.strip " 3 " = "3"
  /\ Py.upper (Py.strip " b ") = "B"
  /\ Py.strip (nbsp +:+ "3" +:+ nbsp) = "3"
  /\ Py.upper (Py.strip (nbsp +:+ "c")) = "C"
  /\ Py.strip nbsp = EmptyString
  /\ Py.strip "  Velocidad maxima  " = "Velocidad maxima".
Proof. repeat split; reflexivity. Qed.

(** C8, as the code has it.  [load_questions] is a function of the file
    alone.  The topic is trimmed and the key is trimmed and put in upper
    case before they are validated: a file that has the six columns is
    accepted exactly when, for every line, the trimmed topic is one of
    1..7, the trimmed key in upper case is one of A, B, C, and the
    statement and the three options are not empty once trimmed; so a
    topic written " 3 " and a key written " b " are accepted, and stored
    as "3" and "B".  Trimming removes the white space of [str.isspace],
    the no-break space included.  In the bank, row by row in file order,
    the topic and the key are stored in that normal form (trimming or
    upper-casing them again changes nothing), while the statement and the
    three options are stored as the cells were read, blanks included. *)
Theorem load_questions_normalizes_topic_and_key
    (fs : string -> File) (path : string) (t : Table) :
  fs path = Csv t ->
  (forall c, c ∈ required -> c ∈ columns t) ->
  let row l :=
    {| Row.tema := Py.strip (cell (columns t) l "tema");
       Row.enunciado := cell (columns t) l "enunciado";
       Row.A := cell (columns t) l "A";
       Row.B := cell (columns t) l "B";
       Row.C := cell (columns t) l "C";
       Row.correcta :=
         Py.upper (Py.strip (cell (columns t) l "correcta")) |} in
  ((forall l, l ∈ lines t ->
      Py.strip (cell (columns t) l "tema")
      ∈ ["1"; "2"; "3"; "4"; "5"; "6"; "7"]
      /\ Py.upper (Py.strip (cell (columns t) l "correcta"))
         ∈ ["A"; "B"; "C"]
      /\ Py.strip (cell (columns t) l "enunciado") <> EmptyString
      /\ Py.strip (cell (columns t) l "A") <> EmptyString
      /\ Py.strip (cell (columns t) l "B") <> EmptyString
      /\ Py.strip (cell (columns t) l "C") <> EmptyString)
   <-> load_questions fs path = Ok (map row (lines t)))
  /\ (forall bank, load_questions fs path = Ok bank ->
      bank = map row (lines t)
      /\ forall r, r ∈ bank ->
           trimmed (Row.tema r) /\ trimmed (Row.correcta r)
           /\ Py.upper (Row.correcta r) = Row.correcta r)
  /\ (Py.strip " 3 " = "3"
      /\ Py.upper (Py.strip " b ") = "B"
      /\ Py.strip (nbsp +:+ "3" +:+ nbsp) = "3"
      /\ Py.upper (Py.strip (nbsp +:+ "c")) = "C"
      /\ Py.strip nbsp = EmptyString
      /\ Py.strip "  Velocidad maxima  " = "Velocidad maxima").
Proof.
  intros Hfile Hcols row.
  pose proof (no_missing_columns (columns t) Hcols) as Hm.
  pose proof (fun bank => load_questions_ok_iff fs path t bank Hfile) as Hok.
  cbv zeta in Hok.
  set (df := map (fun l => normalize (row_of (columns t) l)) (lines t)) in *.
  assert (df = map row (lines t)) as Hdf by done.
  split; [|split; [|exact strip_upper_examples]].
  - rewrite <- Hdf. rewrite (Hok df). split.
    + intros Hall. split; [done|]. split; [done|].
      intros r Hr. rewrite Hdf in Hr.
      apply list_elem_of_fmap in Hr as (l & -> & Hl).
      destruct (Hall l Hl) as (H1 & H2 & H3).
      split; [exact H1|]. split; [exact H2|].
      by apply (is_bad_false (row l)).
    + intros (_ & _ & Hall) l Hl.
      destruct (Hall (row l)) as (H1 & H2 & H3).
      { rewrite Hdf. apply list_elem_of_fmap. by exists l. }
      split; [exact H1|]. split; [exact H2|].
      by apply (is_bad_false (row l)).
  - intros bank Hload. apply Hok in Hload as (-> & _ & Hall).
    split; [done|]. intros r Hr. destruct (Hall r Hr) as (Ht & Hk & _).
    split; [|split].
    + unfold trimmed.
      apply valid_tema_inv in Ht as [->|[->|[->|[->|[->|[->| ->]]]]]];
        reflexivity.
    + unfold trimmed.
      apply valid_key_inv in Hk as [->|[->| ->]]; reflexivity.
    + apply valid_key_inv in Hk as [->|[->| ->]]; reflexivity.
Qed.

Lemma load_questions_normalizes_topic_and_key_witness :
  file_system spaced_table CSV_FILENAME = Csv spaced_table
  /\ (forall c, c ∈ required -> c ∈ columns spaced_table)
  /\ forall r, r ∈ spaced_bank -> trimmed (Row.tema r).
Proof.
  split; [reflexivity|]. split; [intros c Hc; exact Hc|].
  destruct (load_questions_normalizes_topic_and_key
              (file_system spaced_table) CSV_FILENAME spaced_table eq_refl
              (fun c Hc => Hc)) as (_ & Hbank & _).
  destruct (Hbank spaced_bank eq_refl) as [_ Hall].
  intros r Hr. by destruct (Hall r Hr) as [H _].
Defined.

(** Topic and key padded with no-break spaces are normalised and
    accepted; a statement made of a no-break space is empty once trimmed
    and rejected. *)
Example load_questions_nbsp_padded :
  load_questions (file_system nbsp_table) CSV_FILENAME
  = Ok [Row.mk "3" "Ceda el paso" "si" "no" "depende" "C"].
Proof. vm_compute. reflexivity. Qed.

Example load_questions_nbsp_statement :
  load_questions (file_system nbsp_statement_table) CSV_FILENAME
  = Raise (ValueError
      "Hay filas con enunciado u opciones vacías. Revisa tu Excel/CSV.").
Proof. vm_compute. reflexivity. Qed.

(** ** Shuffling and sampling *)

Section shuffling.
Context {T : Type}.
Implicit Types (x : list T) (g : Stream).

Lemma swap_perm x i j : swap x i j ≡ₚ x.
Proof.
  unfold swap.
  destruct (x !! i) as [a|] eqn:Hi; [|done].
  destruct (x !! j) as [b|] eqn:Hj; [|done].
  by apply Permutation_insert_swap.
Qed.

Lemma shuffle_loop_perm i : forall x g, (shuffle_loop i x g).1 ≡ₚ x.
Proof.
  induction i as [|i IH]; intros x g; [done|].
  cbn [shuffle_loop]. unfold randbelow. cbn zeta beta iota.
  rewrite IH. apply swap_perm.
Qed.

Lemma shuffle_perm x g : (shuffle x g).1 ≡ₚ x.
Proof. apply shuffle_loop_perm. Qed.

Lemma swap_fmap {U} (f : T -> U) x i j :
  swap (f <$> x) i j = f <$> swap x i j.
Proof.
  unfold swap. rewrite !list_lookup_fmap.
  destruct (x !! i) as [a|]; [|done].
  destruct (x !! j) as [b|]; [|done].
  simpl. by rewrite !list_fmap_insert.
Qed.

Lemma shuffle_loop_fmap {U} (f : T -> U) i : forall x g,
  shuffle_loop i (f <$> x) g
  = (f <$> (shuffle_loop i x g).1, (shuffle_loop i x g).2).
Proof.
  induction i as [|i IH]; intros x g; [done|].
  cbn [shuffle_loop]. unfold randbelow. cbn zeta beta iota.
  by rewrite swap_fmap, IH.
Qed.

Lemma shuffle_fmap {U} (f : T -> U) x g :
  (shuffle (f <$> x) g).1 = f <$> (shuffle x g).1.
Proof. unfold shuffle. by rewrite length_fmap, shuffle_loop_fmap. Qed.
End shuffling.

Lemma permutation_perm (m : nat) (g : Stream) : permutation m g ≡ₚ seq 0 m.
Proof. apply shuffle_perm. Qed.

Lemma bind_Ok {A B} (v : A) (f : A -> Result B) : Ok v ≫= f = f v.
Proof. reflexivity. Qed.

Lemma bind_Raise {A B} (e : Exn) (f : A -> Result B) :
  Raise e ≫= f = Raise e.
Proof. reflexivity. Qed.

(** [mapM] over [Result]. *)
Section mapM_result.
Context {A B : Type} (f : A -> Result B).

Lemma mapM_Ok (l : list A) (k : list B) :
  mapM f l = Ok k <-> Forall2 (fun a b => f a = Ok b) l k.
Proof.
  revert k. induction l as [|a l IH]; intros k; simpl.
  - split.
    + intros [= <-]. constructor.
    + intros H. by inversion H.
  - split.
    + intros H. destruct (f a) as [b|e] eqn:Ha; [|done]. simpl in H.
      destruct (mapM f l) as [k'|e] eqn:Hl; [|done].
      injection H as <-. constructor; [done|]. by apply IH.
    + intros H. inversion H as [|? b ? k' Ha Hl]; subst.
      rewrite Ha. simpl. apply IH in Hl. by rewrite Hl.
Qed.

Lemma mapM_total (l : list A) :
  (forall a, a ∈ l -> exists b, f a = Ok b) -> exists k, mapM f l = Ok k.
Proof.
  induction l as [|a l IH]; intros H; simpl; [by eexists|].
  destruct (H a) as [b Hb]; [left|]. rewrite Hb. simpl.
  destruct IH as [k Hk]; [intros; apply H; by right|].
  rewrite Hk. by eexists.
Qed.

Lemma mapM_fmap {C} (h : B -> C) (f' : A -> Result C) (l : list A) :
  (forall a, f' a = fmap (M := Result) h (f a)) ->
  mapM (M := Result) f' l
  = fmap (M := Result) (fmap (M := list) h) (mapM (M := Result) f l).
Proof.
  intros Hf. induction l as [|a l IH]; simpl; [done|].
  rewrite Hf, IH. destruct (f a); [|done]. simpl.
  by destruct (mapM f l).
Qed.
End mapM_result.

Section sampling.
Context {T : Type} (np : Z -> Stream) (pool : list T).

(** The sample exists when the pool is large enough, and it holds the
    rows found at distinct positions of the pool. *)
Lemma pd_sample_ok (n seed : Z) :
  0 <= n <= Py.len pool ->
  exists sample ps,
    pd_sample np pool n seed = Ok sample
    /\ length sample = Z.to_nat n
    /\ NoDup ps
    /\ Forall2 (fun p r => pool !! p = Some r) ps sample.
Proof.
  unfold Py.len. intros Hn. unfold pd_sample.
  rewrite bool_decide_eq_false_2 by lia.
  rewrite bool_decide_eq_false_2 by (unfold Py.len; lia).
  set (ps := take (Z.to_nat n) (permutation (length pool) (np seed))).
  pose proof (permutation_perm (length pool) (np seed)) as Hperm.
  assert (forall p, p ∈ ps -> p < length pool)%nat as Hrange.
  { intros p Hp. apply elem_of_take in Hp as (i & Hp & _).
    apply list_elem_of_lookup_2 in Hp. rewrite Hperm in Hp.
    apply elem_of_seq in Hp. lia. }
  destruct (mapM_total (take_row pool) ps) as [sample Hs].
  { intros p Hp. apply Hrange, lookup_lt_is_Some in Hp as [r Hr].
    exists r. unfold take_row. by rewrite Hr. }
  exists sample, ps. split; [done|].
  apply mapM_Ok in Hs.
  assert (Forall2 (fun p r => pool !! p = Some r) ps sample) as Hrel.
  { eapply Forall2_impl; [exact Hs|]. intros p r. unfold take_row.
    by destruct (pool !! p); intros [= ->]. }
  split; [|split; [|done]].
  - rewrite <- (Forall2_length _ _ _ Hrel). subst ps.
    rewrite length_take. rewrite Hperm, length_seq. lia.
  - subst ps. eapply sublist_NoDup; [|apply sublist_take].
    rewrite Hperm. apply NoDup_seq.
Qed.

(** Rows found at distinct positions of a duplicate-free list are
    distinct. *)
Lemma lookups_NoDup (ps : list nat) (sample : list T) :
  NoDup pool -> NoDup ps ->
  Forall2 (fun p r => pool !! p = Some r) ps sample ->
  NoDup sample.
Proof.
  intros Hpool Hps Hrel. induction Hrel as [|p r ps sample Hp Hrel IH].
  - constructor.
  - apply NoDup_cons in Hps as [Hnp Hps].
    apply NoDup_cons. split; [|by apply IH].
    intros Hr. apply list_elem_of_lookup in Hr as [k Hk].
    destruct (Forall2_lookup_r _ _ _ _ _ Hrel Hk) as (p' & Hp' & Hpr).
    assert (p = p') as -> by exact (NoDup_lookup pool p p' r Hpool Hp Hpr).
    apply Hnp. by eapply list_elem_of_lookup_2.
Qed.
End sampling.

(** ** The exam generator *)

Section generator.
Variables (df : DataFrame) (np : Z -> Stream).

Lemma indexed_elem (i : nat) (r : Row.t) :
  (i, r) ∈ indexed df <-> df !! i = Some r.
Proof.
  unfold indexed. rewrite elem_of_lookup_imap. split.
  - by intros (j & y & [= -> ->] & H).
  - intros H. by exists i, r.
Qed.

Lemma indexed_labels : (indexed df).*1 = seq 0 (length df).
Proof.
  apply list_eq. intros i. unfold indexed.
  rewrite list_lookup_fmap, list_lookup_imap.
  destruct (df !! i) as [r|] eqn:Hi; simpl.
  - apply lookup_lt_Some in Hi. by rewrite lookup_seq_lt.
  - apply lookup_ge_None in Hi. by rewrite lookup_seq_ge.
Qed.

Lemma pool_labels_NoDup (topic : Z) :
  NoDup (filter (in_topic topic) (indexed df)).*1.
Proof.
  eapply sublist_NoDup;
    [|apply fmap_sublist, (sublist_filter (in_topic topic))].
  rewrite indexed_labels. apply NoDup_seq.
Qed.

Lemma pool_length (topic : Z) :
  Py.len (filter (in_topic topic) (indexed df)) = available df topic.
Proof.
  unfold available, Py.len. f_equal. symmetry.
  apply (Forall2_length (fun r ir => ir.2 = r)).
  apply Forall2_filter; [by intros r [i r'] [= ->]|].
  apply Forall2_same_length_lookup_2.
  - unfold indexed. by rewrite length_imap.
  - intros i r ir Hr. unfold indexed. rewrite list_lookup_imap, Hr.
    by intros [= <-].
Qed.

Lemma question_of_topic (r : Row.t) (topic : Z) :
  Py.int (Py.str topic) = Some topic -> Row.tema r = Py.str topic ->
  exists q, question_of r = Ok q /\ Question.tema q = topic.
Proof.
  intros Hint Hr. unfold question_of. rewrite Hr, Hint. by eexists.
Qed.

Lemma labelled_inv (ir : nat * Row.t) (iq : nat * Question.t) :
  labelled ir = Ok iq -> iq.1 = ir.1 /\ question_of ir.2 = Ok iq.2.
Proof.
  unfold labelled. destruct (question_of ir.2); [|done].
  by intros [= <-].
Qed.

Lemma topic_block (topic n seed : Z) :
  Py.int (Py.str topic) = Some topic ->
  0 <= n <= available df topic ->
  exists sample block,
    pd_sample np (filter (in_topic topic) (indexed df)) n seed = Ok sample
    /\ mapM labelled sample = Ok block
    /\ block_ok df (topic, n) block.
Proof.
  intros Hint Hn. set (pool := filter (in_topic topic) (indexed df)).
  destruct (pd_sample_ok np pool n seed) as (sample & ps & Hs & Hlen & Hps & Hrel).
  { unfold pool. by rewrite pool_length. }
  assert (forall ir, ir ∈ sample ->
            df !! ir.1 = Some ir.2 /\ Row.tema ir.2 = Py.str topic) as Hin.
  { intros [i r] Hir. apply list_elem_of_lookup in Hir as [k Hk].
    destruct (Forall2_lookup_r _ _ _ _ _ Hrel Hk) as (p & _ & Hp).
    apply list_elem_of_lookup_2, list_elem_of_filter in Hp as [Ht Hp].
    split; [by apply indexed_elem|done]. }
  destruct (mapM_total labelled sample) as [block Hb].
  { intros ir Hir. destruct (Hin ir Hir) as [_ Ht].
    destruct (question_of_topic ir.2 topic Hint Ht) as (q & Hq & _).
    exists (ir.1, q). unfold labelled. by rewrite Hq. }
  exists sample, block. split; [done|]. split; [done|].
  apply mapM_Ok in Hb.
  assert (block.*1 = sample.*1) as Hfst.
  { apply list_eq_Forall2, Forall2_fmap, Forall2_flip.
    eapply Forall2_impl; [exact Hb|]. intros ir iq H.
    by apply labelled_inv in H as [-> _]. }
  split; [|split].
  - by rewrite <- (Forall2_length _ _ _ Hb).
  - rewrite Hfst. apply (lookups_NoDup pool.*1 ps).
    + apply pool_labels_NoDup.
    + done.
    + apply Forall2_fmap_r. eapply Forall2_impl; [exact Hrel|].
      intros p ir Hp. simpl. by rewrite list_lookup_fmap, Hp.
  - intros i q Hiq. apply list_elem_of_lookup in Hiq as [k Hk].
    destruct (Forall2_lookup_r _ _ _ _ _ Hb Hk) as ([i' r] & Hs' & Hlab).
    apply labelled_inv in Hlab as [Hi Hq]. cbn [fst snd] in Hi, Hq.
    subst i'.
    apply list_elem_of_lookup_2, Hin in Hs' as [Hdf Ht].
    cbn [fst snd] in Hdf, Ht.
    exists r. split; [done|]. split; [done|]. split; [done|].
    destruct (question_of_topic r topic Hint Ht) as (q' & Hq' & Htq).
    cbn [fst]. congruence.
Qed.
End generator.

Section generator_loop.
Variables (df : DataFrame) (np : Z -> Stream).

(** The loop over the topics stops with the message of the first topic
    that is short of rows, and otherwise appends one block per topic. *)
Lemma topics_loop_labelled (dist : list (Z * Z)) :
  (forall t n, (t, n) ∈ dist -> Py.int (Py.str t) = Some t /\ 0 <= n) ->
  forall g exam,
    match list_find (short df) dist with
    | Some (_, tn) =>
        topics_loop labelled np dist (indexed df) g exam
        = Raise (ValueError (msg_pool tn.1 tn.2 (available df tn.1)))
    | None =>
        exists blocks g',
          topics_loop labelled np dist (indexed df) g exam
          = Ok (exam ++ mjoin blocks, g')
          /\ Forall2 (block_ok df) dist blocks
    end.
Proof.
  induction dist as [|[t n] dist IH]; intros Hdist g exam.
  - exists [], g. simpl. by rewrite app_nil_r.
  - cbn [list_find topics_loop]. rewrite pool_length.
    destruct (Hdist t n) as [Hint Hn]; [left|].
    destruct (decide (short df (t, n))) as [Hshort|Hshort].
    + unfold short in Hshort. cbn [fst snd] in *.
      by rewrite bool_decide_eq_true_2.
    + unfold short in Hshort. cbn [fst snd] in Hshort.
      rewrite bool_decide_eq_false_2 by done.
      destruct (randint 0 (10 ^ 9) g) as [seed g1].
      destruct (topic_block df np t n seed Hint) as (sample & block & Hs & Hb & Hok);
        [lia|].
      rewrite Hs, bind_Ok, Hb, bind_Ok.
      specialize (IH (fun t' n' H => Hdist t' n' (list_elem_of_further _ _ _ H))
                    g1 (exam ++ block)).
      destruct (list_find (short df) dist) as [[k tn]|]; cbn [fmap option_fmap option_map prod_map].
      * exact IH.
      * destruct IH as (blocks & g' & Hloop & Hblocks).
        exists (block :: blocks), g'. split; [|by constructor].
        rewrite Hloop.
        change (mjoin (block :: blocks)) with (block ++ mjoin blocks).
        by rewrite app_assoc.
Qed.

(** The loop of the script is the labelled loop with the labels dropped. *)
Lemma topics_loop_unlabelled (dist : list (Z * Z)) : forall g exam,
  topics_loop (fun ir => question_of ir.2) np dist (indexed df) g exam.*2
  = fmap (M := Result) (prod_map (fmap snd) id)
      (topics_loop labelled np dist (indexed df) g exam).
Proof.
  induction dist as [|[t n] dist IH]; intros g exam; [done|].
  cbn [topics_loop]. case_bool_decide; [done|].
  destruct (randint 0 (10 ^ 9) g) as [seed g1].
  destruct (pd_sample np _ n seed) as [sample|e]; [|done].
  rewrite !bind_Ok.
  rewrite (mapM_fmap labelled snd (fun ir => question_of ir.2)).
  - destruct (mapM labelled sample) as [block|e]; [|done].
    change (fmap (M := Result) (fmap snd) (Ok block)) with (Ok block.*2).
    rewrite !bind_Ok, <- IH. by rewrite fmap_app.
  - intros ir. unfold labelled. by destruct (question_of ir.2).
Qed.
End generator_loop.

Lemma length_filter_fmap {A B} (f : A -> B) (P : B -> Prop)
    `{forall b, Decision (P b)} (l : list A) :
  length (filter P (f <$> l)) = length (filter (fun a => P (f a)) l).
Proof.
  induction l as [|a l IH]; [done|].
  rewrite fmap_cons, !filter_cons. destruct (decide (P (f a))); simpl; lia.
Qed.

Lemma filter_all {A} (P : A -> Prop) `{forall a, Decision (P a)} (l : list A) :
  (forall a, a ∈ l -> P a) -> filter P l = l.
Proof.
  induction l as [|a l IH]; intros Hall; [done|].
  rewrite filter_cons_True by (apply Hall; left).
  f_equal. apply IH. intros; apply Hall; by right.
Qed.

Lemma filter_none {A} (P : A -> Prop) `{forall a, Decision (P a)} (l : list A) :
  (forall a, a ∈ l -> ~ P a) -> filter P l = [].
Proof.
  induction l as [|a l IH]; intros Hall; [done|].
  rewrite filter_cons_False by (apply Hall; left).
  apply IH. intros; apply Hall; by right.
Qed.

Section blocks.
Variable df : DataFrame.
Implicit Types (dist : list (Z * Z)) (blocks : list (list (nat * Question.t))).

Lemma blocks_elem dist blocks (i : nat) (q : Question.t) :
  Forall2 (block_ok df) dist blocks ->
  (i, q) ∈ mjoin blocks ->
  exists t n r, (t, n) ∈ dist /\ df !! i = Some r
    /\ Row.tema r = Py.str t /\ question_of r = Ok q
    /\ Question.tema q = t.
Proof.
  induction 1 as [|[t n] block dist' blocks' (_ & _ & Hb) _ IH].
  - intros H. by apply elem_of_nil in H.
  - change (mjoin (block :: blocks')) with (block ++ mjoin blocks'). rewrite elem_of_app. intros [Hin|Hin].
    + destruct (Hb i q Hin) as (r & Hr). exists t, n, r.
      split; [left|done].
    + destruct (IH Hin) as (t' & n' & r & Hd & Hr). exists t', n', r.
      split; [by right|done].
Qed.

Lemma blocks_length dist blocks :
  Forall2 (block_ok df) dist blocks ->
  length (mjoin blocks) = sum_list ((fun tn => Z.to_nat tn.2) <$> dist).
Proof.
  induction 1 as [|[t n] block dist' blocks' (Hlen & _) _ IH]; [done|].
  change (mjoin (block :: blocks')) with (block ++ mjoin blocks'). rewrite length_app, IH, Hlen. done.
Qed.

Lemma printable_cons tn dist : printable (tn :: dist) -> printable dist.
Proof. intros H t n Hin. eapply H. by right. Qed.

(** A question of a later block is not of the topic of an earlier one. *)
Lemma blocks_other_topic t n dist blocks (i : nat) (q : Question.t) :
  printable ((t, n) :: dist) -> NoDup ((t, n) :: dist).*1 ->
  Forall2 (block_ok df) dist blocks ->
  (i, q) ∈ mjoin blocks ->
  Question.tema q <> t
  /\ forall r, df !! i = Some r -> Row.tema r <> Py.str t.
Proof.
  intros Hint Hdist Hbs Hin.
  rewrite fmap_cons in Hdist. apply NoDup_cons in Hdist as [Ht _].
  destruct (blocks_elem dist blocks i q Hbs Hin)
    as (t2 & n2 & r2 & Hd2 & Hr2 & Ht2 & _ & Hq2).
  assert (t2 <> t) as Hne.
  { intros ->. apply Ht. apply list_elem_of_fmap. by exists (t, n2). }
  split; [congruence|].
  intros r Hr Htema. assert (r = r2) as -> by congruence.
  pose proof (Hint t n (list_elem_of_here _ _)) as H1.
  pose proof (Hint t2 n2 (list_elem_of_further _ _ _ Hd2)) as H2.
  congruence.
Qed.

Lemma blocks_labels_NoDup dist blocks :
  printable dist -> NoDup dist.*1 ->
  Forall2 (block_ok df) dist blocks ->
  NoDup (mjoin blocks).*1.
Proof.
  intros Hint Hdist Hblocks.
  induction Hblocks as [|[t n] block dist' blocks' Hb Hbs IH];
    [constructor|].
  change (mjoin (block :: blocks')) with (block ++ mjoin blocks'). rewrite fmap_app. apply NoDup_app.
  split; [apply Hb|]. split.
  - intros i Hi1 Hi2.
    apply list_elem_of_fmap in Hi1 as ([i1 q1] & -> & Hi1).
    apply list_elem_of_fmap in Hi2 as ([i2 q2] & Heq & Hi2).
    cbn [fst] in Heq. subst i2.
    destruct Hb as (_ & _ & Hb).
    destruct (Hb i1 q1 Hi1) as (r1 & Hr1 & Ht1 & _).
    destruct (blocks_other_topic t n dist' blocks' i1 q2 Hint Hdist Hbs Hi2)
      as [_ Hother].
    by apply (Hother r1).
  - apply IH; [by eapply printable_cons|].
    rewrite fmap_cons in Hdist. by apply NoDup_cons in Hdist as [_ ?].
Qed.

Lemma blocks_count dist blocks :
  printable dist -> NoDup dist.*1 ->
  Forall2 (block_ok df) dist blocks ->
  forall t n, (t, n) ∈ dist ->
    length (filter (fun iq => Question.tema iq.2 = t) (mjoin blocks))
    = Z.to_nat n.
Proof.
  intros Hint Hdist Hblocks.
  induction Hblocks as [|[t0 n0] block dist' blocks' Hb Hbs IH];
    intros t n Hin; [by apply elem_of_nil in Hin|].
  change (mjoin (block :: blocks')) with (block ++ mjoin blocks'). rewrite filter_app, length_app.
  apply elem_of_cons in Hin as [[= -> ->]|Hin].
  - rewrite filter_all.
    + rewrite (filter_none _ (mjoin blocks')).
      * destruct Hb as (Hlen & _). cbn [snd length] in *. lia.
      * intros [i q] Hiq.
        by destruct (blocks_other_topic t0 n0 dist' blocks' i q
                       Hint Hdist Hbs Hiq).
    + intros [i q] Hiq. destruct Hb as (_ & _ & Hb).
      destruct (Hb i q Hiq) as (r & _ & _ & _ & Hq). done.
  - rewrite filter_none.
    + cbn [length]. rewrite Nat.add_0_l. apply IH; [|  |done].
      * by eapply printable_cons.
      * rewrite fmap_cons in Hdist. by apply NoDup_cons in Hdist as [_ ?].
    + intros [i q] Hiq. destruct Hb as (_ & _ & Hb).
      destruct (Hb i q Hiq) as (r & _ & _ & _ & Hq). cbn [fst snd] in *.
      intros Heq. rewrite fmap_cons in Hdist.
      apply NoDup_cons in Hdist as [Ht0 _]. apply Ht0.
      apply list_elem_of_fmap. exists (t, n). split; [|done].
      cbn [fst]. congruence.
Qed.
End blocks.

Lemma TOPIC_DISTRIBUTION_printable : printable TOPIC_DISTRIBUTION.
Proof.
  intros t n Hin. unfold TOPIC_DISTRIBUTION in Hin.
  repeat (apply elem_of_cons in Hin as [[= -> ->]|Hin]; [reflexivity|]).
  by apply elem_of_nil in Hin.
Qed.

Lemma TOPIC_DISTRIBUTION_NoDup : NoDup TOPIC_DISTRIBUTION.*1.
Proof. apply NoDup_ListNoDup. repeat constructor; simpl; intuition lia. Qed.

Lemma TOPIC_DISTRIBUTION_quota (t n : Z) :
  (t, n) ∈ TOPIC_DISTRIBUTION -> Py.int (Py.str t) = Some t /\ 0 <= n.
Proof.
  intros Hin. split; [by eapply TOPIC_DISTRIBUTION_printable|].
  unfold TOPIC_DISTRIBUTION in Hin.
  repeat (apply elem_of_cons in Hin as [[= -> ->]|Hin]; [lia|]).
  by apply elem_of_nil in Hin.
Qed.

(** The script's exam is the labelled exam without its labels. *)
Lemma generate_exam_unlabelled (df : DataFrame) (rnd : Random) :
  generate_exam df rnd
  = fmap (M := Result) (fmap snd) (generate_exam_traced df rnd).
Proof.
  unfold generate_exam, generate_exam_traced, generate.
  pose proof (topics_loop_unlabelled df (numpy_random rnd) TOPIC_DISTRIBUTION
                (py_random rnd) []) as H.
  change ([] : list (nat * Question.t)).*2 with ([] : list Question.t) in H.
  rewrite H.
  destruct (topics_loop labelled _ _ _ _ _) as [[exam g]|e]; [|done].
  change (fmap (M := Result) (prod_map (fmap snd) id) (Ok (exam, g)))
    with (Ok (exam.*2, g)).
  rewrite !bind_Ok. cbn [fmap Result_fmap]. by rewrite shuffle_fmap.
Qed.

(** The two outcomes of a generation. *)
Lemma generate_exam_traced_spec (df : DataFrame) (rnd : Random) :
  match list_find (short df) TOPIC_DISTRIBUTION with
  | Some (_, tn) =>
      generate_exam_traced df rnd
      = Raise (ValueError (msg_pool tn.1 tn.2 (available df tn.1)))
  | None =>
      exists blocks tr,
        generate_exam_traced df rnd = Ok tr
        /\ tr ≡ₚ mjoin blocks
        /\ Forall2 (block_ok df) TOPIC_DISTRIBUTION blocks
  end.
Proof.
  pose proof (topics_loop_labelled df (numpy_random rnd) TOPIC_DISTRIBUTION
                TOPIC_DISTRIBUTION_quota (py_random rnd) []) as H.
  unfold generate_exam_traced, generate.
  destruct (list_find (short df) TOPIC_DISTRIBUTION) as [[k tn]|].
  - by rewrite H.
  - destruct H as (blocks & g' & -> & Hblocks). rewrite bind_Ok.
    exists blocks, (shuffle ([] ++ mjoin blocks) g').1.
    split; [done|]. split; [apply shuffle_perm|done].
Qed.

(** C1.  When every topic has at least as many rows as its quota,
    [generate_exam] returns an exam of exactly 20 questions in which each
    topic of the quota table has exactly its quota, and the questions come
    from pairwise different rows of the bank: the labelled run returns the
    same questions, each with the index of the row it was built from, and no
    index occurs twice. *)
Theorem generate_exam_quotas (df : DataFrame) (rnd : Random) :
  (forall t n, (t, n) ∈ TOPIC_DISTRIBUTION -> n <= available df t) ->
  exists tr : list (nat * Question.t),
    generate_exam_traced df rnd = Ok tr
    /\ generate_exam df rnd = Ok tr.*2
    /\ Py.len tr.*2 = EXAM_SIZE
    /\ (forall t n, (t, n) ∈ TOPIC_DISTRIBUTION ->
          Py.len (filter (fun q => Question.tema q = t) tr.*2) = n)
    /\ NoDup tr.*1
    /\ (forall i q, (i, q) ∈ tr ->
          exists r, df !! i = Some r /\ question_of r = Ok q).
Proof.
  intros Henough.
  pose proof (generate_exam_traced_spec df rnd) as H.
  destruct (list_find (short df) TOPIC_DISTRIBUTION) as [[k [t n]]|] eqn:Hfind.
  { apply list_find_Some in Hfind as (Hk & Hshort & _).
    apply list_elem_of_lookup_2, Henough in Hk. unfold short in Hshort.
    cbn [fst snd] in Hshort. lia. }
  destruct H as (blocks & tr & Htr & Hperm & Hblocks).
  exists tr. split; [done|].
  split; [by rewrite generate_exam_unlabelled, Htr|].
  split; [|split; [|split]].
  - unfold Py.len. rewrite length_fmap, Hperm.
    by rewrite (blocks_length df _ _ Hblocks).
  - intros t n Hin. unfold Py.len.
    rewrite length_filter_fmap, Hperm.
    rewrite (blocks_count df _ _ TOPIC_DISTRIBUTION_printable
               TOPIC_DISTRIBUTION_NoDup Hblocks t n Hin).
    apply TOPIC_DISTRIBUTION_quota in Hin. lia.
  - rewrite Hperm.
    by apply (blocks_labels_NoDup df TOPIC_DISTRIBUTION blocks
                TOPIC_DISTRIBUTION_printable TOPIC_DISTRIBUTION_NoDup).
  - intros i q Hiq. rewrite Hperm in Hiq.
    destruct (blocks_elem df _ _ i q Hblocks Hiq)
      as (t & n & r & _ & Hr & _ & Hq & _).
    by exists r.
Qed.

Lemma sample_bank_enough (t n : Z) :
  (t, n) ∈ TOPIC_DISTRIBUTION -> n <= available sample_bank t.
Proof.
  intros Hin. unfold TOPIC_DISTRIBUTION in Hin.
  repeat (apply elem_of_cons in Hin as [[= -> ->]|Hin];
          [vm_compute; discriminate|]).
  by apply elem_of_nil in Hin.
Qed.

Lemma generate_exam_quotas_witness :
  (forall t n, (t, n) ∈ TOPIC_DISTRIBUTION -> n <= available sample_bank t)
  /\ exists tr : list (nat * Question.t),
       generate_exam sample_bank sample_random = Ok tr.*2
       /\ Py.len tr.*2 = EXAM_SIZE
       /\ NoDup tr.*1.
Proof.
  split; [exact sample_bank_enough|].
  destruct (generate_exam_quotas sample_bank sample_random sample_bank_enough)
    as (tr & _ & Hexam & Hlen & _ & Hnodup & _).
  exists tr. exact (conj Hexam (conj Hlen Hnodup)).
Defined.

(** C4.  [generate_exam] raises exactly when some topic of the quota table
    has fewer rows in the bank than its quota.  The error is then the
    [ValueError] of the first such topic in the order of the table, and its
    message gives that topic, the number of questions required and the
    number available. *)
Theorem generate_exam_raises (df : DataFrame) (rnd : Random) :
  ((exists e, generate_exam df rnd = Raise e) <->
   (exists t n, (t, n) ∈ TOPIC_DISTRIBUTION /\ available df t < n))
  /\ forall e, generate_exam df rnd = Raise e ->
       exists (k : nat) (t n : Z),
         TOPIC_DISTRIBUTION !! k = Some (t, n)
         /\ available df t < n
         /\ (forall j t' n', (j < k)%nat ->
               TOPIC_DISTRIBUTION !! j = Some (t', n') ->
               n' <= available df t')
         /\ e = ValueError
                  ("En el tema " +:+ Py.str t +:+ " necesitas " +:+ Py.str n
                   +:+ " preguntas y solo tienes "
                   +:+ Py.str (available df t) +:+ ".").
Proof.
  pose proof (generate_exam_traced_spec df rnd) as H.
  rewrite generate_exam_unlabelled.
  destruct (list_find (short df) TOPIC_DISTRIBUTION) as [[k [t n]]|] eqn:Hfind.
  - rewrite H. cbn [fmap Result_fmap fst snd].
    apply list_find_Some in Hfind as (Hk & Hshort & Hfirst).
    unfold short in Hshort. cbn [fst snd] in Hshort.
    split.
    + split; [|by eexists].
      intros _. exists t, n. split; [|done]. by eapply list_elem_of_lookup_2.
    + intros e [= <-]. exists k, t, n. split; [done|]. split; [done|].
      split; [|done].
      intros j t' n' Hj Hlook. specialize (Hfirst j (t', n') Hlook Hj).
      unfold short in Hfirst. cbn [fst snd] in Hfirst. lia.
  - destruct H as (blocks & tr & -> & _). cbn [fmap Result_fmap].
    apply list_find_None in Hfind.
    split; [|done]. split; [by intros [e ?]|].
    intros (t & n & Hin & Hshort).
    rewrite Forall_forall in Hfind. by destruct (Hfind (t, n) Hin).
Qed.

(** The shortfall of the specification's example: one row of topic 3. *)
Example generate_exam_topic_3_short :
  generate_exam (take 9 sample_bank) sample_random
  = Raise (ValueError "En el tema 3 necesitas 2 preguntas y solo tienes 1.").
Proof. vm_compute. reflexivity. Qed.

Example generate_exam_sample_topics :
  fmap (M := Result) (fmap Question.tema)
    (generate_exam sample_bank sample_random)
  = Ok [1; 2; 3; 6; 4; 3; 4; 5; 2; 7; 6; 6; 5; 4; 7; 1; 2; 7; 1; 5].
Proof. vm_compute. reflexivity. Qed.

(** ** Running the pieces of the script *)

Section running.
Implicit Types (s : SessionState) (ev : Event).

Lemma st_button_run label disabled click ev s :
  st_button label disabled click ev s
  = (s, [Button label disabled],
     Continue (bool_decide (ev = click) && negb disabled)).
Proof. reflexivity. Qed.

Lemma generate_button_run df rnd ev s :
  generate_button df rnd ev s =
    if bool_decide (ev = ClickGenerate) then
      match generate_exam df rnd with
      | Ok e =>
          ({| exam := Some e; idx := 0; answers := ∅ |},
           [Button "🎲 Generar examen" false], Halt Rerun)
      | Raise e =>
          (s, [Button "🎲 Generar examen" false;
               ErrorBox ("No se pudo generar el examen: " +:+ exn_str e)],
           Continue tt)
      end
    else (s, [Button "🎲 Generar examen" false], Continue tt).
Proof.
  unfold generate_button, mbind, Script_bind. rewrite st_button_run.
  case_bool_decide; [|reflexivity].
  cbn [andb negb]. by destruct (generate_exam df rnd).
Qed.

Lemma reset_button_run ev s :
  reset_button ev s =
    if bool_decide (ev = ClickReset) then
      ({| exam := None; idx := 0; answers := ∅ |},
       [Button "🔄 Reiniciar" false], Halt Rerun)
    else (s, [Button "🔄 Reiniciar" false], Continue tt).
Proof.
  unfold reset_button, mbind, Script_bind. rewrite st_button_run.
  by case_bool_decide.
Qed.

Lemma prev_button_run ev i s :
  prev_button ev i s =
    if bool_decide (ev = ClickPrev) && negb (bool_decide (i = 0)) then
      (set_idx (idx s - 1) s,
       [Button "⬅️ Anterior" (bool_decide (i = 0))], Halt Rerun)
    else (s, [Button "⬅️ Anterior" (bool_decide (i = 0))], Continue tt).
Proof.
  unfold prev_button, mbind, Script_bind. rewrite st_button_run.
  by destruct (_ && _).
Qed.

Lemma next_button_run ev i s :
  next_button ev i s =
    if bool_decide (ev = ClickNext)
       && negb (bool_decide (i = EXAM_SIZE - 1)) then
      (set_idx (idx s + 1) s,
       [Button "Siguiente ➡️" (bool_decide (i = EXAM_SIZE - 1))],
       Halt Rerun)
    else (s, [Button "Siguiente ➡️" (bool_decide (i = EXAM_SIZE - 1))],
          Continue tt).
Proof.
  unfold next_button, mbind, Script_bind. rewrite st_button_run.
  by destruct (_ && _).
Qed.

Lemma show_all_run ds s : show_all ds s = (s, ds, Continue tt).
Proof.
  induction ds as [|d ds IH]; [done|].
  cbn [show_all]. unfold mbind, Script_bind, show.
  cbv beta iota zeta. by rewrite IH.
Qed.

Lemma finish_button_run ev exam s :
  finish_button ev exam s =
    if bool_decide (ev = ClickFinish) then
      (s, Button "✅ Finalizar y corregir" false
          :: finish_page exam (answers s), Continue tt)
    else (s, [Button "✅ Finalizar y corregir" false], Continue tt).
Proof.
  unfold finish_button, mbind, Script_bind. rewrite st_button_run.
  case_bool_decide; [|reflexivity].
  cbn [andb negb]. unfold finish_page, get.
  destruct (grade exam (answers s)) as [correct wrong].
  unfold show. rewrite show_all_run. reflexivity.
Qed.

Lemma default_index_cases (current : option string) :
  (default_index current = 0%nat /\ preset current = "A")
  \/ (default_index current = 1%nat /\ preset current = "B"
      /\ current = Some "B")
  \/ (default_index current = 2%nat /\ preset current = "C"
      /\ current = Some "C").
Proof.
  unfold preset, default_index, keys.
  destruct current as [c|]; [|by left].
  cbn [list_find].
  destruct (decide ("A" = c)); [by left|].
  destruct (decide ("B" = c)) as [<-|]; [right; by left|].
  destruct (decide ("C" = c)) as [<-|]; [right; by right|].
  by left.
Qed.

Lemma preset_key (k : Key) : preset (Some (key_str k)) = key_str k.
Proof. by destruct k. Qed.

Lemma preset_preset current :
  default_index (Some (preset current)) = default_index current
  /\ preset (Some (preset current)) = preset current.
Proof.
  destruct (default_index_cases current)
    as [[-> ->]|[(-> & -> & _)|(-> & -> & _)]]; by split.
Qed.

Lemma keys_preset (current : option string) :
  keys !! default_index current = Some (preset current).
Proof.
  destruct (default_index_cases current)
    as [[-> ->]|[(-> & -> & _)|(-> & -> & _)]]; reflexivity.
Qed.

Lemma question_page_run w exam i s :
  question_page w exam i s =
    match py_index exam i with
    | Raise e => (s, [], Halt (Crash e))
    | Ok q =>
        (set_answers (<[i := choice_of w q (answers s !! i)]> (answers s)) s,
         [ Write ("**" +:+ Question.enunciado q +:+ "**");
           Radio "Respuesta:" (labels q)
             (default_index (answers s !! i)) ],
         Continue tt)
    end.
Proof.
  unfold question_page, mbind, Script_bind.
  destruct (py_index exam i) as [q|e]; [|reflexivity].
  cbn [lift mret Script_ret show get]. unfold st_radio, mbind, Script_bind.
  unfold choice_of. rewrite keys_preset.
  cbn [lift mret Script_ret show].
  by destruct (w !! _).
Qed.

Lemma page_run w ev s :
  page w ev s =
    match exam s with
    | None =>
        (s, [InfoBox "Pulsa **Generar examen** para empezar."], Halt Stop)
    | Some e =>
        match py_index e (idx s) with
        | Raise x => (s, [], Halt (Crash x))
        | Ok q =>
            let s' :=
              set_answers
                (<[idx s := choice_of w q (answers s !! idx s)]> (answers s))
                s in
            let shown :=
              [ Write ("**" +:+ Question.enunciado q +:+ "**");
                Radio "Respuesta:" (labels q)
                  (default_index (answers s !! idx s)) ] in
            let prev := Button "⬅️ Anterior" (bool_decide (idx s = 0)) in
            let next :=
              Button "Siguiente ➡️"
                (bool_decide (idx s = EXAM_SIZE - 1)) in
            if bool_decide (ev = ClickPrev)
               && negb (bool_decide (idx s = 0)) then
              (set_idx (idx s - 1) s', shown ++ [prev], Halt Rerun)
            else if bool_decide (ev = ClickNext)
                    && negb (bool_decide (idx s = EXAM_SIZE - 1)) then
              (set_idx (idx s + 1) s', shown ++ [prev; next], Halt Rerun)
            else if bool_decide (ev = ClickFinish) then
              (s', shown ++ [prev; next;
                             Button "✅ Finalizar y corregir" false]
                   ++ finish_page e (answers s'), Continue tt)
            else
              (s', shown ++ [prev; next;
                             Button "✅ Finalizar y corregir" false],
               Continue tt)
        end
    end.
Proof.
  unfold page, mbind, Script_bind, get. cbv beta iota zeta.
  destruct (exam s) as [e|]; [|reflexivity].
  rewrite question_page_run.
  destruct (py_index e (idx s)) as [q|x]; [|reflexivity].
  cbv beta iota zeta. rewrite prev_button_run.
  destruct (bool_decide (ev = ClickPrev) && negb (bool_decide (idx s = 0)));
    [reflexivity|].
  cbv beta iota zeta. rewrite next_button_run.
  destruct (bool_decide (ev = ClickNext)
            && negb (bool_decide (idx s = EXAM_SIZE - 1)));
    [reflexivity|].
  cbv beta iota zeta. rewrite finish_button_run.
  by destruct (bool_decide (ev = ClickFinish)).
Qed.

Lemma script_run fs rnd w ev s :
  script fs rnd w ev s =
    match load_questions fs CSV_FILENAME with
    | Raise x =>
        (s, [ Title "📝 Test permiso (20 preguntas)";
              ErrorBox ("Error cargando preguntas.csv: " +:+ exn_str x) ],
         Halt Stop)
    | Ok df =>
        let top :=
          [ Title "📝 Test permiso (20 preguntas)";
            SuccessBox ("Banco cargado: " +:+ Py.str (Py.len df)
                        +:+ " preguntas ✅");
            Button "🎲 Generar examen" false ] in
        let reset := Button "🔄 Reiniciar" false in
        if bool_decide (ev = ClickGenerate) then
          match generate_exam df rnd with
          | Ok e =>
              ({| exam := Some e; idx := 0; answers := ∅ |}, top,
               Halt Rerun)
          | Raise x =>
              (((page w ev s).1.1,
                top ++ [ErrorBox ("No se pudo generar el examen: "
                                  +:+ exn_str x); reset]
                    ++ (page w ev s).1.2),
               (page w ev s).2)
          end
        else if bool_decide (ev = ClickReset) then
          ({| exam := None; idx := 0; answers := ∅ |}, top ++ [reset],
           Halt Rerun)
        else (((page w ev s).1.1, top ++ [reset] ++ (page w ev s).1.2),
              (page w ev s).2)
    end.
Proof.
  unfold script, mbind, Script_bind, show, load_bank.
  cbv beta iota zeta.
  destruct (load_questions fs CSV_FILENAME) as [df|x]; [|reflexivity].
  unfold mbind, Script_bind, show, mret, Script_ret.
  cbv beta iota zeta. rewrite generate_button_run.
  case_bool_decide as Hgen.
  - destruct (generate_exam df rnd) as [e|x]; [reflexivity|].
    cbv beta iota zeta. rewrite reset_button_run.
    rewrite bool_decide_eq_false_2 by (by subst ev).
    cbv beta iota zeta. by destruct (page w ev s) as [[s' o] r].
  - cbv beta iota zeta. rewrite reset_button_run.
    case_bool_decide; [reflexivity|].
    cbv beta iota zeta. by destruct (page w ev s) as [[s' o] r].
Qed.
End running.

(** ** The session *)


Lemma interact_run fs rnd ev b s :
  interact fs rnd ev b s =
    match (script fs rnd (pick ev b) ev s).2 with
    | Halt Rerun =>
        script fs rnd (pick ev b) NoClick
          (script fs rnd (pick ev b) ev s).1.1
    | _ => script fs rnd (pick ev b) ev s
    end.
Proof.
  unfold interact. destruct (script fs rnd (pick ev b) ev s) as [[s1 o1] r1].
  cbn [fst snd]. by destruct r1 as [|[]].
Qed.

Lemma pick_held (ev : Event) (b : Browser) :
  (forall k, ev <> Select k) -> pick ev b = held b.
Proof. intros Hsel. destruct ev; try done. by destruct (Hsel k). Qed.







(** ** The cursor *)

Lemma generate_exam_length (df : DataFrame) (rnd : Random) (e : Exam) :
  generate_exam df rnd = Ok e -> Py.len e = EXAM_SIZE.
Proof.
  rewrite generate_exam_unlabelled.
  pose proof (generate_exam_traced_spec df rnd) as H.
  destruct (list_find (short df) TOPIC_DISTRIBUTION) as [[k tn]|].
  - by rewrite H.
  - destruct H as (blocks & tr & -> & Hperm & Hblocks).
    intros [= <-]. unfold Py.len.
    by rewrite length_fmap, Hperm, (blocks_length df _ _ Hblocks).
Qed.

Lemma page_cursor_ok w (ev : Event) (s : SessionState) :
  cursor_ok s -> cursor_ok (page w ev s).1.1.
Proof.
  intros Hs. rewrite page_run.
  destruct (exam s) as [e|] eqn:He; [|done].
  destruct (py_index e (idx s)) as [q|x]; [|done].
  destruct (Hs e He) as [Hlen Hidx]. cbv zeta.
  destruct (bool_decide (ev = ClickPrev) && negb (bool_decide (idx s = 0)))
    eqn:Hprev.
  { apply andb_true_iff in Hprev as [_ Hprev].
    apply negb_true_iff, bool_decide_eq_false in Hprev.
    intros e' He'. cbn in He'. rewrite He in He'. injection He' as <-.
    cbn. split; [done|lia]. }
  destruct (bool_decide (ev = ClickNext)
            && negb (bool_decide (idx s = EXAM_SIZE - 1))) eqn:Hnext.
  { apply andb_true_iff in Hnext as [_ Hnext].
    apply negb_true_iff, bool_decide_eq_false in Hnext.
    intros e' He'. cbn in He'. rewrite He in He'. injection He' as <-.
    cbn. split; [done|]. rewrite Hlen in *. lia. }
  destruct (bool_decide (ev = ClickFinish));
    intros e' He'; cbn in He'; rewrite He in He'; injection He' as <-;
    cbn; by split.
Qed.

Lemma script_cursor_ok fs rnd w (ev : Event) (s : SessionState) :
  cursor_ok s -> cursor_ok (script fs rnd w ev s).1.1.
Proof.
  intros Hs. pose proof (page_cursor_ok w ev s Hs) as Hpage.
  rewrite script_run.
  destruct (load_questions fs CSV_FILENAME) as [df|x]; [|done].
  cbv zeta. case_bool_decide.
  - destruct (generate_exam df rnd) as [e|x] eqn:Hgen; [|done].
    intros e' [= <-]. apply generate_exam_length in Hgen.
    cbn. split; [done|]. rewrite Hgen. unfold EXAM_SIZE. lia.
  - case_bool_decide; [|done]. by intros e' [=].
Qed.

Lemma reachable_cursor_ok (s : SessionState) : reachable s -> cursor_ok s.
Proof.
  induction 1 as [|s fs rnd w ev _ IH].
  - by intros e [=].
  - by apply script_cursor_ok.
Qed.

(** ** Pages at rest *)

Lemma py_index_ok {T} (l : list T) (i : Z) :
  0 <= i < Py.len l -> exists v, py_index l i = Ok v.
Proof.
  unfold Py.len. intros Hi. unfold py_index.
  rewrite (bool_decide_eq_false_2 (i < 0)) by lia.
  rewrite bool_decide_eq_true_2 by (unfold Py.len; lia).
  destruct (lookup_lt_is_Some_2 l (Z.to_nat i)) as [v Hv]; [lia|].
  rewrite Hv. by eexists.
Qed.

Lemma choice_of_key w (q : Question.t) (current : option string) :
  exists k, choice_of w q current = key_str k.
Proof.
  unfold choice_of. destruct (w !! _) as [k|]; [by exists k|].
  destruct (default_index_cases current)
    as [[_ ->]|[(_ & -> & _)|(_ & -> & _)]];
    [by exists Key_A | by exists Key_B | by exists Key_C].
Qed.

Lemma default_index_key (k : Key) :
  default_index (Some (key_str k)) = key_pos k.
Proof. by destruct k. Qed.

(** The radio returns the recorded key exactly when no other value is
    held for the radio that shows it. *)
Lemma kept_iff w (q : Question.t) (k : Key) :
  kept w q k <->
  w !! ("Respuesta:", labels q, key_pos k) = None
  \/ w !! ("Respuesta:", labels q, key_pos k) = Some k.
Proof.
  unfold kept, choice_of. rewrite default_index_key, preset_key.
  destruct (w !! _) as [k'|]; [|by split; [left|]].
  split.
  - intros Hk. right. f_equal. by destruct k', k.
  - by intros [|[= ->]].
Qed.


(** Once the page has been drawn for a valid cursor, the question under
    the cursor has a key recorded; the page is at rest when the only radio
    of the question with a value held is the one that was drawn. *)
Lemma page_settles w (ev : Event) (s : SessionState) (e : Exam)
    (q : Question.t) :
  exam s = Some e -> py_index e (idx s) = Ok q ->
  (page w ev s).2 <> Halt Rerun ->
  answered (page w ev s).1.1 (idx s)
  /\ ((forall j k, w !! ("Respuesta:", labels q, j) = Some k ->
         j = default_index (answers s !! idx s)) ->
      settled w (page w ev s).1.1).
Proof.
  intros He Hq. rewrite page_run, He, Hq. cbv zeta.
  destruct (choice_of_key w q (answers s !! idx s)) as [k Hk].
  rewrite Hk.
  destruct (_ && _); [by cbn [snd]|]. destruct (_ && _); [by cbn [snd]|].
  assert (answered (set_answers (<[idx s := key_str k]> (answers s)) s)
            (idx s)
          /\ ((forall j k, w !! ("Respuesta:", labels q, j) = Some k ->
                 j = default_index (answers s !! idx s)) ->
              settled w (set_answers (<[idx s := key_str k]> (answers s))
                           s))) as H.
  { split; [exists k; cbn; apply lookup_insert_eq|].
    intros Honly _. exists k. split; [cbn; apply lookup_insert_eq|].
    intros e' q' He' Hq'. cbn in He', Hq'.
    rewrite He in He'. injection He' as <-. rewrite Hq in Hq'.
    injection Hq' as <-. apply kept_iff.
    destruct (w !! ("Respuesta:", labels q, key_pos k)) as [k'|] eqn:Hw;
      [|by left].
    right. f_equal. pose proof (Honly _ _ Hw) as Hj.
    unfold choice_of in Hk. rewrite <- Hj, Hw in Hk. by destruct k', k. }
  by destruct (bool_decide _).
Qed.

(** An execution that does not end in a rerun leaves the session as its
    page does. *)
Lemma script_no_rerun fs rnd w (ev : Event) (s : SessionState) df :
  load_questions fs CSV_FILENAME = Ok df ->
  (script fs rnd w ev s).2 <> Halt Rerun ->
  (script fs rnd w ev s).1.1 = (page w ev s).1.1
  /\ (script fs rnd w ev s).2 = (page w ev s).2.
Proof.
  intros Hload. rewrite script_run, Hload. cbv zeta.
  destruct (bool_decide (ev = ClickGenerate)).
  - destruct (generate_exam df rnd); cbn [fst snd]; done.
  - destruct (bool_decide (ev = ClickReset)); cbn [fst snd]; done.
Qed.




(** ** The review of the missed questions *)

Section review.
Implicit Types (e : Exam) (ans : gmap Z string).

Lemma missed_from_elem ans e : forall (k i : Z) q a,
  (i, q, a) ∈ missed_from ans k e <->
  exists j : nat, i = k + Z.of_nat j /\ e !! j = Some q
    /\ a = ans !! i /\ a <> Some (Question.correcta q).
Proof.
  induction e as [|qq rest IH]; intros k i q a.
  - cbn [missed_from]. split.
    + intros H. by apply elem_of_nil in H.
    + by intros (j & _ & H & _).
  - cbn [missed_from]. cbv zeta.
    assert ((i, q, a) ∈ missed_from ans (k + 1) rest <->
            exists j : nat, i = k + Z.of_nat (S j) /\ rest !! j = Some q
              /\ a = ans !! i /\ a <> Some (Question.correcta q)) as IH'.
    { rewrite IH. split; intros (j & Hi & H); exists j; (split; [lia|done]). }
    case_bool_decide as Hmiss.
    + rewrite elem_of_cons, IH'. split.
      * intros [[= -> -> ->]|(j & H)].
        -- exists 0%nat. rewrite Z.add_0_r. by split.
        -- by exists (S j).
      * intros ([|j] & Hi & Hq & Ha & Hne).
        -- left. rewrite Z.add_0_r in Hi. subst i.
           injection Hq as ->. by subst a.
        -- right. by exists j.
    + rewrite IH'. split.
      * intros (j & H). by exists (S j).
      * intros ([|j] & Hi & Hq & Ha & Hne).
        -- rewrite Z.add_0_r in Hi. subst i. injection Hq as ->.
           subst a. by destruct Hmiss.
        -- by exists j.
Qed.

(** The review lists exactly the questions whose recorded answer is not
    the key, a question without a recorded answer among them. *)
Lemma missed_elem ans e (i : Z) q a :
  (i, q, a) ∈ missed e ans <->
  0 <= i /\ e !! Z.to_nat i = Some q /\ a = ans !! i
  /\ a <> Some (Question.correcta q).
Proof.
  unfold missed. rewrite missed_from_elem. split.
  - intros (j & -> & H). rewrite Z.add_0_l, Nat2Z.id. split; [lia|done].
  - intros (Hi & H). exists (Z.to_nat i). split; [lia|done].
Qed.

Lemma missed_from_sorted ans e : forall k,
  StronglySorted Z.lt (missed_from ans k e).*1.*1.
Proof.
  induction e as [|qq rest IH]; intros k; [constructor|].
  cbn [missed_from]. cbv zeta. case_bool_decide; [|apply IH].
  rewrite !fmap_cons. constructor; [apply IH|].
  apply Forall_forall. intros i Hi.
  apply list_elem_of_fmap in Hi as ([i' q] & -> & Hi).
  apply list_elem_of_fmap in Hi as ([[i q'] a] & [= -> ->] & Hi).
  apply missed_from_elem in Hi as (j & -> & _). cbn. lia.
Qed.

Lemma grade_loop_missed ans e : forall k correct wrong,
  (grade_loop ans k e correct wrong).2
  = wrong + Py.len (missed_from ans k e).
Proof.
  unfold Py.len.
  induction e as [|qq rest IH]; intros k correct wrong.
  - cbn. lia.
  - cbn [grade_loop missed_from]. cbv zeta.
    destruct (decide (ans !! k = Some (Question.correcta qq))) as [Heq|Hne].
    + rewrite bool_decide_eq_true_2 by done.
      rewrite bool_decide_eq_false_2 by (intros H; by apply H).
      apply IH.
    + rewrite bool_decide_eq_false_2 by done.
      rewrite bool_decide_eq_true_2 by done.
      rewrite IH. cbn [length]. lia.
Qed.
End review.

(** An execution that neither generates nor resets leaves the session
    and ends as its page does, below the top of the page. *)
Lemma script_page fs rnd w (ev : Event) (s : SessionState) df :
  load_questions fs CSV_FILENAME = Ok df ->
  ev <> ClickGenerate -> ev <> ClickReset ->
  (script fs rnd w ev s).1.1 = (page w ev s).1.1
  /\ (script fs rnd w ev s).2 = (page w ev s).2
  /\ exists top, (script fs rnd w ev s).1.2 = top ++ (page w ev s).1.2.
Proof.
  intros Hload Hg Hr. rewrite script_run, Hload. cbv zeta.
  rewrite !bool_decide_eq_false_2 by done. cbn [fst snd].
  split; [done|]. split; [done|]. eexists. by rewrite app_assoc.
Qed.









(** ** Questions without a recorded answer *)

(** The session after the first Generate has drawn question 1 only.
    Question 2 has no recorded answer and its key is A, and it is not
    graded as an answer A would be: it is counted as wrong. *)
Lemma never_visited_not_graded_as_A :
  exam sample_session = Some sample_exam
  /\ answers sample_session !! 1 = None
  /\ Question.correcta <$> sample_exam !! 1%nat = Some "A"
  /\ ~ graded_as_A sample_exam (answers sample_session) 1.
Proof.
  split; [reflexivity|]. split; [vm_compute; reflexivity|].
  split; [vm_compute; reflexivity|].
  unfold graded_as_A. vm_compute. discriminate.
Qed.

(** The options of the concrete bank read the same in every question, so
    the radios of two questions drawn with the same default index are one
    widget.  The user picks C for the first question and presses Next: the
    second question has no recorded answer, its radio is drawn with the
    first option preselected, and what is recorded for it is the C held
    for that radio. *)
Example pick_follows_to_next_question :
  let '(b, s) := interacts (file_system sample_table) sample_random
                   [Select Key_C; ClickNext] sample_browser sample_session in
  idx s = 1 /\ answers s = {[ 0 := "C"; 1 := "C" ]}
  /\ shown b = Some ("Respuesta:", ["A) uno"; "B) dos"; "C) tres"], 0%nat).
Proof. vm_compute. done. Qed.

(** C3, as the code has it.  When the cursor is on a question with no
    recorded answer and the user does not touch the radio, the execution
    draws the radio with its first option preselected and records for the
    question what the radio returns: "A" when no value is held for that
    radio, and otherwise the held value, which is a pick the user made on
    a radio with the same label, the same options and the same preselected
    option, possibly for another question.  What is recorded is graded as
    the answer.  A question with no recorded answer, such as one never
    displayed, is not graded as A: it is listed in the review with no
    answer and counted as wrong, whatever its key. *)
Theorem unanswered_question_default
    (fs : string -> File) (rnd : Random) (df : DataFrame) (w : Widgets)
    (s : SessionState) (e : Exam) (q : Question.t) :
  load_questions fs CSV_FILENAME = Ok df ->
  exam s = Some e ->
  py_index e (idx s) = Ok q ->
  answers s !! idx s = None ->
  (script fs rnd w NoClick s).1.1
  = set_answers
      (<[idx s := match w !! ("Respuesta:", labels q, 0%nat) with
                  | Some k => key_str k
                  | None => "A"
                  end]> (answers s)) s
  /\ (w !! ("Respuesta:", labels q, 0%nat) = None ->
      (script fs rnd w NoClick s).1.1
      = set_answers (<[idx s := "A"]> (answers s)) s)
  /\ Radio "Respuesta:" (labels q) 0 ∈ (script fs rnd w NoClick s).1.2
  /\ (forall ans i qi,
        0 <= i -> e !! Z.to_nat i = Some qi -> ans !! i = Some "A" ->
        ((i, qi, Some "A") ∈ missed e ans <-> Question.correcta qi <> "A"))
  /\ (forall ans i qi,
        0 <= i -> e !! Z.to_nat i = Some qi -> ans !! i = None ->
        (i, qi, None) ∈ missed e ans)
  /\ (forall ans, (grade e ans).2 = Py.len (missed e ans)).
Proof.
  intros Hload He Hq Hnone.
  assert (page w NoClick s
          = (set_answers
               (<[idx s := match w !! ("Respuesta:", labels q, 0%nat) with
                           | Some k => key_str k
                           | None => "A"
                           end]> (answers s)) s,
             [ Write ("**" +:+ Question.enunciado q +:+ "**");
               Radio "Respuesta:" (labels q) 0 ]
             ++ [ Button "⬅️ Anterior" (bool_decide (idx s = 0));
                  Button "Siguiente ➡️" (bool_decide (idx s = EXAM_SIZE - 1));
                  Button "✅ Finalizar y corregir" false ],
             Continue tt)) as Hpage.
  { rewrite page_run, He, Hq, Hnone. reflexivity. }
  destruct (script_page fs rnd w NoClick s df Hload) as (Hst & _ & top & Hout);
    [done..|].
  split; [|split; [|split; [|split; [|split]]]].
  - by rewrite Hst, Hpage.
  - intros Hw. by rewrite Hst, Hpage, Hw.
  - rewrite Hout, Hpage. cbn [fst snd].
    rewrite !elem_of_app. right; left. right; left.
  - intros ans i qi Hi Hqi Ha. rewrite missed_elem, Ha. split.
    + intros (_ & _ & _ & Hne) Heq. apply Hne. by rewrite Heq.
    + intros Hne. split; [done|]. split; [done|]. split; [done|].
      intros [= Heq]. by apply Hne.
  - intros ans i qi Hi Hqi Ha. apply missed_elem. by rewrite Ha.
  - intros ans. unfold grade, missed. rewrite grade_loop_missed. lia.
Qed.

Lemma unanswered_question_default_witness :
  load_questions (file_system sample_table) CSV_FILENAME = Ok sample_bank
  /\ exam undrawn_session = Some sample_exam
  /\ is_ok (py_index sample_exam (idx undrawn_session)) = true
  /\ answers undrawn_session !! idx undrawn_session = None
  /\ answers (script (file_system sample_table) sample_random ∅ NoClick
                undrawn_session).1.1 !! 0
     = Some "A".
Proof.
  assert (load_questions (file_system sample_table) CSV_FILENAME
          = Ok sample_bank) as Hload by (vm_compute; reflexivity).
  assert (is_ok (py_index sample_exam (idx undrawn_session)) = true) as Hok
    by (vm_compute; reflexivity).
  split; [exact Hload|]. split; [reflexivity|]. split; [exact Hok|].
  split; [reflexivity|].
  destruct (py_index sample_exam (idx undrawn_session)) as [q|x] eqn:Hq;
    [|discriminate Hok].
  destruct (unanswered_question_default (file_system sample_table)
              sample_random sample_bank ∅ undrawn_session sample_exam q
              Hload eq_refl Hq eq_refl) as (_ & Hrec & _).
  rewrite (Hrec (lookup_empty _)). apply lookup_insert_eq.
Defined.
(** * Further properties *)

(** ** Grading, answer by answer *)

Section grading_answers.
Implicit Types (e : Exam) (ans : gmap Z string).

Lemma grade_missed e ans :
  grade e ans = (Py.len e - Py.len (missed e ans), Py.len (missed e ans)).
Proof.
  pose proof (grade_loop_counts ans e 0 0 0) as (Hsum & _ & _).
  pose proof (grade_loop_missed ans e 0 0 0) as Hwrong.
  fold (grade e ans) in Hsum, Hwrong. fold (missed e ans) in Hwrong.
  cbv zeta in Hsum. destruct (grade e ans) as [c w]. cbn [fst snd] in *.
  f_equal; lia.
Qed.

Lemma missed_from_insert_below ans e : forall k i v,
  i < k -> missed_from (<[i := v]> ans) k e = missed_from ans k e.
Proof.
  induction e as [|qq rest IH]; intros k i v Hi; [done|].
  cbn [missed_from]. cbv zeta.
  rewrite lookup_insert_ne by lia. rewrite IH by lia. done.
Qed.

Lemma missed_from_insert ans e : forall k (j : nat) q v,
  e !! j = Some q ->
  Py.len (missed_from (<[k + Z.of_nat j := v]> ans) k e)
  = Py.len (missed_from ans k e) - miss (ans !! (k + Z.of_nat j)) q
    + miss (Some v) q.
Proof.
  unfold Py.len, miss.
  induction e as [|qq rest IH]; intros k j q v Hj; [done|].
  cbn [missed_from]. cbv zeta. destruct j as [|j].
  - injection Hj as ->. rewrite Z.add_0_r.
    rewrite lookup_insert_eq, missed_from_insert_below by lia.
    repeat case_bool_decide; cbn [length]; try lia; exfalso; tauto.
  - cbn [lookup list_lookup] in Hj.
    replace (k + Z.of_nat (S j)) with (k + 1 + Z.of_nat j) by lia.
    rewrite lookup_insert_ne by lia.
    specialize (IH (k + 1) j q v Hj).
    destruct (bool_decide (ans !! k ≠ Some (Question.correcta qq)));
      cbn [length]; lia.
Qed.
End grading_answers.

(** X1.  Recording [v] as the answer of question [i] changes the two
    counters by what that question contributes: a question that was wrong
    and now has its key moves from the wrong count to the correct count,
    and conversely; an answer recorded at a position outside the exam has no
    effect on the result. *)
Theorem grade_after_answer (e : Exam) (ans : gmap Z string) (i : Z)
    (v : string) :
  grade e (<[i := v]> ans) =
    match (if bool_decide (0 <= i) then e !! Z.to_nat i else None) with
    | Some q =>
        ((grade e ans).1 + miss (ans !! i) q - miss (Some v) q,
         (grade e ans).2 - miss (ans !! i) q + miss (Some v) q)
    | None => grade e ans
    end.
Proof.
  rewrite !grade_missed. cbn [fst snd]. unfold missed.
  case_bool_decide as Hi.
  - destruct (e !! Z.to_nat i) as [q|] eqn:Hq.
    + pose proof (missed_from_insert ans e 0 (Z.to_nat i) q v Hq) as H.
      rewrite Z.add_0_l, Z2Nat.id in H by done. rewrite H. f_equal; lia.
    + assert (missed_from (<[i := v]> ans) 0 e = missed_from ans 0 e) as ->;
        [|done].
      apply lookup_ge_None in Hq.
      assert (forall k, Z.of_nat (length e) + k <= i ->
                missed_from (<[i := v]> ans) k e = missed_from ans k e) as Hgen.
      { clear Hq. induction e as [|qq rest IH]; intros k Hk; [done|].
        cbn [missed_from length] in *. cbv zeta.
        rewrite lookup_insert_ne by lia. rewrite IH by lia. done. }
      apply Hgen. lia.
  - rewrite missed_from_insert_below by lia. done.
Qed.


Lemma unrecorded_missed (ans : gmap Z string) (e : Exam) : forall k : Z,
  (length e
   <= length (filter (fun j => is_Some (ans !! (k + Z.of_nat j)%Z))
                (seq 0 (length e)))
      + length (missed_from ans k e))%nat.
Proof.
  induction e as [|qq rest IH]; intros k; [done|].
  cbn [length missed_from]. cbv zeta.
  rewrite <- cons_seq, <- fmap_S_seq.
  assert (length (filter (fun j => is_Some (ans !! (k + Z.of_nat j)))
                    (S <$> seq 0 (length rest)))
          = length (filter (fun j => is_Some (ans !! (k + 1 + Z.of_nat j)))
                      (seq 0 (length rest)))) as Htail.
  { rewrite length_filter_fmap. f_equal. apply list_filter_iff. intros j.
    by replace (k + Z.of_nat (S j)) with (k + 1 + Z.of_nat j) by lia. }
  specialize (IH (k + 1)).
  destruct (decide (is_Some (ans !! (k + Z.of_nat 0)))) as [Hs|Hn].
  - rewrite filter_cons_True by done. cbn [length]. rewrite Htail.
    destruct (bool_decide _); cbn [length]; lia.
  - rewrite filter_cons_False by done. rewrite Htail.
    rewrite bool_decide_eq_true_2; [cbn [length]; lia|].
    intros Heq. apply Hn. rewrite Z.add_0_r. by rewrite Heq.
Qed.

(** X2.  The number of correct answers is at most the number of questions
    that have an answer recorded, so the pass verdict needs answers
    recorded for at least 16 questions. *)
Theorem correct_needs_recorded (e : Exam) (ans : gmap Z string) :
  (grade e ans).1 <= Py.len (recorded e ans)
  /\ (verdict (grade e ans).1 = SuccessBox "APROBADO ✅" ->
      PASS_SCORE <= Py.len (recorded e ans)).
Proof.
  assert ((grade e ans).1 <= Py.len (recorded e ans)) as Hle.
  { rewrite grade_missed. cbn [fst]. unfold Py.len, recorded, missed.
    pose proof (unrecorded_missed ans e 0) as H.
    rewrite (list_filter_iff _ (fun j => is_Some (ans !! Z.of_nat j))) in H
      by (intros j; by rewrite Z.add_0_l).
    lia. }
  split; [done|]. intros Hv. apply verdict_pass in Hv.
  unfold PASS_SCORE. lia.
Qed.

(** X3.  The review is empty exactly when every question of the exam has
    its key recorded, and exactly when all answers are counted correct and
    none wrong. *)
Theorem full_marks (e : Exam) (ans : gmap Z string) :
  (missed e ans = [] <->
   forall (j : nat) q, e !! j = Some q ->
     ans !! Z.of_nat j = Some (Question.correcta q))
  /\ (missed e ans = [] <-> grade e ans = (Py.len e, 0)).
Proof.
  split.
  - split.
    + intros Hm j q Hq.
      destruct (decide (ans !! Z.of_nat j = Some (Question.correcta q)))
        as [|Hne]; [done|].
      assert ((Z.of_nat j, q, ans !! Z.of_nat j) ∈ missed e ans) as Hin.
      { apply missed_elem. rewrite Nat2Z.id. split; [lia|done]. }
      rewrite Hm in Hin. by apply elem_of_nil in Hin.
    + intros Hall. destruct (missed e ans) as [|[[i q] a] l] eqn:Hm; [done|].
      assert ((i, q, a) ∈ missed e ans) as Hin by (rewrite Hm; left).
      apply missed_elem in Hin as (Hi & Hq & -> & Hne).
      destruct Hne. rewrite <- (Hall _ _ Hq). f_equal. lia.
  - rewrite grade_missed. unfold Py.len. split.
    + intros ->. cbn [length]. f_equal. lia.
    + intros [= _ H]. destruct (missed e ans); [done|]. cbn [length] in H. lia.
Qed.

(** ** The loader on its own output and on an empty file *)

Lemma row_of_sample_line (r : Row.t) : row_of required (sample_line r) = r.
Proof. by destruct r. Qed.

Lemma normalize_valid (r : Row.t) :
  Row.tema r ∈ valid_temas -> Row.correcta r ∈ valid_keys -> normalize r = r.
Proof.
  intros Ht Hk. destruct r as [t e a b c k]. cbn in Ht, Hk.
  unfold normalize. cbn [Row.tema Row.enunciado Row.A Row.B Row.C Row.correcta].
  apply valid_tema_inv in Ht as [->|[->|[->|[->|[->|[->| ->]]]]]];
    apply valid_key_inv in Hk as [->|[->| ->]]; reflexivity.
Qed.

(** X4.  Loading is a round trip on its own result: a bank returned by
    [load_questions], written back as a file with the six columns, loads
    again to the same bank. *)
Theorem load_questions_round_trip
    (fs fs' : string -> File) (path path' : string) (bank : DataFrame) :
  load_questions fs path = Ok bank ->
  fs' path' = Csv (table_of bank) ->
  load_questions fs' path' = Ok bank.
Proof.
  intros Hload Hfile'.
  destruct (fs path) as [| |t] eqn:Hfile;
    try (unfold load_questions in Hload; rewrite Hfile in Hload; done).
  pose proof (load_questions_ok_iff fs path t bank Hfile) as Hok.
  cbv zeta in Hok. destruct (proj1 Hok Hload) as (Hbank & _ & Hall).
  rewrite <- Hbank in Hall. clear Hok Hbank.
  apply (load_questions_ok_iff fs' path' (table_of bank) bank Hfile').
  assert (map (fun l => normalize (row_of (columns (table_of bank)) l))
            (lines (table_of bank)) = bank) as Hsame.
  { cbn [table_of columns lines]. rewrite map_map.
    rewrite <- (map_id bank) at 2. apply map_ext_in. intros r Hr.
    rewrite row_of_sample_line. apply list_elem_of_In, Hall in Hr.
    apply normalize_valid; apply Hr. }
  rewrite Hsame. split; [done|]. split; [|done].
  by apply no_missing_columns.
Qed.

Lemma load_questions_round_trip_witness :
  load_questions (file_system spaced_table) CSV_FILENAME = Ok spaced_bank
  /\ file_system (table_of spaced_bank) CSV_FILENAME
     = Csv (table_of spaced_bank)
  /\ load_questions (file_system (table_of spaced_bank)) CSV_FILENAME
     = Ok spaced_bank.
Proof.
  split; [reflexivity|]. split; [reflexivity|].
  exact (load_questions_round_trip (file_system spaced_table)
           (file_system (table_of spaced_bank)) CSV_FILENAME CSV_FILENAME
           spaced_bank eq_refl eq_refl).
Defined.

(** X5.  A file that has the six columns and no line is accepted: the
    loader returns the empty bank, and it is [generate_exam] that then
    fails, on the first topic, before any random number is drawn. *)
Theorem load_questions_header_only
    (fs : string -> File) (path : string) (t : Table) :
  fs path = Csv t ->
  (forall c, c ∈ required -> c ∈ columns t) ->
  lines t = [] ->
  load_questions fs path = Ok []
  /\ forall rnd,
       generate_exam [] rnd
       = Raise (ValueError
                  "En el tema 1 necesitas 3 preguntas y solo tienes 0.").
Proof.
  intros Hfile Hcols Hlines. split; [|reflexivity].
  apply (load_questions_ok_iff fs path t [] Hfile).
  rewrite Hlines. split; [done|]. split; [by apply no_missing_columns|].
  intros r Hr. by apply elem_of_nil in Hr.
Qed.

Lemma load_questions_header_only_witness :
  file_system header_only_table CSV_FILENAME = Csv header_only_table
  /\ (forall c, c ∈ required -> c ∈ columns header_only_table)
  /\ lines header_only_table = []
  /\ load_questions (file_system header_only_table) CSV_FILENAME = Ok [].
Proof.
  assert (forall c, c ∈ required -> c ∈ columns header_only_table) as Hcols.
  { intros c Hc. apply elem_of_app. by left. }
  split; [reflexivity|]. split; [exact Hcols|]. split; [reflexivity|].
  exact (proj1 (load_questions_header_only (file_system header_only_table)
                  CSV_FILENAME header_only_table eq_refl Hcols eq_refl)).
Defined.

(** ** What a generated exam is made of *)

(** A successful generation, in terms of the labelled exam. *)
Lemma generate_exam_Ok (df : DataFrame) (rnd : Random) (e : Exam) :
  generate_exam df rnd = Ok e ->
  exists blocks tr,
    e = tr.*2 /\ tr ≡ₚ mjoin blocks
    /\ Forall2 (block_ok df) TOPIC_DISTRIBUTION blocks.
Proof.
  rewrite generate_exam_unlabelled.
  pose proof (generate_exam_traced_spec df rnd) as H.
  destruct (list_find (short df) TOPIC_DISTRIBUTION) as [[k tn]|].
  - by rewrite H.
  - destruct H as (blocks & tr & -> & Hperm & Hblocks).
    intros [= <-]. by exists blocks, tr.
Qed.

Lemma question_of_fields (r : Row.t) (q : Question.t) :
  question_of r = Ok q ->
  q = {| Question.tema := Question.tema q;
         Question.enunciado := Row.enunciado r;
         Question.opciones :=
           {| opcion_A := Row.A r; opcion_B := Row.B r;
              opcion_C := Row.C r |};
         Question.correcta := Row.correcta r |}.
Proof.
  unfold question_of. destruct (Py.int (Row.tema r)); [|done].
  by intros [= <-].
Qed.

(** X6.  Every question of an exam generated from a loaded bank is built
    from a row of that bank: its topic is the number the row's [tema]
    prints, between 1 and 7; its statement, its three options under their
    original letters and its key are those of the row; the key is A, B or C
    and neither the statement nor an option is blank. *)
Theorem generated_questions_from_bank
    (fs : string -> File) (path : string) (df : DataFrame) (rnd : Random)
    (e : Exam) :
  load_questions fs path = Ok df ->
  generate_exam df rnd = Ok e ->
  forall q, q ∈ e ->
    exists r, r ∈ df
      /\ Row.tema r = Py.str (Question.tema q)
      /\ 1 <= Question.tema q <= 7
      /\ Question.enunciado q = Row.enunciado r
      /\ Question.opciones q
         = {| opcion_A := Row.A r; opcion_B := Row.B r;
              opcion_C := Row.C r |}
      /\ Question.correcta q = Row.correcta r
      /\ Question.correcta q ∈ keys
      /\ Py.strip (Question.enunciado q) <> EmptyString
      /\ Py.strip (opcion_A (Question.opciones q)) <> EmptyString
      /\ Py.strip (opcion_B (Question.opciones q)) <> EmptyString
      /\ Py.strip (opcion_C (Question.opciones q)) <> EmptyString.
Proof.
  intros Hload Hgen q Hq.
  destruct (generate_exam_Ok df rnd e Hgen) as (blocks & tr & -> & Hperm & Hb).
  apply list_elem_of_fmap in Hq as ([i q'] & -> & Hin). cbn [snd].
  rewrite Hperm in Hin.
  destruct (blocks_elem df _ _ i q' Hb Hin)
    as (t & n & r & Htn & Hr & Htema & Hqr & Htq).
  assert (r ∈ df) as Hrdf by (by eapply list_elem_of_lookup_2).
  assert (Row.tema r ∈ valid_temas /\ Row.correcta r ∈ valid_keys
          /\ is_bad r = false) as (_ & Hkey & Hbad).
  { destruct (fs path) as [| |t0] eqn:Hfile;
      try (unfold load_questions in Hload; rewrite Hfile in Hload; done).
    pose proof (load_questions_ok_iff fs path t0 df Hfile) as Hok.
    cbv zeta in Hok. destruct (proj1 Hok Hload) as (Hdf & _ & Hall).
    apply Hall. by rewrite <- Hdf. }
  apply question_of_fields in Hqr. rewrite Hqr. cbn.
  unfold is_bad in Hbad.
  apply orb_false_iff in Hbad as [Hbad HC].
  apply orb_false_iff in Hbad as [Hbad HB].
  apply orb_false_iff in Hbad as [He HA].
  apply String.eqb_neq in He, HA, HB, HC.
  exists r. rewrite Htq. repeat (split; [done|]).
  split; [|done].
  unfold TOPIC_DISTRIBUTION in Htn.
  repeat (apply elem_of_cons in Htn as [[= -> ->]|Htn]; [lia|]).
  by apply elem_of_nil in Htn.
Qed.

Lemma generated_questions_from_bank_witness :
  load_questions (file_system sample_table) CSV_FILENAME = Ok sample_bank
  /\ generate_exam sample_bank sample_random = Ok sample_exam
  /\ forall q, q ∈ sample_exam ->
       exists r, r ∈ sample_bank /\ Question.correcta q = Row.correcta r.
Proof.
  assert (load_questions (file_system sample_table) CSV_FILENAME
          = Ok sample_bank) as Hload by (vm_compute; reflexivity).
  assert (generate_exam sample_bank sample_random = Ok sample_exam) as Hgen
    by (vm_compute; reflexivity).
  split; [exact Hload|]. split; [exact Hgen|].
  intros q Hq.
  destruct (generated_questions_from_bank (file_system sample_table)
              CSV_FILENAME sample_bank sample_random sample_exam Hload Hgen
              q Hq) as (r & Hr & _ & _ & _ & _ & Hk & _).
  exists r. exact (conj Hr Hk).
Defined.

Lemma minimal_bank_enough (t n : Z) :
  (t, n) ∈ TOPIC_DISTRIBUTION -> n <= available minimal_bank t.
Proof.
  intros Hin. unfold TOPIC_DISTRIBUTION in Hin.
  repeat (apply elem_of_cons in Hin as [[= -> ->]|Hin];
          [vm_compute; discriminate|]).
  by apply elem_of_nil in Hin.
Qed.

(** X7.  From a bank of exactly 20 rows that has the quota of every topic,
    the exam uses every row exactly once: it is a rearrangement of the
    questions of all the rows. *)
Theorem generate_exam_uses_every_row (df : DataFrame) (rnd : Random) :
  length df = 20%nat ->
  (forall t n, (t, n) ∈ TOPIC_DISTRIBUTION -> n <= available df t) ->
  exists qs e,
    mapM question_of df = Ok qs
    /\ generate_exam df rnd = Ok e
    /\ e ≡ₚ qs.
Proof.
  intros Hlen Henough.
  destruct (generate_exam df rnd) as [e|x] eqn:Hgen.
  2: { rewrite generate_exam_unlabelled in Hgen.
       pose proof (generate_exam_traced_spec df rnd) as H.
       destruct (list_find (short df) TOPIC_DISTRIBUTION)
         as [[k [t n]]|] eqn:Hfind.
       - apply list_find_Some in Hfind as (Hk & Hshort & _).
         apply list_elem_of_lookup_2, Henough in Hk.
         unfold short in Hshort. cbn [fst snd] in Hshort. lia.
       - destruct H as (blocks & tr & Htr & _). by rewrite Htr in Hgen. }
  destruct (generate_exam_Ok df rnd e Hgen) as (blocks & tr & -> & Hperm & Hb).
  assert (NoDup tr.*1) as Hnd.
  { rewrite Hperm.
    by apply (blocks_labels_NoDup df TOPIC_DISTRIBUTION blocks
                TOPIC_DISTRIBUTION_printable TOPIC_DISTRIBUTION_NoDup). }
  assert (forall i q, (i, q) ∈ tr ->
            exists r, df !! i = Some r /\ question_of r = Ok q) as Hsrc.
  { intros i q Hiq. rewrite Hperm in Hiq.
    destruct (blocks_elem df _ _ i q Hb Hiq)
      as (t & n & r & _ & Hr & _ & Hq & _). by exists r. }
  assert (tr.*1 ≡ₚ seq 0 (length df)) as Hall.
  { apply submseteq_length_Permutation.
    - apply NoDup_submseteq; [done|]. intros i Hi.
      apply list_elem_of_fmap in Hi as ([i' q] & -> & Hi).
      destruct (Hsrc _ _ Hi) as (r & Hr & _).
      apply lookup_lt_Some in Hr. apply elem_of_seq. cbn [fst]. lia.
    - rewrite length_seq, length_fmap, Hperm, (blocks_length df _ _ Hb).
      rewrite Hlen. done. }
  destruct (mapM_total question_of df) as [qs Hqs].
  { intros r Hr. apply list_elem_of_lookup in Hr as [i Hi].
    assert (i ∈ tr.*1) as Hin.
    { rewrite Hall. apply elem_of_seq. apply lookup_lt_Some in Hi. lia. }
    apply list_elem_of_fmap in Hin as ([i' q] & -> & Hin).
    destruct (Hsrc _ _ Hin) as (r' & Hr' & Hq). cbn [fst] in *.
    exists q. congruence. }
  exists qs, tr.*2. split; [done|]. split; [done|].
  apply mapM_Ok in Hqs.
  assert (tr ≡ₚ imap (fun i q => (i, q)) qs) as Htr.
  { apply NoDup_Permutation.
    - by eapply NoDup_fmap_1.
    - eapply (NoDup_fmap_1 fst). rewrite fmap_imap.
      rewrite (imap_ext _ (fun i _ => i)) by done.
      rewrite (imap_seq_0 qs (fun i => i)), list_fmap_id. apply NoDup_seq.
    - intros [i q]. rewrite elem_of_lookup_imap. split.
      + intros Hiq. destruct (Hsrc _ _ Hiq) as (r & Hr & Hq).
        destruct (Forall2_lookup_l _ _ _ _ _ Hqs Hr) as (q' & Hq' & Hrq).
        exists i, q'. split; [|done]. congruence.
      + intros (j & q' & [= -> ->] & Hq').
        destruct (Forall2_lookup_r _ _ _ _ _ Hqs Hq') as (r & Hr & Hrq).
        assert (j ∈ tr.*1) as Hin.
        { rewrite Hall. apply elem_of_seq. apply lookup_lt_Some in Hr. lia. }
        apply list_elem_of_fmap in Hin as ([j' q] & -> & Hin).
        destruct (Hsrc _ _ Hin) as (r' & Hr' & Hq). cbn [fst] in *.
        assert (q = q') as -> by congruence. done. }
  rewrite Htr, fmap_imap.
  rewrite (imap_ext _ (const id)) by done.
  by rewrite imap_const, list_fmap_id.
Qed.

Lemma generate_exam_uses_every_row_witness :
  length minimal_bank = 20%nat
  /\ (forall t n, (t, n) ∈ TOPIC_DISTRIBUTION -> n <= available minimal_bank t)
  /\ exists qs e,
       mapM question_of minimal_bank = Ok qs
       /\ generate_exam minimal_bank sample_random = Ok e
       /\ e ≡ₚ qs.
Proof.
  split; [reflexivity|]. split; [exact minimal_bank_enough|].
  exact (generate_exam_uses_every_row minimal_bank sample_random eq_refl
           minimal_bank_enough).
Defined.

(** ** The interactions, one by one *)

(** X8.  While the bank cannot be loaded, no interaction changes the
    session: whatever was clicked, the execution shows the title and the
    load error and stops before any button is drawn. *)
Theorem broken_bank_freezes_session
    (fs : string -> File) (rnd : Random) (ev : Event) (b : Browser)
    (s : SessionState) (x : Exn) :
  load_questions fs CSV_FILENAME = Raise x ->
  interact fs rnd ev b s
  = (s, [ Title "📝 Test permiso (20 preguntas)";
          ErrorBox ("Error cargando preguntas.csv: " +:+ exn_str x) ],
     Halt Stop).
Proof.
  intros Hload. rewrite interact_run, script_run, Hload. reflexivity.
Qed.

Lemma broken_bank_freezes_session_witness :
  load_questions (fun _ => NoFile) CSV_FILENAME
  = Raise (FileNotFoundError
      "No existe preguntas.csv. Pon preguntas.csv en la misma carpeta que app.py.")
  /\ (interact (fun _ => NoFile) sample_random ClickGenerate
        sample_browser sample_session).1.1
     = sample_session.
Proof.
  split; [reflexivity|].
  by rewrite (broken_bank_freezes_session (fun _ => NoFile) sample_random
                ClickGenerate sample_browser sample_session _ eq_refl).
Defined.

(** X9.  Reset, from any session, leaves no exam, the cursor at 0 and no
    answer; the execution that follows draws the two top buttons and the
    invitation to generate, and stops there. *)
Theorem reset_interaction
    (fs : string -> File) (rnd : Random) (df : DataFrame) (b : Browser)
    (s : SessionState) :
  load_questions fs CSV_FILENAME = Ok df ->
  interact fs rnd ClickReset b s
  = ({| exam := None; idx := 0; answers := ∅ |},
     [ Title "📝 Test permiso (20 preguntas)";
       SuccessBox ("Banco cargado: " +:+ Py.str (Py.len df)
                   +:+ " preguntas ✅");
       Button "🎲 Generar examen" false;
       Button "🔄 Reiniciar" false;
       InfoBox "Pulsa **Generar examen** para empezar." ],
     Halt Stop).
Proof.
  intros Hload. rewrite interact_run. cbn [pick].
  assert (script fs rnd (held b) ClickReset s
          = ({| exam := None; idx := 0; answers := ∅ |},
             [ Title "📝 Test permiso (20 preguntas)";
               SuccessBox ("Banco cargado: " +:+ Py.str (Py.len df)
                           +:+ " preguntas ✅");
               Button "🎲 Generar examen" false;
               Button "🔄 Reiniciar" false ],
             Halt Rerun)) as ->.
  { rewrite script_run, Hload. reflexivity. }
  cbn [fst snd]. rewrite script_run, Hload. cbv zeta.
  rewrite !bool_decide_eq_false_2 by done.
  rewrite page_run. reflexivity.
Qed.

Lemma reset_interaction_witness :
  load_questions (file_system sample_table) CSV_FILENAME = Ok sample_bank
  /\ (interact (file_system sample_table) sample_random ClickReset
        sample_browser sample_session).1.1
     = ensure_state None.
Proof.
  assert (load_questions (file_system sample_table) CSV_FILENAME
          = Ok sample_bank) as Hload by (vm_compute; reflexivity).
  split; [exact Hload|].
  by rewrite (reset_interaction (file_system sample_table) sample_random
                sample_bank sample_browser sample_session Hload).
Defined.

(** X10.  A Generate that succeeds replaces the session, whatever it was:
    the new exam, the cursor at 0 and, once the first question has been
    drawn, one answer, that of the first question.  Its radio is drawn
    with the first option preselected, Previous disabled and Next enabled,
    and what is recorded is what that radio returns: "A" when no value is
    held for it, and otherwise the held value, such as a pick made on the
    first question of the exam before when its options read the same. *)
Theorem generate_interaction
    (fs : string -> File) (rnd : Random) (df : DataFrame) (e : Exam)
    (b : Browser) (s : SessionState) :
  load_questions fs CSV_FILENAME = Ok df ->
  generate_exam df rnd = Ok e ->
  exists q, e !! 0%nat = Some q
    /\ interact fs rnd ClickGenerate b s
       = ({| exam := Some e; idx := 0;
             answers :=
               {[ 0 := match held b !! ("Respuesta:", labels q, 0%nat) with
                       | Some k => key_str k
                       | None => "A"
                       end ]} |},
          [ Title "📝 Test permiso (20 preguntas)";
            SuccessBox ("Banco cargado: " +:+ Py.str (Py.len df)
                        +:+ " preguntas ✅");
            Button "🎲 Generar examen" false;
            Button "🔄 Reiniciar" false;
            Write ("**" +:+ Question.enunciado q +:+ "**");
            Radio "Respuesta:" (labels q) 0;
            Button "⬅️ Anterior" true;
            Button "Siguiente ➡️" false;
            Button "✅ Finalizar y corregir" false ],
          Continue tt).
Proof.
  intros Hload Hgen.
  pose proof (generate_exam_length df rnd e Hgen) as Hlen.
  destruct e as [|q e']; [done|]. exists q. split; [done|].
  rewrite interact_run. cbn [pick].
  assert (script fs rnd (held b) ClickGenerate s
          = ({| exam := Some (q :: e'); idx := 0; answers := ∅ |},
             [ Title "📝 Test permiso (20 preguntas)";
               SuccessBox ("Banco cargado: " +:+ Py.str (Py.len df)
                           +:+ " preguntas ✅");
               Button "🎲 Generar examen" false ],
             Halt Rerun)) as ->.
  { rewrite script_run, Hload. cbv zeta.
    rewrite bool_decide_eq_true_2 by done. by rewrite Hgen. }
  cbn [fst snd]. rewrite script_run, Hload. cbv zeta.
  rewrite !bool_decide_eq_false_2 by done.
  rewrite page_run. cbn [exam idx answers].
  assert (py_index (q :: e') 0 = Ok q) as ->.
  { unfold py_index. rewrite (bool_decide_eq_false_2 (0 < 0)) by lia.
    rewrite bool_decide_eq_true_2; [done|].
    unfold Py.len. cbn [length]. lia. }
  reflexivity.
Qed.

Lemma generate_interaction_witness :
  load_questions (file_system sample_table) CSV_FILENAME = Ok sample_bank
  /\ generate_exam sample_bank sample_random = Ok sample_exam
  /\ answers (interact (file_system sample_table) sample_random ClickGenerate
                sample_browser sample_session).1.1
     = {[ 0 := "A" ]}.
Proof.
  assert (load_questions (file_system sample_table) CSV_FILENAME
          = Ok sample_bank) as Hload by (vm_compute; reflexivity).
  assert (generate_exam sample_bank sample_random = Ok sample_exam) as Hgen
    by (vm_compute; reflexivity).
  split; [exact Hload|]. split; [exact Hgen|].
  destruct (generate_interaction (file_system sample_table) sample_random
              sample_bank sample_exam sample_browser sample_session Hload
              Hgen)
    as (q & _ & ->).
  reflexivity.
Defined.

(** The pick that a Generate does not forget: the user picks C for the
    first question and generates again; the options of the new first
    question read the same, its radio is the same widget, and C is
    recorded for it. *)
Example pick_outlives_generate :
  let '(b, s) := interacts (file_system sample_table) sample_random
                   [Select Key_C; ClickGenerate] sample_browser
                   sample_session in
  idx s = 0 /\ answers s = {[ 0 := "C" ]}.
Proof. vm_compute. done. Qed.

(** ** Selecting and navigating *)

Lemma sample_session_cursor_ok : cursor_ok sample_session.
Proof.
  intros e He. vm_compute in He. injection He as <-.
  split; [reflexivity|]. split; [by vm_compute|reflexivity].
Qed.

Lemma sample_session_exam : exam sample_session = Some sample_exam.
Proof. vm_compute. reflexivity. Qed.

Lemma sample_table_loads :
  load_questions (file_system sample_table) CSV_FILENAME = Ok sample_bank.
Proof. vm_compute. reflexivity. Qed.

(** The page of an interaction that presses no enabled button: the answer
    the radio returns is recorded for the question under the cursor. *)
Lemma page_select w (ev : Event) (s : SessionState) (e : Exam)
    (q : Question.t) :
  exam s = Some e -> py_index e (idx s) = Ok q ->
  (ev = ClickPrev -> idx s = 0) ->
  (ev = ClickNext -> idx s = EXAM_SIZE - 1) ->
  (page w ev s).1.1
  = set_answers (<[idx s := choice_of w q (answers s !! idx s)]> (answers s))
      s
  /\ (page w ev s).2 = Continue tt
  /\ radio_of (page w ev s).1.2
     = Some ("Respuesta:", labels q, default_index (answers s !! idx s)).
Proof.
  intros He Hq Hprev Hnext. rewrite page_run, He, Hq. cbv zeta.
  assert (bool_decide (ev = ClickPrev) && negb (bool_decide (idx s = 0))
          = false) as ->.
  { case_bool_decide; [|done]. by rewrite bool_decide_eq_true_2 by auto. }
  assert (bool_decide (ev = ClickNext)
          && negb (bool_decide (idx s = EXAM_SIZE - 1)) = false) as ->.
  { case_bool_decide; [|done]. by rewrite bool_decide_eq_true_2 by auto. }
  by destruct (bool_decide (ev = ClickFinish)).
Qed.

Lemma radio_of_top (top page : list Display) :
  radio_of top = None -> radio_of (top ++ page) = radio_of page.
Proof.
  induction top as [|d top IH]; [done|].
  by destruct d; cbn [radio_of app]; try apply IH.
Qed.

(** The radio on the page after an execution that neither generates nor
    resets is the radio of its page. *)
Lemma script_radio fs rnd w (ev : Event) (s : SessionState) df :
  load_questions fs CSV_FILENAME = Ok df ->
  ev <> ClickGenerate -> ev <> ClickReset ->
  radio_of (script fs rnd w ev s).1.2 = radio_of (page w ev s).1.2.
Proof.
  intros Hload Hg Hr. rewrite script_run, Hload. cbv zeta.
  rewrite !bool_decide_eq_false_2 by done. cbn [fst snd].
  by rewrite app_assoc, radio_of_top.
Qed.

Lemma interact_select fs rnd df (b : Browser) (s : SessionState) (e : Exam)
    (q : Question.t) (k : Key) :
  load_questions fs CSV_FILENAME = Ok df ->
  exam s = Some e -> py_index e (idx s) = Ok q ->
  (interact fs rnd (Select k) b s).1.1
  = set_answers
      (<[idx s := choice_of (pick (Select k) b) q (answers s !! idx s)]>
         (answers s)) s
  /\ (interact fs rnd (Select k) b s).2 = Continue tt
  /\ radio_of (interact fs rnd (Select k) b s).1.2
     = Some ("Respuesta:", labels q, default_index (answers s !! idx s)).
Proof.
  intros Hload He Hq.
  destruct (script_page fs rnd (pick (Select k) b) (Select k) s df Hload)
    as (Hst & Hout & _); [done..|].
  pose proof (script_radio fs rnd (pick (Select k) b) (Select k) s df Hload)
    as Hradio.
  destruct (page_select (pick (Select k) b) (Select k) s e q He Hq)
    as (Hpage & Hctl & Hshown); [done..|].
  rewrite interact_run, Hout, Hctl, Hst, Hpage, Hout, Hctl, Hradio by done.
  done.
Qed.

(** X11.  Selecting an option puts it on the radio of the page; the
    execution that follows records for the question under the cursor what
    the radio it draws returns, and leaves the exam, the cursor and the
    answers of the other questions as they were.  The option is recorded
    when the radio drawn is the radio of the page, that is, when the
    preselected option of the page is still the recorded answer.  After a
    pick that changed the answer it is not: the radio is drawn with
    another preselected option, it is another widget, and the pick that
    went to the radio of the page is not what is recorded. *)
Theorem select_records_choice
    (fs : string -> File) (rnd : Random) (df : DataFrame) (e : Exam)
    (b : Browser) (s : SessionState) (k : Key) :
  load_questions fs CSV_FILENAME = Ok df ->
  exam s = Some e -> cursor_ok s ->
  exists q, py_index e (idx s) = Ok q
    /\ exam (interact fs rnd (Select k) b s).1.1 = Some e
    /\ idx (interact fs rnd (Select k) b s).1.1 = idx s
    /\ (forall i, i <> idx s ->
          answers (interact fs rnd (Select k) b s).1.1 !! i
          = answers s !! i)
    /\ (shown b
        = Some ("Respuesta:", labels q, default_index (answers s !! idx s))
        -> answers (interact fs rnd (Select k) b s).1.1 !! idx s
           = Some (key_str k))
    /\ (forall r,
          shown b = Some r ->
          r <> ("Respuesta:", labels q, default_index (answers s !! idx s))
          -> answers (interact fs rnd (Select k) b s).1.1 !! idx s
             = Some (choice_of (held b) q (answers s !! idx s)))
    /\ shown (browse fs rnd (Select k) b s)
       = Some ("Respuesta:", labels q, default_index (answers s !! idx s))
    /\ (interact fs rnd (Select k) b s).2 = Continue tt.
Proof.
  intros Hload He Hc. destruct (Hc e He) as [_ Hidx].
  destruct (py_index_ok e (idx s) Hidx) as [q Hq]. exists q.
  destruct (interact_select fs rnd df b s e q k Hload He Hq)
    as (Hst & Hout & Hradio).
  unfold browse. cbn [shown]. rewrite Hst, Hout, Hradio.
  cbn [exam idx answers set_answers].
  split; [done|]. split; [done|]. split; [done|].
  split; [intros i Hi; by rewrite lookup_insert_ne|].
  split; [|split; [|done]].
  - intros Hshown. rewrite lookup_insert_eq. f_equal.
    unfold choice_of, pick. by rewrite Hshown, lookup_insert_eq.
  - intros r Hshown Hr. rewrite lookup_insert_eq. f_equal.
    unfold choice_of, pick. by rewrite Hshown, lookup_insert_ne.
Qed.

Lemma select_records_choice_witness :
  answers (interact (file_system sample_table) sample_random (Select Key_B)
             sample_browser sample_session).1.1 !! idx sample_session
  = Some "B".
Proof.
  destruct (select_records_choice (file_system sample_table) sample_random
              sample_bank sample_exam sample_browser sample_session Key_B
              sample_table_loads sample_session_exam
              sample_session_cursor_ok) as (q & Hq & _ & _ & _ & H & _).
  apply H. vm_compute in Hq. injection Hq as <-. vm_compute. reflexivity.
Defined.

(** The first pick is recorded and the second is lost: the page shows
    the radio with A preselected, the user picks C, then B; the execution
    after the second pick draws the radio with C preselected, which is
    another widget, and records C again.  A third pick, made on that
    radio, is recorded. *)
Example second_pick_lost :
  let fs := file_system sample_table in
  answers (interacts fs sample_random [Select Key_C]
             sample_browser sample_session).2 = {[ 0 := "C" ]}
  /\ answers (interacts fs sample_random [Select Key_C; Select Key_B]
                sample_browser sample_session).2 = {[ 0 := "C" ]}
  /\ answers (interacts fs sample_random
                [Select Key_C; Select Key_B; Select Key_B]
                sample_browser sample_session).2 = {[ 0 := "B" ]}.
Proof. vm_compute. done. Qed.

(** The page of a navigation: what the radio returns is recorded for
    the question under the cursor, then an enabled button moves the cursor
    and asks for a rerun. *)
Lemma page_draw w (ev : Event) (s : SessionState) (e : Exam) :
  exam s = Some e -> 0 <= idx s < Py.len e ->
  (page w ev s).1.1
  = set_idx (target ev s)
      (set_answers (<[idx s := drawn w e (answers s) (idx s)]> (answers s))
         s)
  /\ ((page w ev s).2 = Halt Rerun /\ target ev s <> idx s
      \/ (page w ev s).2 = Continue tt /\ target ev s = idx s).
Proof.
  intros He Hidx.
  destruct (py_index_ok e (idx s) Hidx) as [q Hq].
  rewrite page_run, He. unfold drawn. rewrite Hq. cbv zeta. unfold target.
  destruct (bool_decide (ev = ClickPrev) && negb (bool_decide (idx s = 0)));
    [cbn [fst snd]; split; [done|left; split; [done|lia]]|].
  destruct (bool_decide (ev = ClickNext)
            && negb (bool_decide (idx s = EXAM_SIZE - 1)));
    [cbn [fst snd]; split; [done|left; split; [done|lia]]|].
  destruct (bool_decide (ev = ClickFinish)); cbn [fst snd];
    (split; [by destruct s|by right]).
Qed.

Lemma target_range (ev : Event) (s : SessionState) (e : Exam) :
  Py.len e = EXAM_SIZE -> 0 <= idx s < Py.len e ->
  0 <= target ev s < Py.len e.
Proof.
  intros Hlen Hidx. unfold target. rewrite Hlen in *. unfold EXAM_SIZE in *.
  destruct (bool_decide (ev = ClickPrev)); cbn [andb].
  - case_bool_decide; cbn [negb]; [|lia].
    destruct (bool_decide (ev = ClickNext)); cbn [andb]; [|lia].
    case_bool_decide; cbn [negb]; lia.
  - destruct (bool_decide (ev = ClickNext)); cbn [andb]; [|lia].
    case_bool_decide; cbn [negb]; lia.
Qed.

Lemma target_redraw (s : SessionState) : target NoClick s = idx s.
Proof.
  unfold target. by rewrite !(bool_decide_eq_false_2 (NoClick = _)) by done.
Qed.

(** The session after a redraw, a navigation or a Finish, in full: the
    question under the cursor is drawn and, when the cursor moves, the
    question it moves to is drawn by the rerun. *)
Lemma interact_navigation_state fs rnd df (ev : Event) (b : Browser)
    (s : SessionState) (e : Exam) :
  load_questions fs CSV_FILENAME = Ok df ->
  exam s = Some e -> cursor_ok s -> navigation ev ->
  (interact fs rnd ev b s).1.1
  = {| exam := Some e;
       idx := target ev s;
       answers :=
         if bool_decide (target ev s = idx s) then
           <[idx s := drawn (held b) e (answers s) (idx s)]> (answers s)
         else
           <[target ev s := drawn (held b) e (answers s) (target ev s)]>
             (<[idx s := drawn (held b) e (answers s) (idx s)]>
                (answers s)) |}
  /\ (interact fs rnd ev b s).2 = Continue tt
  /\ held (browse fs rnd ev b s) = held b.
Proof.
  intros Hload He Hc Hnav.
  destruct (Hc e He) as [Hlen Hidx].
  assert (ev <> ClickGenerate /\ ev <> ClickReset
          /\ forall k, ev <> Select k) as (Hg & Hr & Hsel).
  { destruct Hnav as [->|[->|[->| ->]]]; done. }
  unfold browse. cbn [held]. rewrite interact_run, (pick_held ev b Hsel).
  split; [|split; [|done]].
  all: set (a1 := <[idx s := drawn (held b) e (answers s) (idx s)]>
                    (answers s)).
  all: set (t := set_idx (target ev s) (set_answers a1 s)).
  all: destruct (page_draw (held b) ev s e He Hidx) as [Hpage Hctl].
  all: fold a1 t in Hpage.
  all: destruct (script_page fs rnd (held b) ev s df Hload Hg Hr)
         as (Hst & Hout & _).
  all: assert (exam t = Some e /\ idx t = target ev s /\ answers t = a1)
         as (Het & Hit & Hat) by done.
  all: assert (0 <= idx t < Py.len e) as Hidx2
         by (rewrite Hit; by apply target_range).
  all: destruct (page_draw (held b) NoClick t e Het Hidx2) as [Hpage2 Hctl2].
  all: rewrite target_redraw in Hpage2, Hctl2.
  all: destruct (script_page fs rnd (held b) NoClick t df Hload)
         as (Hst2 & Hout2 & _); [done..|].
  all: destruct Hctl as [[Hrerun Hmove]|[Hcont Hsame]].
  - rewrite Hout, Hrerun, Hst, Hpage, Hst2, Hpage2.
    rewrite bool_decide_eq_false_2 by done.
    rewrite Hit, Hat. unfold set_idx, set_answers. cbn [exam idx answers].
    rewrite Het. f_equal. f_equal. unfold drawn.
    destruct (py_index e (target ev s)); unfold a1;
      by rewrite lookup_insert_ne.
  - rewrite Hout, Hcont, Hst, Hpage.
    rewrite bool_decide_eq_true_2 by done.
    unfold t, set_idx, set_answers. cbn [exam idx answers].
    by rewrite He, Hsame.
  - rewrite Hout, Hrerun, Hst, Hpage, Hout2.
    by destruct Hctl2 as [[_ Hne]|[-> _]].
  - by rewrite Hout, Hcont, Hout.
Qed.

(** What a draw records, by what is held for the radio it draws. *)
Lemma drawn_cases w (e : Exam) (ans : gmap Z string) (i : Z)
    (q : Question.t) :
  py_index e i = Ok q ->
  (forall k, ans !! i = Some (key_str k) -> kept w q k ->
     drawn w e ans i = key_str k)
  /\ (forall k k', ans !! i = Some (key_str k) ->
        w !! ("Respuesta:", labels q, key_pos k) = Some k' ->
        drawn w e ans i = key_str k')
  /\ (ans !! i = None -> w !! ("Respuesta:", labels q, 0%nat) = None ->
      drawn w e ans i = "A")
  /\ exists k, drawn w e ans i = key_str k.
Proof.
  intros Hq. unfold drawn. rewrite Hq.
  split; [|split; [|split]].
  - by intros k -> Hk.
  - intros k k' -> Hw. unfold choice_of.
    by rewrite default_index_key, Hw.
  - intros -> Hw. unfold choice_of. cbn [default_index]. by rewrite Hw.
  - apply choice_of_key.
Qed.

(** X12.  A redraw, Previous, Next or Finish keeps the exam and puts the
    cursor on the question the enabled button leads to.  The question
    left and, when the cursor moves, the question reached are drawn, and
    each gets recorded what its radio returns; the answers of all other
    questions are untouched.  So a recorded key stays when no other value
    is held for the radio that shows it, and is replaced by the held value
    otherwise; and a question without a recorded answer gets A when
    nothing is held for its radio.  The execution the interaction ends
    with runs to its last line. *)
Theorem navigation_records_defaults
    (fs : string -> File) (rnd : Random) (df : DataFrame) (e : Exam)
    (ev : Event) (b : Browser) (s : SessionState) :
  load_questions fs CSV_FILENAME = Ok df ->
  exam s = Some e -> cursor_ok s -> navigation ev ->
  exam (interact fs rnd ev b s).1.1 = Some e
  /\ idx (interact fs rnd ev b s).1.1 = target ev s
  /\ (forall i, i = idx s \/ i = target ev s ->
        answers (interact fs rnd ev b s).1.1 !! i
        = Some (drawn (held b) e (answers s) i))
  /\ (forall i, i <> idx s -> i <> target ev s ->
        answers (interact fs rnd ev b s).1.1 !! i = answers s !! i)
  /\ (forall i q k, i = idx s \/ i = target ev s ->
        py_index e i = Ok q -> answers s !! i = Some (key_str k) ->
        (kept (held b) q k ->
         answers (interact fs rnd ev b s).1.1 !! i = Some (key_str k))
        /\ forall k',
             held b !! ("Respuesta:", labels q, key_pos k) = Some k' ->
             answers (interact fs rnd ev b s).1.1 !! i
             = Some (key_str k'))
  /\ (forall i q, i = idx s \/ i = target ev s ->
        py_index e i = Ok q -> answers s !! i = None ->
        held b !! ("Respuesta:", labels q, 0%nat) = None ->
        answers (interact fs rnd ev b s).1.1 !! i = Some "A")
  /\ (interact fs rnd ev b s).2 = Continue tt.
Proof.
  intros Hload He Hc Hnav.
  destruct (interact_navigation_state fs rnd df ev b s e Hload He Hc Hnav)
    as (Hst & Hout & Hheld).
  rewrite Hout.
  assert (forall i, i = idx s \/ i = target ev s ->
            answers (interact fs rnd ev b s).1.1 !! i
            = Some (drawn (held b) e (answers s) i)) as Hdrawn.
  { intros i Hi. rewrite Hst. cbn [answers]. case_bool_decide as Hmove.
    - destruct Hi as [->| ->]; rewrite ?Hmove; apply lookup_insert_eq.
    - destruct Hi as [->| ->]; [|apply lookup_insert_eq].
      rewrite lookup_insert_ne by done. apply lookup_insert_eq. }
  split; [by rewrite Hst|]. split; [by rewrite Hst|]. split; [done|].
  split; [|split; [|split; [|done]]].
  - intros i Hi1 Hi2. rewrite Hst. cbn [answers].
    case_bool_decide; by rewrite !lookup_insert_ne by done.
  - intros i q k Hi Hq Hk. rewrite (Hdrawn i Hi).
    destruct (drawn_cases (held b) e (answers s) i q Hq) as (H1 & H2 & _).
    split; [intros Hkept; f_equal; by apply H1|].
    intros k' Hw. f_equal. by apply (H2 k).
  - intros i q Hi Hq Hnone Hw. rewrite (Hdrawn i Hi). f_equal.
    by apply (drawn_cases (held b) e (answers s) i q Hq).
Qed.

Lemma navigation_records_defaults_witness :
  idx (interact (file_system sample_table) sample_random ClickNext
         sample_browser sample_session).1.1
  = target ClickNext sample_session.
Proof.
  exact (proj1 (proj2
    (navigation_records_defaults (file_system sample_table) sample_random
       sample_bank sample_exam ClickNext sample_browser sample_session
       sample_table_loads sample_session_exam sample_session_cursor_ok
       (or_intror (or_intror (or_introl eq_refl)))))).
Defined.

(** A recorded answer replaced by a value that is held: the user records
    C for the second question, records B for the third on the radio that
    has C preselected, and presses Previous; the second question is drawn
    by that same radio, and its C becomes B. *)
Example held_value_replaces_answer :
  let fs := file_system sample_table in
  let before := interacts fs sample_random
                  [ClickNext; Select Key_C; ClickNext; Select Key_B;
                   Select Key_B]
                  sample_browser sample_session in
  let after := interacts fs sample_random [ClickPrev] before.1 before.2 in
  idx before.2 = 2
  /\ answers before.2 = {[ 0 := "A"; 1 := "C"; 2 := "B" ]}
  /\ idx after.2 = 1
  /\ answers after.2 = {[ 0 := "A"; 1 := "B"; 2 := "B" ]}.
Proof. vm_compute. done. Qed.

(** A navigation keeps the exam, the values held and every recorded key
    that its radio returns, and leaves the cursor on a question. *)
Lemma interact_navigation_keeps fs rnd df (ev : Event) (b : Browser)
    (s : SessionState) (e : Exam) :
  load_questions fs CSV_FILENAME = Ok df ->
  exam s = Some e -> cursor_ok s -> navigation ev ->
  exam (interact fs rnd ev b s).1.1 = Some e
  /\ cursor_ok (interact fs rnd ev b s).1.1
  /\ held (browse fs rnd ev b s) = held b
  /\ forall i q k, py_index e i = Ok q -> kept (held b) q k ->
       answers s !! i = Some (key_str k) ->
       answers (interact fs rnd ev b s).1.1 !! i = Some (key_str k).
Proof.
  intros Hload He Hc Hnav. destruct (Hc e He) as [Hlen Hidx].
  destruct (interact_navigation_state fs rnd df ev b s e Hload He Hc Hnav)
    as (Hst & _ & Hheld).
  rewrite Hheld, Hst. cbn [exam idx answers]. split; [done|]. split.
  { intros e' [= <-]. cbn [idx]. split; [done|]. by apply target_range. }
  split; [done|]. intros i q k Hq Hkept Hi.
  destruct (drawn_cases (held b) e (answers s) i q Hq) as (Hk & _).
  specialize (Hk k Hi Hkept).
  case_bool_decide as Hmove.
  - destruct (decide (i = idx s)) as [->|Hne];
      [by rewrite lookup_insert_eq, Hk|by rewrite lookup_insert_ne].
  - destruct (decide (i = target ev s)) as [->|Hne];
      [by rewrite lookup_insert_eq, Hk|].
    rewrite lookup_insert_ne by done.
    destruct (decide (i = idx s)) as [->|Hne2];
      [by rewrite lookup_insert_eq, Hk|by rewrite lookup_insert_ne].
Qed.

Lemma interacts_navigation_keeps fs rnd df (e : Exam) (evs : list Event) :
  forall b s,
  load_questions fs CSV_FILENAME = Ok df ->
  exam s = Some e -> cursor_ok s -> Forall navigation evs ->
  exam (interacts fs rnd evs b s).2 = Some e
  /\ cursor_ok (interacts fs rnd evs b s).2
  /\ held (interacts fs rnd evs b s).1 = held b
  /\ forall i q k, py_index e i = Ok q -> kept (held b) q k ->
       answers s !! i = Some (key_str k) ->
       answers (interacts fs rnd evs b s).2 !! i = Some (key_str k).
Proof.
  induction evs as [|ev evs IH]; intros b s Hload He Hc Hnav; [done|].
  apply Forall_cons in Hnav as [Hnav Hrest]. cbn [interacts].
  destruct (interact_navigation_keeps fs rnd df ev b s e Hload He Hc Hnav)
    as (He' & Hc' & Hheld & Hkeep).
  destruct (IH (browse fs rnd ev b s) _ Hload He' Hc' Hrest)
    as (He2 & Hc2 & Hheld2 & Hkeep2).
  split; [done|]. split; [done|]. split; [by rewrite Hheld2|].
  intros i q k Hq Hkept Hi. apply (Hkeep2 i q k Hq); [by rewrite Hheld|].
  by apply (Hkeep i q k).
Qed.

Lemma page_radio w (ev : Event) (s : SessionState) (e : Exam)
    (q : Question.t) :
  exam s = Some e -> py_index e (idx s) = Ok q ->
  Radio "Respuesta:" (labels q) (default_index (answers s !! idx s))
  ∈ (page w ev s).1.2.
Proof.
  intros He Hq. rewrite page_run, He, Hq. cbv zeta.
  destruct (_ && _);
    [cbn [fst snd app]; apply list_elem_of_further, list_elem_of_here|].
  destruct (_ && _);
    [cbn [fst snd app]; apply list_elem_of_further, list_elem_of_here|].
  destruct (bool_decide _); cbn [fst snd app];
    apply list_elem_of_further, list_elem_of_here.
Qed.

(** The page a navigation ends on shows the question under the new cursor
    with the option recorded for it preselected. *)
Lemma interact_navigation_radio fs rnd df (ev : Event) (b : Browser)
    (s : SessionState) (e : Exam) (q : Question.t) :
  load_questions fs CSV_FILENAME = Ok df ->
  exam s = Some e -> cursor_ok s -> navigation ev ->
  py_index e (target ev s) = Ok q ->
  Radio "Respuesta:" (labels q) (default_index (answers s !! target ev s))
  ∈ (interact fs rnd ev b s).1.2.
Proof.
  intros Hload He Hc Hnav Hq. destruct (Hc e He) as [Hlen Hidx].
  assert (ev <> ClickGenerate /\ ev <> ClickReset
          /\ forall k, ev <> Select k) as (Hg & Hr & Hsel).
  { destruct Hnav as [->|[->|[->| ->]]]; done. }
  destruct (page_draw (held b) ev s e He Hidx) as [Hpage Hctl].
  destruct (script_page fs rnd (held b) ev s df Hload Hg Hr)
    as (Hst & Hout & top & Htop).
  rewrite interact_run, (pick_held ev b Hsel), Hout.
  destruct Hctl as [[-> Hmove]|[-> Hsame]].
  - rewrite Hst, Hpage.
    set (t := set_idx (target ev s) _).
    destruct (script_page fs rnd (held b) NoClick t df Hload)
      as (_ & _ & top2 & ->); [done..|].
    apply elem_of_app. right.
    assert (default_index (answers s !! target ev s)
            = default_index (answers t !! idx t)) as ->.
    { cbn [t idx answers set_idx set_answers].
      by rewrite lookup_insert_ne by done. }
    by apply (page_radio (held b) NoClick t e q).
  - rewrite Htop. apply elem_of_app. right.
    rewrite Hsame in *. by apply (page_radio (held b) ev s e q).
Qed.

(** X13.  A key recorded for a question, for whose radio no other value is
    held, survives any sequence of redraws, Previous, Next and Finish; and
    when a further navigation lands on that question the radio is drawn
    with that key preselected and the key stays recorded. *)
Theorem answer_kept_and_shown
    (fs : string -> File) (rnd : Random) (df : DataFrame) (e : Exam)
    (evs : list Event) (ev : Event) (b : Browser) (s : SessionState)
    (i : Z) (k : Key) (q : Question.t) :
  load_questions fs CSV_FILENAME = Ok df ->
  exam s = Some e -> cursor_ok s ->
  Forall navigation evs -> navigation ev ->
  py_index e i = Ok q -> answers s !! i = Some (key_str k) ->
  kept (held b) q k ->
  answers (interacts fs rnd evs b s).2 !! i = Some (key_str k)
  /\ (target ev (interacts fs rnd evs b s).2 = i ->
      Radio "Respuesta:" (labels q) (key_pos k)
      ∈ (interact fs rnd ev (interacts fs rnd evs b s).1
           (interacts fs rnd evs b s).2).1.2
      /\ answers (interact fs rnd ev (interacts fs rnd evs b s).1
                    (interacts fs rnd evs b s).2).1.1 !! i
         = Some (key_str k)).
Proof.
  intros Hload He Hc Hevs Hev Hq Hi Hkept.
  destruct (interacts_navigation_keeps fs rnd df e evs b s Hload He Hc Hevs)
    as (He' & Hc' & Hheld & Hkeep).
  pose proof (Hkeep i q k Hq Hkept Hi) as Hi'.
  split; [done|]. intros Htgt. split.
  - rewrite <- default_index_key, <- Hi'. rewrite <- Htgt in Hq |- *.
    by apply (interact_navigation_radio fs rnd df ev _ _ e q).
  - destruct (interact_navigation_keeps fs rnd df ev
                (interacts fs rnd evs b s).1 _ e Hload He' Hc' Hev)
      as (_ & _ & _ & Hkeep').
    apply (Hkeep' i q k Hq); [by rewrite Hheld|done].
Qed.

Lemma answer_kept_and_shown_witness :
  answers (interacts (file_system sample_table) sample_random
             [ClickNext; ClickFinish; ClickPrev] sample_browser
             sample_session).2 !! 0
  = Some "A".
Proof.
  assert (exists q, py_index sample_exam 0 = Ok q) as [q Hq].
  { apply py_index_ok. by vm_compute. }
  assert (answers sample_session !! 0 = Some (key_str Key_A)) as Hans
    by (vm_compute; reflexivity).
  assert (kept (held sample_browser) q Key_A) as Hkept.
  { apply kept_iff. left. apply lookup_empty. }
  exact (proj1
    (answer_kept_and_shown (file_system sample_table) sample_random
       sample_bank sample_exam [ClickNext; ClickFinish; ClickPrev] NoClick
       sample_browser sample_session 0 Key_A q sample_table_loads
       sample_session_exam sample_session_cursor_ok
       (Forall_cons_2 _ _ _ (or_intror (or_intror (or_introl eq_refl)))
          (Forall_cons_2 _ _ _
             (or_intror (or_intror (or_intror eq_refl)))
             (Forall_cons_2 _ _ _ (or_intror (or_introl eq_refl))
                (Forall_nil_2 _))))
       (or_introl eq_refl) Hq Hans Hkept)).
Defined.

(** ** Invariants of the session *)

Lemma choice_of_keys w (q : Question.t) (current : option string) :
  choice_of w q current ∈ keys.
Proof.
  destruct (choice_of_key w q current) as [k ->].
  destruct k; cbn [key_str]; unfold keys;
    repeat first [apply list_elem_of_here|apply list_elem_of_further].
Qed.

Lemma page_session_ok w (ev : Event) (s : SessionState) :
  cursor_ok s -> session_ok s -> session_ok (page w ev s).1.1.
Proof.
  intros Hc Hs. pose proof Hs as [Hnone Hans]. rewrite page_run.
  destruct (exam s) as [e|] eqn:He; [|exact Hs].
  destruct (py_index e (idx s)) as [q|x]; [|exact Hs].
  destruct (Hc e He) as [Hlen Hidx]. rewrite Hlen in Hidx. cbv zeta.
  assert (forall j, session_ok
            (set_idx j (set_answers
               (<[idx s := choice_of w q (answers s !! idx s)]> (answers s))
               s))) as Hok.
  { intros j. split; [cbn; by rewrite He|].
    intros i v. cbn [answers set_idx set_answers].
    destruct (decide (i = idx s)) as [->|Hne].
    - rewrite lookup_insert_eq. intros [= <-].
      split; [done|]. apply choice_of_keys.
    - rewrite lookup_insert_ne by done. apply Hans. }
  destruct (_ && _); [apply Hok|]. destruct (_ && _); [apply Hok|].
  pose proof (Hok (idx s)) as Hsame.
  by destruct (bool_decide _), s.
Qed.

Lemma script_session_ok fs rnd w (ev : Event) (s : SessionState) :
  cursor_ok s -> session_ok s -> session_ok (script fs rnd w ev s).1.1.
Proof.
  intros Hc Hs. pose proof (page_session_ok w ev s Hc Hs) as Hpage.
  rewrite script_run.
  destruct (load_questions fs CSV_FILENAME) as [df|x]; [|done].
  cbv zeta. case_bool_decide.
  - destruct (generate_exam df rnd) as [e|x]; [|done].
    split; [done|]. intros i v. cbn [fst answers]. by rewrite lookup_empty.
  - case_bool_decide; [|done].
    split; [done|]. intros i v. cbn [fst answers]. by rewrite lookup_empty.
Qed.

Lemma reachable_session_ok (s : SessionState) : reachable s -> session_ok s.
Proof.
  induction 1 as [|s fs rnd w ev Hs IH].
  - split; [done|]. intros i v. cbn. by rewrite lookup_empty.
  - apply script_session_ok; [by apply reachable_cursor_ok|done].
Qed.

Lemma reachable_interact fs rnd (ev : Event) (b : Browser)
    (s : SessionState) :
  reachable s -> reachable (interact fs rnd ev b s).1.1.
Proof.
  intros Hs. rewrite interact_run.
  destruct (script fs rnd (pick ev b) ev s).2 as [[]|[| |x]] eqn:Hctl;
    repeat apply reachable_script; done.
Qed.

Lemma reachable_interacts fs rnd (evs : list Event) : forall b s,
  reachable s -> reachable (interacts fs rnd evs b s).2.
Proof.
  induction evs as [|ev evs IH]; intros b s Hs; [done|].
  cbn [interacts]. by apply IH, reachable_interact.
Qed.

(** X14.  Whatever the user does, over any files and random draws and
    whatever values are held for the radios, from a session that stores
    nothing: an exam in progress has 20 questions and
    the cursor is one of its positions; every recorded answer is A, B or C
    and belongs to a position of the exam; and without an exam the cursor
    is 0 and nothing is recorded. *)
Theorem session_invariant
    (fs : string -> File) (rnd : Random) (evs : list Event)
    (b : Browser) (s : SessionState) :
  reachable s ->
  let s' := (interacts fs rnd evs b s).2 in
  (forall e, exam s' = Some e ->
     Py.len e = EXAM_SIZE /\ 0 <= idx s' < EXAM_SIZE)
  /\ (forall i v, answers s' !! i = Some v ->
        0 <= i < EXAM_SIZE /\ (v = "A" \/ v = "B" \/ v = "C"))
  /\ (exam s' = None -> idx s' = 0 /\ answers s' = ∅).
Proof.
  intros Hs s'.
  assert (reachable s') as Hr by by apply reachable_interacts.
  pose proof (reachable_cursor_ok s' Hr) as Hc.
  destruct (reachable_session_ok s' Hr) as [Hnone Hans].
  split; [|split; [|done]].
  - intros e He. destruct (Hc e He) as [Hlen Hidx]. by rewrite <- Hlen.
  - intros i v Hi. destruct (Hans i v Hi) as [Hrange Hv].
    split; [done|]. unfold keys in Hv.
    repeat (apply elem_of_cons in Hv as [->|Hv]; [tauto|]).
    by apply elem_of_nil in Hv.
Qed.

Lemma session_invariant_witness :
  0 <= idx (interacts (file_system sample_table) sample_random
              [ClickGenerate; Select Key_C; ClickNext] fresh_browser
              (ensure_state None)).2
    < EXAM_SIZE.
Proof.
  assert (exam (interacts (file_system sample_table) sample_random
                  [ClickGenerate; Select Key_C; ClickNext] fresh_browser
                  (ensure_state None)).2
          = Some sample_exam) as He by (vm_compute; reflexivity).
  exact (proj2 (proj1
    (session_invariant (file_system sample_table) sample_random
       [ClickGenerate; Select Key_C; ClickNext] fresh_browser
       (ensure_state None) reachable_fresh) sample_exam He)).
Defined.

(** ** How an execution ends *)

Lemma page_outcome w (ev : Event) (s : SessionState) :
  cursor_ok s ->
  exam (page w ev s).1.1 = exam s
  /\ (page w ev s).2
     = match exam s with
       | None => Halt Stop
       | Some _ =>
           if bool_decide (ev = ClickPrev) && negb (bool_decide (idx s = 0))
              || bool_decide (ev = ClickNext)
                 && negb (bool_decide (idx s = EXAM_SIZE - 1))
           then Halt Rerun else Continue tt
       end.
Proof.
  intros Hc. rewrite page_run.
  destruct (exam s) as [e|] eqn:He; [|cbn [fst snd]; by rewrite He].
  destruct (Hc e He) as [_ Hidx].
  destruct (py_index_ok e (idx s) Hidx) as [q ->]. cbv zeta.
  destruct (bool_decide (ev = ClickPrev) && negb (bool_decide (idx s = 0)));
    [done|].
  destruct (bool_decide (ev = ClickNext)
            && negb (bool_decide (idx s = EXAM_SIZE - 1))); [done|].
  by destruct (bool_decide (ev = ClickFinish)).
Qed.

(** The execution that follows a rerun ends on its last line when there is
    an exam and at [st.stop()] when there is none or the file is broken. *)
Lemma script_redraw_outcome fs rnd w (t : SessionState) :
  cursor_ok t ->
  exam (script fs rnd w NoClick t).1.1 = exam t
  /\ (script fs rnd w NoClick t).2
     = match load_questions fs CSV_FILENAME, exam t with
       | Ok _, Some _ => Continue tt
       | _, _ => Halt Stop
       end.
Proof.
  intros Hc. destruct (page_outcome w NoClick t Hc) as [Hex Hout].
  rewrite script_run.
  destruct (load_questions fs CSV_FILENAME) as [df|x]; [|done].
  cbv zeta. rewrite !(bool_decide_eq_false_2 (NoClick = _)) by done.
  cbn [fst snd]. split; [done|]. rewrite Hout.
  destruct (exam t); [|done].
  by rewrite !(bool_decide_eq_false_2 (NoClick = _)) by done.
Qed.

(** X15.  On a session the script can produce, an execution never ends in
    an uncaught exception: a file that does not load and an exam that
    cannot be drawn are reported on the page, and the cursor is always a
    position of the exam.  It asks for a rerun exactly when the file loads
    and the user pressed Generate and the exam was drawn, or Reset, or,
    with an exam in progress, Previous away from the first question or Next
    away from the last one. *)
Theorem script_outcome
    (fs : string -> File) (rnd : Random) (w : Widgets) (ev : Event)
    (s : SessionState) :
  reachable s ->
  (forall x, (script fs rnd w ev s).2 <> Halt (Crash x))
  /\ ((script fs rnd w ev s).2 = Halt Rerun <->
      exists df, load_questions fs CSV_FILENAME = Ok df
        /\ ((ev = ClickGenerate /\ exists e, generate_exam df rnd = Ok e)
            \/ ev = ClickReset
            \/ (exam s <> None /\ ev = ClickPrev /\ idx s <> 0)
            \/ (exam s <> None /\ ev = ClickNext
                /\ idx s <> EXAM_SIZE - 1))).
Proof.
  intros Hs. pose proof (reachable_cursor_ok s Hs) as Hc.
  destruct (page_outcome w ev s Hc) as [_ Hpage].
  remember (script fs rnd w ev s).2 as o eqn:Ho.
  rewrite script_run in Ho.
  destruct (load_questions fs CSV_FILENAME) as [df|x];
    [|subst o; split; [done|]; split; [done|]; by intros (df & Hdf & _)].
  cbv zeta in Ho.
  destruct (decide (ev = ClickGenerate)) as [->|Hg].
  { rewrite bool_decide_eq_true_2 in Ho by done.
    destruct (generate_exam df rnd) as [e|x] eqn:Hgen.
    - subst o. split; [done|]. split; [|done]. intros _. exists df.
      split; [done|]. left. split; [done|]. by exists e.
    - cbn [snd] in Ho. rewrite Hpage in Ho.
      rewrite !(bool_decide_eq_false_2 (ClickGenerate = _)) in Ho by done.
      cbn [andb orb] in Ho.
      assert (o <> Halt Rerun /\ forall y, o <> Halt (Crash y)) as [Hn1 Hn2].
      { subst o. by destruct (exam s). }
      split; [done|]. split; [done|].
      intros (df' & [= <-] & [[_ [e He]]|[?|[(_ & ? & _)|(_ & ? & _)]]]);
        congruence. }
  rewrite (bool_decide_eq_false_2 (ev = ClickGenerate)) in Ho by done.
  destruct (decide (ev = ClickReset)) as [->|Hr].
  { subst o. split; [done|]. split; [|done]. intros _. exists df.
    split; [done|]. right. by left. }
  rewrite (bool_decide_eq_false_2 (ev = ClickReset)) in Ho by done.
  cbn [snd] in Ho. rewrite Hpage in Ho.
  destruct (exam s) as [e|] eqn:He.
  2: { subst o. split; [done|]. split; [done|].
       intros (df' & _ & [[? _]|[?|[(? & _)|(? & _)]]]); done. }
  destruct (bool_decide (ev = ClickPrev) && negb (bool_decide (idx s = 0)))
    eqn:Hprev; cbn [orb] in Ho.
  { apply andb_true_iff in Hprev as [Hev Hi].
    apply bool_decide_eq_true in Hev.
    apply negb_true_iff, bool_decide_eq_false in Hi.
    subst o. split; [done|]. split; [|done]. intros _. exists df.
    split; [done|]. right. right. by left. }
  destruct (bool_decide (ev = ClickNext)
            && negb (bool_decide (idx s = EXAM_SIZE - 1))) eqn:Hnext.
  { apply andb_true_iff in Hnext as [Hev Hi].
    apply bool_decide_eq_true in Hev.
    apply negb_true_iff, bool_decide_eq_false in Hi.
    subst o. split; [done|]. split; [|done]. intros _. exists df.
    split; [done|]. right. right. by right. }
  subst o. split; [done|]. split; [done|].
  intros (df' & _ & [[? _]|[?|[(_ & -> & Hi)|(_ & -> & Hi)]]]);
    [done|done| |].
  - rewrite bool_decide_eq_true_2 in Hprev by done.
    by rewrite (bool_decide_eq_false_2 _ Hi) in Hprev.
  - rewrite bool_decide_eq_true_2 in Hnext by done.
    by rewrite (bool_decide_eq_false_2 _ Hi) in Hnext.
Qed.

Lemma script_outcome_witness :
  (script (file_system short_table) sample_random ∅ ClickGenerate
     (ensure_state None)).2
  <> Halt (Crash (IndexError "list index out of range")).
Proof.
  exact (proj1
    (script_outcome (file_system short_table) sample_random ∅
       ClickGenerate (ensure_state None) reachable_fresh)
    (IndexError "list index out of range")).
Defined.

(** X16.  One rerun is all an interaction needs: on a session the script
    can produce, the execution an interaction ends with runs to its last
    line when the file loads and the session then holds an exam, and stops
    at [st.stop()] otherwise; it ends neither in a second rerun nor in an
    exception. *)
Theorem interact_outcome
    (fs : string -> File) (rnd : Random) (ev : Event) (b : Browser)
    (s : SessionState) :
  reachable s ->
  (interact fs rnd ev b s).2
  = match load_questions fs CSV_FILENAME,
          exam (interact fs rnd ev b s).1.1 with
    | Ok _, Some _ => Continue tt
    | _, _ => Halt Stop
    end.
Proof.
  intros Hs. pose proof (reachable_cursor_ok s Hs) as Hc.
  rewrite interact_run.
  set (w := pick ev b).
  destruct (script fs rnd w ev s).2 as [[]|[| |x]] eqn:Hctl.
  3: { destruct (script_redraw_outcome fs rnd w (script fs rnd w ev s).1.1)
         as [-> ->]; [by apply script_cursor_ok|done]. }
  all: rewrite Hctl.
  all: destruct (load_questions fs CSV_FILENAME) as [df|x'] eqn:Hload;
    [|by rewrite script_run, Hload in Hctl].
  all: destruct (script_no_rerun fs rnd w ev s df Hload) as [-> Hout];
    [by rewrite Hctl|].
  all: destruct (page_outcome w ev s Hc) as [-> Hpage].
  all: rewrite Hctl, Hpage in Hout.
  all: destruct (exam s); [|done].
  all: by destruct (_ || _).
Qed.

Lemma interact_outcome_witness :
  (interact (file_system sample_table) sample_random ClickGenerate
     fresh_browser (ensure_state None)).2
  = Continue tt.
Proof.
  rewrite (interact_outcome (file_system sample_table) sample_random
             ClickGenerate fresh_browser (ensure_state None)
             reachable_fresh).
  vm_compute. reflexivity.
Defined.

(** ** The review and the stored attributes *)

Lemma sorted_lt_NoDup (l : list Z) : StronglySorted Z.lt l -> NoDup l.
Proof.
  induction 1 as [|a l Hl IH Hall]; constructor; [|done].
  intros Hin. rewrite Forall_forall in Hall.
  specialize (Hall a Hin). lia.
Qed.

(** X17.  The review of the Finish page agrees with its counters: it has
    one entry per wrong answer, no question twice, and a question of the
    exam is in it, with the answer recorded for it, exactly when that
    answer is not its key; so the entries and the correct answers together
    account for every question of the exam. *)
Theorem review_matches_counters (e : Exam) (ans : gmap Z string) :
  Py.len (map review_entry (missed e ans)) = (grade e ans).2
  /\ (grade e ans).1 + Py.len (map review_entry (missed e ans)) = Py.len e
  /\ NoDup (missed e ans).*1.*1
  /\ (forall i q a,
        (i, q, a) ∈ missed e ans <->
        0 <= i /\ e !! Z.to_nat i = Some q /\ a = ans !! i
        /\ a <> Some (Question.correcta q)).
Proof.
  assert (Py.len (map review_entry (missed e ans)) = Py.len (missed e ans))
    as -> by (unfold Py.len; by rewrite length_map).
  rewrite grade_missed. cbn [fst snd].
  split; [done|]. split; [lia|]. split.
  - apply sorted_lt_NoDup, missed_from_sorted.
  - intros i q a. apply missed_elem.
Qed.

(** X18.  [ensure_state] fills in the attributes the session does not
    store and keeps every attribute it stores: the result always holds a
    whole session, a second call changes nothing, a session written by an
    earlier execution is left as it is, and a store with no attribute
    becomes the session with no exam, the cursor at 0 and no answers. *)
Theorem ensure_state_keeps_stored (st : Stored) :
  session_of (ensure_attrs st)
  = Some {| exam := default None (stored_exam st);
            idx := default 0 (stored_idx st);
            answers := default ∅ (stored_answers st) |}
  /\ ensure_attrs (ensure_attrs st) = ensure_attrs st
  /\ (forall s, session_of st = Some s ->
        ensure_attrs st = st
        /\ session_of (ensure_attrs st) = Some (ensure_state (Some s)))
  /\ session_of (ensure_attrs {| stored_exam := None; stored_idx := None;
                                 stored_answers := None |})
     = Some (ensure_state None).
Proof.
  destruct st as [[ex|] [i|] [a|]]; cbn;
    (split; [done|]); (split; [done|]); (split; [|done]);
    intros s Hs; by try injection Hs as <-.
Qed.
